(** * The service client of khulnasoft-cloud-sdk-go, [services/client.go]

    A shallow embedding of the transport core: the URL builders
    ([BuildHost], [BuildURLWithTenant], [BuildURLFromPathParams]), request
    construction ([NewRequest], [makeFormRequest]), the execution pipeline
    ([Do], [DoRequest]) and client construction ([NewClient]).

    Go strings are byte strings and are embedded as [string]; Go's fixed-width
    integers are embedded as [Z] with their wrap-around written out; a Go
    [(value, error)] result keeps both components, since the code tests
    them separately.  Effects (the clock, the token retriever, the transport,
    the mutex) are threaded through an explicit [World] whose trace records
    every call that leaves the client. *)

From Stdlib Require Import ZArith String Ascii List Lia Bool DecimalString.
From stdpp Require Import base gmap strings list.

Local Open Scope string_scope.
Local Open Scope Z_scope.

(** ** Go values *)

(** A Go [error], identified by its message ([err.Error()]). *)
Definition error := string.

(** A byte slice, [[]byte]. *)
Definition bytes := list Byte.byte.

Definition bytes_of (s : string) : bytes := list_byte_of_string s.

(** [int64] arithmetic: two's complement wrap-around on 64 bits. *)
Definition wrap64 (z : Z) : Z := (z + 2 ^ 63) mod 2 ^ 64 - 2 ^ 63.

Definition add64 (a b : Z) : Z := wrap64 (a + b).

(** [uint] arithmetic on a target whose [uint] has [bits] bits. *)
Definition uint_wrap (bits z : Z) : Z := z mod 2 ^ bits.

(** [fmt.Sprintf("%d", n)]. *)
Definition Sprintf_d (n : Z) : string := NilZero.string_of_int (Z.to_int n).

(** ** Package [strings] *)

(** [strings.HasPrefix(s, prefix)]. *)
Fixpoint strings_HasPrefix (s prefix : string) {struct prefix} : bool :=
  match prefix with
  | EmptyString => true
  | String p prefix' =>
      match s with
      | EmptyString => false
      | String c s' => Ascii.eqb c p && strings_HasPrefix s' prefix'
      end
  end.

(** [strings.Contains(s, substr)]: [substr] starts at some index of [s]. *)
Fixpoint strings_Contains (s substr : string) : bool :=
  strings_HasPrefix s substr
  || match s with
     | EmptyString => false
     | String _ s' => strings_Contains s' substr
     end.

(** [strings.ContainsAny(s, chars)]. *)
Fixpoint strings_ContainsAny (s chars : string) : bool :=
  match s with
  | EmptyString => false
  | String c s' =>
      strings_Contains chars (String c EmptyString) || strings_ContainsAny s' chars
  end.

(** [x == nil] for an interface or pointer value. *)
Definition is_nil {A} (x : option A) : bool :=
  match x with
  | None => true
  | Some _ => false
  end.

(** [len(s) == 0], [s == ""]. *)
Definition is_empty (s : string) : bool := String.eqb s "".

(** ** Package [path] *)

Definition slash : ascii := "/"%char.
Definition dot : ascii := "."%char.

(** The inner loop of the [..] case of [path.Clean]:
    [out.w--; for out.w > dotdot && out.index(out.w) != '/' { out.w-- }].
    The output buffer is kept reversed, so its head is [out.index(out.w - 1)]. *)
Fixpoint path_backtrack (rout : list ascii) (dotdot : nat) : list ascii :=
  match rout with
  | [] => []
  | c :: rest =>
      if (dotdot <? List.length rest)%nat && negb (Ascii.eqb c slash)
      then path_backtrack rest dotdot
      else rest
  end.

(** [for ; r < n && path[r] != '/'; r++ { out.append(path[r]) }]: returns
    the new (reversed) buffer and the unread input. *)
Fixpoint path_copy_element (r : string) (rout : list ascii) : list ascii * string :=
  match r with
  | EmptyString => (rout, EmptyString)
  | String c r' =>
      if Ascii.eqb c slash then (rout, r) else path_copy_element r' (c :: rout)
  end.

Definition starts_with_slash_or_ends (r : string) : bool :=
  match r with
  | EmptyString => true
  | String c _ => Ascii.eqb c slash
  end.

(** The main loop [for r < n { switch ... }] of [path.Clean]; [r] is the
    unread input [path[r:]], [rout] the reversed output [buf[:w]]. Every
    iteration reads at least one byte, so [fuel = len(path)] suffices. *)
Fixpoint path_clean_loop (fuel : nat) (rooted : bool) (r : string)
    (rout : list ascii) (dotdot : nat) : list ascii :=
  match fuel with
  | O => rout
  | S fuel' =>
      match r with
      | EmptyString => rout
      | String c r1 =>
          if Ascii.eqb c slash then
            (* empty path element *)
            path_clean_loop fuel' rooted r1 rout dotdot
          else if Ascii.eqb c dot && starts_with_slash_or_ends r1 then
            (* . element *)
            path_clean_loop fuel' rooted r1 rout dotdot
          else
            match r1 with
            | String c1 r2 =>
                if Ascii.eqb c dot && Ascii.eqb c1 dot && starts_with_slash_or_ends r2 then
                  (* .. element: remove to last / *)
                  if (dotdot <? List.length rout)%nat then
                    path_clean_loop fuel' rooted r2 (path_backtrack rout dotdot) dotdot
                  else if negb rooted then
                    let rout1 := if (0 <? List.length rout)%nat then slash :: rout else rout in
                    let rout2 := dot :: dot :: rout1 in
                    path_clean_loop fuel' rooted r2 rout2 (List.length rout2)
                  else
                    path_clean_loop fuel' rooted r2 rout dotdot
                else
                  (* real path element *)
                  let w := List.length rout in
                  let rout1 :=
                    if (rooted && negb (w =? 1)%nat) || (negb rooted && negb (w =? 0)%nat)
                    then slash :: rout else rout in
                  let '(rout2, r') := path_copy_element r rout1 in
                  path_clean_loop fuel' rooted r' rout2 dotdot
            | EmptyString =>
                let w := List.length rout in
                let rout1 :=
                  if (rooted && negb (w =? 1)%nat) || (negb rooted && negb (w =? 0)%nat)
                  then slash :: rout else rout in
                let '(rout2, r') := path_copy_element r rout1 in
                path_clean_loop fuel' rooted r' rout2 dotdot
            end
      end
  end.

(** [path.Clean(path)]. *)
Definition path_Clean (path : string) : string :=
  match path with
  | EmptyString => "."
  | String c rest =>
      let rooted := Ascii.eqb c slash in
      let out :=
        if rooted
        then path_clean_loop (String.length path) true rest [slash] 1
        else path_clean_loop (String.length path) false path [] 0 in
      match out with
      | [] => "."
      | _ => string_of_list_ascii (rev out)
      end
  end.

(** The buffer that [path.Join] fills: an element is appended when the buffer
    is non-empty or the element is, with a [/] before it in the first case. *)
Fixpoint path_join_buf (buf : string) (elem : list string) : string :=
  match elem with
  | [] => buf
  | e :: elem' =>
      if negb (is_empty buf) || negb (is_empty e) then
        path_join_buf ((if negb (is_empty buf) then buf ++ "/" else buf) ++ e) elem'
      else path_join_buf buf elem'
  end.

(** [path.Join(elem...)]. *)
Definition path_Join (elem : list string) : string :=
  if forallb is_empty elem then "" else path_Clean (path_join_buf "" elem).

(** ** Package [net/url] *)

Module url.
(** The fields of [url.URL] that the client sets. *)
Record URL := mkURL {
  Scheme : string;
  Host : string;
  Path : string;
  RawQuery : string }.
End url.

(** ** Package [net/http] *)

Module http.
(** [Header] is an [http.Header], a [map[string][]string] under canonical
    keys. *)
Record Request := mkRequest {
  Method : string;
  URL : string;
  Header : gmap string (list string);
  Body : option bytes }.

(** [RespHeader] is the [Header] field of [http.Response]. *)
Record Response := mkResponse {
  StatusCode : Z;
  RespHeader : gmap string (list string);
  RespBody : bytes }.

(** A result pair of the library, a response and an error, as [RoundTrip]
    of a transport and [Do] of [http.Client] hand it back: a response without
    an error, or an error (with which a response may still come). *)
Inductive RoundTrip :=
| Answer (response : Response)
| Failure (response : option Response) (err : error).

(** A transport, [http.RoundTripper]: its reply to a request, given how
    many calls came before. *)
Definition RoundTripper := nat -> Request -> RoundTrip.

Record Client := mkClient {
  Timeout : Z;
  Transport : option RoundTripper }.

(** [textproto]'s [validHeaderFieldByte] and [net/http]'s token table:
    the bytes of an RFC 7230 token. *)
Definition isTokenByte (c : ascii) : bool :=
  let n := nat_of_ascii c in
  ((48 <=? n) && (n <=? 57) || (65 <=? n) && (n <=? 90)
   || (97 <=? n) && (n <=? 122))%nat
  || strings_Contains "!#$%&'*+-.^_`|~" (String c EmptyString).

Definition isLower (c : ascii) : bool :=
  let n := nat_of_ascii c in ((97 <=? n) && (n <=? 122))%nat.

Definition isUpper (c : ascii) : bool :=
  let n := nat_of_ascii c in ((65 <=? n) && (n <=? 90))%nat.

(** The second loop of [canonicalMIMEHeaderKey]: upper case for the first
    letter and after each dash, lower case elsewhere. *)
Fixpoint canonical_case (upper : bool) (s : string) : string :=
  match s with
  | EmptyString => EmptyString
  | String c s' =>
      let c' :=
        if upper && isLower c then ascii_of_nat (nat_of_ascii c - 32)
        else if negb upper && isUpper c then ascii_of_nat (nat_of_ascii c + 32)
        else c in
      String c' (canonical_case (Ascii.eqb c' "-"%char) s')
  end.

(** [textproto.CanonicalMIMEHeaderKey]: a key with a byte that is no
    token byte is returned unchanged. *)
Definition CanonicalMIMEHeaderKey (s : string) : string :=
  if forallb isTokenByte (list_ascii_of_string s) then canonical_case true s else s.

(** [Header.Set(key, value)]. *)
Definition Header_Set (h : gmap string (list string)) (key value : string)
    : gmap string (list string) :=
  <[CanonicalMIMEHeaderKey key := [value]]> h.

(** [Header.Get(key)]: the first value under the canonical key, or [""]. *)
Definition Header_Get (h : gmap string (list string)) (key : string) : string :=
  match h !! CanonicalMIMEHeaderKey key with
  | Some (v :: _) => v
  | _ => ""
  end.

(** [validMethod]. *)
Definition validMethod (method : string) : bool :=
  negb (is_empty method) && forallb isTokenByte (list_ascii_of_string method).
End http.

(** ** Package [idp] *)

Module idp.
(** The fields of [idp.Context] that the client reads. *)
Record Context := mkContext {
  AccessToken : string;
  ExpiresIn : Z;
  StartTime : Z }.

(** A [TokenRetriever]: what its [GetTokenContext()] returns, given how
    many times a retriever was called before. *)
Definition TokenRetriever := nat -> option Context * option error.

End idp.

(** ** Package [gdepservices] *)

Module gdepservices.
(** An [io.Reader]: the bytes it yields, then end of file or an error. *)
Record Reader := mkReader {
  data : bytes;
  failure : option error }.

Record FormData := mkFormData {
  Key : string;
  Filename : string;
  Stream : Reader }.

(** A request body, an [interface{}] value, by its dynamic type as the
    client tells it apart: a [[]byte]; a [FormData]; a value with the
    method [MarshalJSONByMethod] of [util.MethodMarshaler]; any other value.
    [json] is what [json.Marshal] makes of the value. *)
Inductive BodyValue :=
| Bytes (contentBytes : bytes)
| Form (forms : FormData) (json : bytes + error)
| Marshaler (MarshalJSONByMethod : string -> bytes + error)
| Other (json : bytes + error).

(** The type assertion [Body.(FormData)]. *)
Definition as_FormData (body : BodyValue) : option FormData :=
  match body with
  | Form forms _ => Some forms
  | _ => None
  end.

(** [Headers] is a Go map: its entries, with distinct keys, in the order
    in which the [range] loop of NewRequest visits them. *)
Record RequestParams := mkRequestParams {
  Method : string;
  URL : url.URL;
  Body : option BodyValue;
  Headers : list (string * string) }.
End gdepservices.

(** [headers[key]] on a [map[string]string]: [""] for a missing key. *)
Fixpoint map_index (headers : list (string * string)) (key : string) : string :=
  match headers with
  | [] => ""
  | (k, v) :: headers' => if String.eqb k key then v else map_index headers' key
  end.

(** ** The world outside the client *)

Inductive Event :=
| EvLock                                  (* c.tokenMux.Lock() *)
| EvUnlock                                (* c.tokenMux.Unlock() *)
| EvGetTokenContext                       (* tokenRetriever.GetTokenContext() *)
| EvNewRequest (method url : string)      (* http.NewRequest(...) *)
| EvSend (request : http.Request) (attempts : Z).   (* c.httpClient.Do(...) *)

Record World := mkWorld {
  now : Z;                 (* time.Now(), in nanoseconds since the Unix epoch *)
  boundary : string;       (* the boundary multipart.NewWriter draws *)
  trace : list Event }.

Definition emit (ev : Event) (w : World) : World :=
  {| now := now w; boundary := boundary w; trace := trace w ++ [ev] |}.

Definition is_GetTokenContext (ev : Event) : bool :=
  match ev with EvGetTokenContext => true | _ => false end.

Definition is_Send (ev : Event) : bool :=
  match ev with EvSend _ _ => true | _ => false end.

Definition is_NewRequest (ev : Event) : bool :=
  match ev with EvNewRequest _ _ => true | _ => false end.

Definition count_events (p : Event -> bool) (w : World) : nat :=
  List.length (List.filter p (trace w)).

(** How a call ends: it returns, it panics, or the model ran out of fuel
    (only [Do], which handlers re-enter, takes fuel). *)
Inductive Outcome (A : Type) :=
| Done (a : A)
| Panic (msg : string)
| OutOfFuel.
Arguments Done {A} a.
Arguments Panic {A} msg.
Arguments OutOfFuel {A}.

(** Computations over a state [S]: the [World], or a client and the world
    where the client itself changes. *)
Definition ST (S A : Type) : Type := S -> Outcome A * S.

#[export] Instance ST_ret {S} : MRet (ST S) := fun A a s => (Done a, s).

#[export] Instance ST_bind {S} : MBind (ST S) := fun A B k m s =>
  match m s with
  | (Done a, s') => k a s'
  | (Panic msg, s') => (Panic msg, s')
  | (OutOfFuel, s') => (OutOfFuel, s')
  end.

Definition panic {S A} (msg : string) : ST S A := fun s => (Panic msg, s).

Definition out_of_fuel {S A} : ST S A := fun s => (OutOfFuel, s).

Abbreviation M := (ST World).

Definition log (ev : Event) : M unit := fun w => (Done tt, emit ev w).

Definition get_world : M World := fun w => (Done w, w).

(** [time.Sleep(d)]. *)
Definition sleep (d : Z) : M unit :=
  fun w => (Done tt, {| now := now w + d; boundary := boundary w; trace := trace w |}).

(** ** Package [services]: the data *)

Definition AuthorizationType : string := "Bearer".

(** [Request] extends [http.Request] with the attempt and error counters;
    [http_Request] is the embedded [*http.Request]. *)
Record Request := mkReq {
  http_Request : http.Request;
  NumAttempts : Z;
  NumErrorsByType : gmap string Z }.

(** A Go result pair: a [*http.Response] (nil is [None]) and an [error]. *)
Definition Result : Type := option http.Response * option error.

(** What a handler does while it handles a result. The handlers covered
    here use the client they are handed for one thing, its [Do]: such a
    handler returns a result pair, leaving the request (to which it holds a
    pointer) in some state; or it resubmits a request through the client's
    [Do] and goes on from what [Do] hands back; or it sleeps before going
    on. A handler that calls other methods of the client (one that renews
    the token, say) is outside this type. *)
Inductive Handling :=
| Return (res : Result) (req : Request)
| CallDo (req : Request) (k : Result * Request -> Handling)
| Sleep (d : Z) (k : Handling).

(** [ResponseHandler], with the optional capability [ResponseOrErrorHandler]. *)
Record ResponseHandler := mkHandler {
  HandleResponse : Request -> option http.Response -> Handling;
  HandleRequestError : option (Request -> error -> Handling) }.

Record BaseClient := mkBaseClient {
  defaultTenant : string;
  rootDomain : string;
  overrideHost : string;
  scheme : string;
  tokenContext : option idp.Context;
  httpClient : http.Client;
  responseHandlers : list ResponseHandler;
  tokenRetriever : idp.TokenRetriever;
  tokenExpireWindow : Z;
  clientVersion : string;
  tenantScoped : bool;
  region : string }.

(** The retry configuration, as NewClient reads it. *)
Record ConfigurableRetryConfig := mkConfigurableRetryConfig {
  RetryNum : Z;
  Interval : Z;
  ShouldRetryFn : option http.Response -> bool }.

Record RetryStrategyConfig := mkRetryStrategyConfig {
  ConfigurableRetryConfig_ : option ConfigurableRetryConfig }.

Record Config := mkConfig {
  TokenRetriever : option idp.TokenRetriever;
  Token : string;
  Tenant : string;
  Host : string;
  OverrideHost : string;
  Scheme : string;
  Timeout : Z;
  ResponseHandlers : list ResponseHandler;
  RetryRequests : bool;
  RetryConfig : RetryStrategyConfig;
  RoundTripper : option http.RoundTripper;
  TokenExpireWindow : Z;
  ClientVersion : string;
  TenantScoped : bool;
  Region : string }.

(** What client.go takes from outside: constants and handlers of the package
    declared in other files, the no-op retriever of package [idp], and
    library functions whose results the client only passes on. *)
Record Env := mkEnv {
  UserAgent : string;                        (* services.UserAgent *)
  Version : string;                          (* services.Version *)
  arch64 : bool;                             (* GOARCH is amd64 or arm64, not 386 *)
  NoOpTokenRetriever : idp.Context -> idp.TokenRetriever;  (* idp.NoOpTokenRetriever{Context} *)
  DefaultRetryResponseHandler : ResponseHandler;
  ConfigurableRetryResponseHandler : ConfigurableRetryConfig -> ResponseHandler;
  ParseHTTPStatusCodeInResponse : option http.Response -> Result;  (* package util *)
  PathParams : Type;                         (* the interface{} given to a template *)
  template_Parse : string -> option error;   (* template.New("path").Parse *)
  template_Execute : string -> PathParams -> string + error;
  Values_Encode : gmap string (list string) -> string;   (* url.Values.Encode *)
  URL_String : url.URL -> string;            (* url.URL.String *)
  url_Parse : string -> option error;        (* url.Parse, inside http.NewRequest *)
  strconv_Quote : string -> string;          (* the %q verb *)
  escapeQuotes : string -> string;           (* mime/multipart *)
  http_Client_Do : http.Client -> nat -> http.Request -> http.RoundTrip }.
                                             (* the method Do of http.Client *)

Definition time_Second : Z := 1000000000.
Definition time_Minute : Z := 60 * time_Second.

(** [t.Add(d).Unix()] for a time [t] and a duration [d] in nanoseconds. *)
Definition Unix_after (t d : Z) : Z := (t + d) / time_Second.

(** ** Package [services]: requests *)

Section Client.
Variable E : Env.

(** The width of [uint] on the build target. *)
Definition uint_bits : Z := if arch64 E then 64 else 32.

(** [GetNumErrorsByResponseCode]. *)
Definition GetNumErrorsByResponseCode (r : Request) (respCode : Z) : Z :=
  match NumErrorsByType r !! Sprintf_d respCode with
  | Some val => val
  | None => 0
  end.

(** [IncrementErrorsByType]: [++] on a [uint], or a first entry of 1. *)
Definition IncrementErrorsByType (r : Request) (errType : string) : Request :=
  match NumErrorsByType r !! errType with
  | Some val =>
      mkReq (http_Request r) (NumAttempts r)
            (<[errType := uint_wrap uint_bits (val + 1)]> (NumErrorsByType r))
  | None =>
      mkReq (http_Request r) (NumAttempts r) (<[errType := 1]> (NumErrorsByType r))
  end.

Definition set_header (request : http.Request) (key value : string) : http.Request :=
  http.mkRequest (http.Method request) (http.URL request)
                 (http.Header_Set (http.Header request) key value) (http.Body request).

(** [UpdateToken]. *)
Definition UpdateToken (r : Request) (accessToken : string) : Request :=
  mkReq (set_header (http_Request r) "Authorization"
                    (AuthorizationType ++ " " ++ accessToken))
        (NumAttempts r) (NumErrorsByType r).

(** [http.NewRequest(method, url, body)]. *)
Definition http_NewRequest (method url : string) (body : option bytes)
    : http.Request + error :=
  let method := if is_empty method then "GET" else method in
  if negb (http.validMethod method) then
    inr ("net/http: invalid method " ++ strconv_Quote E method)
  else
    match url_Parse E url with
    | Some err => inr err
    | None => inl (http.mkRequest method url ∅ body)
    end.

(** The [range] loop of NewRequest over the caller's headers. *)
Definition set_headers (request : http.Request) (headers : list (string * string))
    : http.Request :=
  fold_left (fun r kv => set_header r (fst kv) (snd kv)) headers request.

(** [NewRequest]. *)
Definition NewRequest (c : BaseClient) (httpMethod url : string)
    (body : option bytes) (headers : list (string * string)) : M (Request + error) :=
  _ ← log (EvNewRequest httpMethod url);
  match http_NewRequest httpMethod url body with
  | inr err => mret (inr err)
  | inl request =>
      let request :=
        match tokenContext c with
        | Some ctx =>
            if (0 <? String.length (idp.AccessToken ctx))%nat
            then set_header request "Authorization"
                            (AuthorizationType ++ " " ++ idp.AccessToken ctx)
            else request
        | None => request
        end in
      let httpSplunkClient := UserAgent E ++ "/" ++ Version E in
      let httpSplunkClient :=
        if (0 <? String.length (clientVersion c))%nat
        then httpSplunkClient ++ "," ++ clientVersion c
        else httpSplunkClient in
      let request := set_header request "Splunk-Client" httpSplunkClient in
      let request := set_header request "Content-Type" "application/json" in
      let request :=
        if negb (List.length headers =? 0)%nat then set_headers request headers
        else request in
      mret (inl (mkReq request 0 ∅))
  end.

(** ** URL builders *)

(** [BuildHost]. *)
Definition BuildHost (c : BaseClient) (serviceCluster appendToHost : string) : string :=
  let appendToHost :=
    if negb (is_empty appendToHost) then appendToHost ++ "." else appendToHost in
  if negb (is_empty (overrideHost c)) then overrideHost c
  else if negb (is_empty serviceCluster)
  then appendToHost ++ serviceCluster ++ "." ++ rootDomain c
  else appendToHost ++ "api." ++ rootDomain c.

(** The zero [url.URL] of [var u url.URL]. *)
Definition zero_URL : url.URL := url.mkURL "" "" "" "".

Definition query_or_empty (queryValues : option (gmap string (list string)))
    : gmap string (list string) :=
  match queryValues with
  | Some q => q
  | None => ∅
  end.

(** [BuildURLWithTenant]. *)
Definition BuildURLWithTenant (c : BaseClient) (tenant : string) (tenantScoped : bool)
    (region : string) (queryValues : option (gmap string (list string)))
    (serviceCluster : string) (urlPathParts : list string) : url.URL * option error :=
  if (String.length tenant =? 0)%nat then
    (zero_URL, Some "a non-empty tenant must be specified")
  else
    let queryValues := query_or_empty queryValues in
    let pathWithTenant := path_Join (tenant :: urlPathParts) in
    let appendToHost :=
      if tenantScoped && negb (is_empty region)
         && strings_Contains pathWithTenant "system"
      then region
      else if tenantScoped && negb (strings_Contains pathWithTenant "system")
      then tenant
      else "" in
    let host := BuildHost c serviceCluster appendToHost in
    (url.mkURL (scheme c) host pathWithTenant (Values_Encode E queryValues), None).

(** [BuildURL]. *)
Definition BuildURL (c : BaseClient) (queryValues : option (gmap string (list string)))
    (serviceCluster : string) (urlPathParts : list string) : url.URL * option error :=
  BuildURLWithTenant c (defaultTenant c) (tenantScoped c) (region c) queryValues
                     serviceCluster urlPathParts.

(** [BuildURLFromPathParams]. *)
Definition BuildURLFromPathParams (c : BaseClient)
    (queryValues : option (gmap string (list string))) (serviceCluster templ : string)
    (pathParams : PathParams E) : url.URL * option error :=
  match template_Parse E templ with
  | Some err => (zero_URL, Some err)
  | None =>
      match template_Execute E templ pathParams with
      | inr err => (zero_URL, Some err)
      | inl rendered =>
          let path :=
            if negb (strings_HasPrefix rendered "/system/")
            then "/" ++ defaultTenant c ++ rendered
            else rendered in
          let queryValues := query_or_empty queryValues in
          if tenantScoped c && is_empty (region c) && strings_HasPrefix path "/system/"
          then (zero_URL, Some "region cannot be empty")
          else
            let appendToHost :=
              if tenantScoped c && negb (is_empty (region c))
                 && strings_HasPrefix path "/system/"
              then "region-" ++ region c
              else if tenantScoped c && negb (strings_HasPrefix path "/system/")
              then defaultTenant c
              else "" in
            let host := BuildHost c serviceCluster appendToHost in
            (url.mkURL (scheme c) host path (Values_Encode E queryValues), None)
      end
  end.

(** [GetURL]. *)
Definition GetURL (c : BaseClient) (serviceCluster : string) : url.URL :=
  let appendToHost := if tenantScoped c then defaultTenant c else "" in
  url.mkURL (scheme c) (BuildHost c serviceCluster appendToHost) "" "".

(** ** The request pipeline *)

(** The transport as the client sees it, [c.httpClient.Do]: what the
    method [Do] of the client's [http.Client] hands back for a request, given
    how many calls of it came before. The method is the library's and a
    parameter here: on the client's round tripper (or the default transport)
    it may make several round trips for one call, as when it follows
    redirects, and it wraps a transport's error in a [*url.Error]. *)
Definition transport_of (c : BaseClient) : nat -> http.Request -> http.RoundTrip :=
  http_Client_Do E (httpClient c).

(** [c.httpClient.Do(req.Request)]: one call, one event. The event also
    keeps the wrapper's attempt counter as it stands when the call is made. *)
Definition send (c : BaseClient) (req : Request) : M http.RoundTrip :=
  w ← get_world;
  _ ← log (EvSend (http_Request req) (NumAttempts req));
  mret (transport_of c (count_events is_Send w) (http_Request req)).

Definition result_of (reply : http.RoundTrip) : Result :=
  match reply with
  | http.Answer response => (Some response, None)
  | http.Failure response err => (response, Some err)
  end.

(** Runs what a handler does; [do] is the client's [Do]. *)
Fixpoint handle (do : Request -> M (Result * Request)) (h : Handling)
    : M (Result * Request) :=
  match h with
  | Return res req => mret (res, req)
  | CallDo req k => r ← do req; handle do (k r)
  | Sleep d k => _ ← sleep d; handle do k
  end.

(** The loop [for _, hr := range c.responseHandlers] of [Do]. *)
Fixpoint run_handlers (do : Request -> M (Result * Request))
    (handlers : list ResponseHandler) (req : Request)
    (response : option http.Response) (err : option error) : M (Result * Request) :=
  match handlers with
  | [] => mret ((response, err), req)
  | hr :: handlers' =>
      match err with
      | Some e =>
          (* handle request error *)
          '(res, req') ←
            match HandleRequestError hr with
            | Some her => handle do (her req e)
            | None => mret ((response, err), req)
            end;
          match snd res with
          | None => mret (res, req')
          | Some _ => run_handlers do handlers' req' (fst res) (snd res)
          end
      | None =>
          (* handle response *)
          '(res, req') ← handle do (HandleResponse hr req response);
          match snd res with
          | Some _ => mret (res, req')
          | None => run_handlers do handlers' req' (fst res) (snd res)
          end
      end
  end.

Definition count_attempt (req : Request) : Request :=
  mkReq (http_Request req) (uint_wrap uint_bits (NumAttempts req + 1))
        (NumErrorsByType req).

(** The block [if err == nil && response.StatusCode >= 400] of [Do]. *)
Definition record_status (req : Request) (res : Result) : M Request :=
  match snd res with
  | Some _ => mret req
  | None =>
      match fst res with
      | None => panic "invalid memory address or nil pointer dereference"
      | Some response =>
          if 400 <=? http.StatusCode response
          then mret (IncrementErrorsByType req (Sprintf_d (http.StatusCode response)))
          else mret req
      end
  end.

(** [Do]. Handlers re-enter it, so it takes fuel: the depth of nested calls. *)
Fixpoint Do (fuel : nat) (c : BaseClient) (req : Request) : M (Result * Request) :=
  match fuel with
  | O => out_of_fuel
  | S fuel' =>
      let req := count_attempt req in
      reply ← send c req;
      let res := result_of reply in
      if (List.length (responseHandlers c) =? 0)%nat then
        (* Return immediately if no error/response handling provided *)
        mret (res, req)
      else
        req ← record_status req res;
        run_handlers (Do fuel' c) (responseHandlers c) req (fst res) (snd res)
  end.

(** *** Multipart bodies *)

Definition CRLF : string := String (ascii_of_nat 13) (String (ascii_of_nat 10) "").
Definition dquote : string := String (ascii_of_nat 34) "".

(** What [writer.CreateFormFile(key, filename)] writes for the first part:
    the boundary line and the two headers of a file part. *)
Definition multipart_part_header (boundary key filename : string) : bytes :=
  bytes_of ("--" ++ boundary ++ CRLF
            ++ "Content-Disposition: form-data; name=" ++ dquote ++ escapeQuotes E key
            ++ dquote ++ "; filename=" ++ dquote ++ escapeQuotes E filename ++ dquote
            ++ CRLF
            ++ "Content-Type: application/octet-stream" ++ CRLF
            ++ CRLF).

(** [writer.CreateFormFile(key, filename)] on a fresh writer over a
    [bytes.Buffer]: the buffer takes every write, so no error comes back. *)
Definition multipart_CreateFormFile (boundary key filename : string) : bytes + error :=
  inl (multipart_part_header boundary key filename).

(** What [writer.Close()] writes. *)
Definition multipart_close (boundary : string) : bytes :=
  bytes_of (CRLF ++ "--" ++ boundary ++ "--" ++ CRLF).

(** [writer.FormDataContentType()]. *)
Definition FormDataContentType (boundary : string) : string :=
  let specials := "()<>@,;:\" ++ dquote ++ "/[]?= " in
  let b := if strings_ContainsAny boundary specials
           then dquote ++ boundary ++ dquote else boundary in
  "multipart/form-data; boundary=" ++ b.

(** [io.Copy(part, stream)]: the bytes that reach the part, and the error. *)
Definition io_Copy (stream : gdepservices.Reader) : bytes * option error :=
  (gdepservices.data stream, gdepservices.failure stream).

(** [makeFormRequest]. *)
Definition makeFormRequest (c : BaseClient) (requestParams : gdepservices.RequestParams)
    : M (Request + error) :=
  w ← get_world;
  let writer_boundary := boundary w in
  match gdepservices.Body requestParams ≫= gdepservices.as_FormData with
  | None => mret (inr "bad request of form data")
  | Some forms =>
      match multipart_CreateFormFile writer_boundary (gdepservices.Key forms)
                                     (gdepservices.Filename forms) with
      | inr err => mret (inr err)
      | inl body =>
          let '(copied, err) := io_Copy (gdepservices.Stream forms) in
          match err with
          | Some e => mret (inr e)
          | None =>
              let body := (body ++ copied ++ multipart_close writer_boundary)%list in
              r ← NewRequest c (gdepservices.Method requestParams)
                    (URL_String E (gdepservices.URL requestParams)) (Some body)
                    (gdepservices.Headers requestParams);
              match r with
              | inr e => mret (inr e)
              | inl request =>
                  mret (inl (mkReq (set_header (http_Request request) "Content-Type"
                                               (FormDataContentType writer_boundary))
                                   (NumAttempts request) (NumErrorsByType request)))
              end
          end
      end
  end.

(** *** DoRequest *)

Definition liftW {A} (m : M A) : ST (BaseClient * World) A :=
  fun s => let '(o, w') := m (snd s) in (o, (fst s, w')).

Definition get_client : ST (BaseClient * World) BaseClient :=
  fun s => (Done (fst s), s).

Definition set_client (c : BaseClient) : ST (BaseClient * World) unit :=
  fun s => (Done tt, (c, snd s)).

(** [tokenRetriever.GetTokenContext()]. *)
Definition GetTokenContext (r : idp.TokenRetriever) : M (option idp.Context * option error) :=
  w ← get_world;
  _ ← log EvGetTokenContext;
  mret (r (count_events is_GetTokenContext w)).

(** [UpdateTokenContext]. *)
Definition UpdateTokenContext (c : BaseClient) (ctx : option idp.Context) : BaseClient :=
  mkBaseClient (defaultTenant c) (rootDomain c) (overrideHost c) (scheme c) ctx
               (httpClient c) (responseHandlers c) (tokenRetriever c)
               (tokenExpireWindow c) (clientVersion c) (tenantScoped c) (region c).

(** The first block of [DoRequest]: renew the token if it is about to
    expire. Returns the retriever's error, if any. *)
Definition renew_token : ST (BaseClient * World) (option error) :=
  c ← get_client;
  w ← liftW get_world;
  let curEpoch := Unix_after (now w) (tokenExpireWindow c) in
  match tokenContext c with
  | None => panic "invalid memory address or nil pointer dereference"
  | Some tc =>
      if add64 (idp.StartTime tc) (idp.ExpiresIn tc) <=? curEpoch then
        _ ← liftW (log EvLock);
        '(ctx, err) ← liftW (GetTokenContext (tokenRetriever c));
        match err with
        | Some e =>
            _ ← liftW (log EvUnlock);
            mret (Some e)
        | None =>
            _ ← set_client (UpdateTokenContext c ctx);
            _ ← liftW (log EvUnlock);
            mret None
        end
      else mret None
  end.

(** The body-encoding block of [DoRequest]: build the request. *)
Definition build_request (c : BaseClient) (requestParams : gdepservices.RequestParams)
    : M (Request + error) :=
  let headers := gdepservices.Headers requestParams in
  let method := gdepservices.Method requestParams in
  let url := URL_String E (gdepservices.URL requestParams) in
  if (0 <? List.length headers)%nat
     && String.eqb (map_index headers "Content-Type") "multipart/form-data"
  then makeFormRequest c requestParams
  else
    match gdepservices.Body requestParams with
    | Some body =>
        let buffer :=
          match body with
          | gdepservices.Bytes contentBytes => inl contentBytes
          | gdepservices.Marshaler MarshalJSONByMethod => MarshalJSONByMethod method
          | gdepservices.Form _ json | gdepservices.Other json => json
          end in
        match buffer with
        | inr marshalErr => mret (inr marshalErr)
        | inl content => NewRequest c method url (Some content) headers
        end
    | None => NewRequest c method url None headers
    end.

(** The rest of [DoRequest]: build the request, send it, and hand the
    response to the status translator. *)
Definition submit (fuel : nat) (requestParams : gdepservices.RequestParams)
    : ST (BaseClient * World) Result :=
  c ← get_client;
  built ← liftW (build_request c requestParams);
  match built with
  | inr err => mret (None, Some err)
  | inl request =>
      '(res, _) ← liftW (Do fuel c request);
      match snd res with
      | Some err => mret (None, Some err)
      | None => mret (ParseHTTPStatusCodeInResponse E (fst res))
      end
  end.

(** [DoRequest]. The client is part of the state: the call may replace its
    token context. *)
Definition DoRequest (fuel : nat) (requestParams : gdepservices.RequestParams)
    : ST (BaseClient * World) Result :=
  renewed ← renew_token;
  match renewed with
  | Some err => mret (None, Some err)
  | None => submit fuel requestParams
  end.

(** ** Client construction *)

Definition set_TokenRetriever (config : Config) (r : idp.TokenRetriever) : Config :=
  mkConfig (Some r) (Token config) (Tenant config) (Host config) (OverrideHost config)
           (Scheme config) (Timeout config) (ResponseHandlers config)
           (RetryRequests config) (RetryConfig config) (RoundTripper config)
           (TokenExpireWindow config) (ClientVersion config) (TenantScoped config)
           (Region config).

Definition or_default (value default : string) : string :=
  if negb (is_empty value) then value else default.

Definition or_default_Z (value default : Z) : Z :=
  if negb (value =? 0) then value else default.

(** The handlers NewClient installs, from the configuration as passed in. *)
Definition install_handlers (config : Config) : list ResponseHandler :=
  let handlers := if negb (is_empty (Token config)) then ResponseHandlers config else [] in
  if RetryRequests config then
    match ConfigurableRetryConfig_ (RetryConfig config) with
    | None => DefaultRetryResponseHandler E :: ResponseHandlers config
    | Some cfg =>
        ConfigurableRetryResponseHandler E
          (mkConfigurableRetryConfig (RetryNum cfg) (Interval cfg) (ShouldRetryFn cfg))
        :: ResponseHandlers config
    end
  else handlers.

(** [NewClient]. The configuration is passed by pointer and is part of the
    state: a static token puts a no-op retriever into it. *)
Definition NewClient : ST (Config * World) (BaseClient + error) :=
  fun s =>
  let config := fst s in
  if negb (is_empty (Host config)) && negb (is_empty (OverrideHost config)) then
    (Done (inr "either config.Host or config.OverrideHost may be set, setting both is invalid"), s)
  else
    let rootDomain := or_default (Host config) "scp.splunk.com" in
    let overrideHost := or_default (OverrideHost config) "" in
    let scheme := or_default (Scheme config) "https" in
    let timeout := or_default_Z (Timeout config) (5 * time_Second) in
    let tokenExpireWindow := or_default_Z (TokenExpireWindow config) (1 * time_Minute) in
    let clientVersion := or_default (ClientVersion config) "" in
    if (negb (is_nil (TokenRetriever config)) && negb (is_empty (Token config)))
       || (is_nil (TokenRetriever config) && is_empty (Token config))
    then
      (Done (inr "either config.TokenRetriever or config.Token must be set, not both"), s)
    else
      let handlers := install_handlers config in
      let config :=
        if negb (is_empty (Token config))
        then set_TokenRetriever config
               (NoOpTokenRetriever E (idp.mkContext (Token config) 0 0))
        else config in
      match TokenRetriever config with
      | None => (Panic "invalid memory address or nil pointer dereference", (config, snd s))
      | Some retriever =>
          match GetTokenContext retriever (snd s) with
          | (Done (ctx, Some err), w) =>
              (Done (inr ("service.NewClient: error retrieving token: " ++ err)), (config, w))
          | (Done (ctx, None), w) =>
              let transport := RoundTripper config in
              (Done (inl (mkBaseClient (Tenant config) rootDomain overrideHost scheme ctx
                                       (http.mkClient timeout transport) handlers retriever
                                       tokenExpireWindow clientVersion
                                       (TenantScoped config) (Region config))),
               (config, w))
          | (Panic msg, w) => (Panic msg, (config, w))
          | (OutOfFuel, w) => (OutOfFuel, (config, w))
          end
      end.

End Client.

(** ** Vocabulary of the statements *)

(** A computation only appends events to the trace, and only events that
    satisfy [P]. *)
Definition emits {A} (P : Event -> bool) (m : M A) : Prop :=
  forall w, exists evs,
    trace (snd (m w)) = (trace w ++ evs)%list /\ forallb P evs = true.

(** The value a caller supplies under a canonical header key: of the entries
    whose key canonicalizes to it, the one the loop visits last. *)
Fixpoint caller_value (headers : list (string * string)) (canonical : string)
    : option string :=
  match headers with
  | [] => None
  | (k, v) :: headers' =>
      match caller_value headers' canonical with
      | Some v' => Some v'
      | None => if String.eqb (http.CanonicalMIMEHeaderKey k) canonical then Some v else None
      end
  end.

(** The canonical forms of the keys a caller supplies. *)
Definition canonical_keys (headers : list (string * string)) : list string :=
  List.map (fun kv => http.CanonicalMIMEHeaderKey (fst kv)) headers.

(** Events of request construction and of sending, the only ones the
    pipeline emits once the token is settled. *)
Definition is_pipeline (ev : Event) : bool := is_NewRequest ev || is_Send ev.

(** What a token refresh leaves in the trace: one retriever call, made
    while the mutex is held. *)
Definition refresh_events : list Event := [EvLock; EvGetTokenContext; EvUnlock].

(** The access token a client holds; [""] when it holds none. *)
Definition access_token (c : BaseClient) : string :=
  match tokenContext c with
  | Some ctx => idp.AccessToken ctx
  | None => ""
  end.

(** ** Sample values

    A concrete environment, client and handlers on which the statements
    below are evaluated. *)

Definition pass_through : ResponseHandler :=
  mkHandler (fun req response => Return (response, None) req) None.

(** Retries a 429 once, after one second. *)
Definition retry_once : ResponseHandler :=
  mkHandler
    (fun req response =>
       match response with
       | Some r =>
           if (http.StatusCode r =? 429) && (NumAttempts req <? 2)
           then Sleep time_Second (CallDo req (fun out => Return (fst out) (snd out)))
           else Return (response, None) req
       | None => Return (response, None) req
       end)
    None.

Definition status_error (response : option http.Response) : Result :=
  match response with
  | Some r => if 400 <=? http.StatusCode r then (None, Some "HTTP status error")
              else (response, None)
  | None => (None, None)
  end.

(** A transport that answers 429 to the first request and 200 afterwards. *)
Definition throttle_once : http.RoundTripper :=
  fun n _ => http.Answer (http.mkResponse (if (n =? 0)%nat then 429 else 200) ∅ []).

(** [urlErrorOp] of [net/http]: the method with its first letter as it is
    and the rest in lower case, [Get] for the empty method. *)
Definition urlErrorOp (method : string) : string :=
  match method with
  | EmptyString => "Get"
  | String c rest =>
      String c (string_of_list_ascii
                  (List.map (fun a => if http.isUpper a
                                      then ascii_of_nat (nat_of_ascii a + 32) else a)
                            (list_ascii_of_string rest)))
  end.

(** The text of a [*url.Error]: operation, quoted URL, cause. *)
Definition url_Error (Op URL : string) (Err : error) : error :=
  Op ++ " " ++ dquote ++ URL ++ dquote ++ ": " ++ Err.

(** A [Do] for the samples: one round trip on the client's transport (on
    [throttle_once] when it has none); an error of the transport comes back
    as the library wraps it, without a response. *)
Definition sample_Do (client : http.Client) : nat -> http.Request -> http.RoundTrip :=
  fun n req =>
    let rt := match http.Transport client with
              | Some rt => rt
              | None => throttle_once
              end in
    match rt n req with
    | http.Answer response => http.Answer response
    | http.Failure _ err =>
        http.Failure None (url_Error (urlErrorOp (http.Method req)) (http.URL req) err)
    end.

Definition sample_Env : Env :=
  mkEnv "client-go" "1.0.0" true
        (fun ctx _ => (Some ctx, None))
        retry_once (fun _ => retry_once)
        status_error
        string (fun _ => None) (fun templ params => inl (templ ++ params))
        (fun _ => "")
        (fun u => url.Scheme u ++ "://" ++ url.Host u ++ "/" ++ url.Path u)
        (fun _ => None)
        (fun s => dquote ++ s ++ dquote)
        (fun s => s)
        sample_Do.

Definition sample_client : BaseClient :=
  mkBaseClient "acme" "example.com" "" "https"
               (Some (idp.mkContext "tok" 3600 1700000000))
               (http.mkClient (5 * time_Second) None) []
               (fun n => (Some (idp.mkContext "fresh" 3600 1700003600), None))
               time_Minute "" true "us1".

Definition with_handlers (c : BaseClient) (handlers : list ResponseHandler) : BaseClient :=
  mkBaseClient (defaultTenant c) (rootDomain c) (overrideHost c) (scheme c)
               (tokenContext c) (httpClient c) handlers (tokenRetriever c)
               (tokenExpireWindow c) (clientVersion c) (tenantScoped c) (region c).

Definition with_retriever (c : BaseClient) (r : idp.TokenRetriever) : BaseClient :=
  mkBaseClient (defaultTenant c) (rootDomain c) (overrideHost c) (scheme c)
               (tokenContext c) (httpClient c) (responseHandlers c) r
               (tokenExpireWindow c) (clientVersion c) (tenantScoped c) (region c).

Definition with_hosts (c : BaseClient) (root override : string) : BaseClient :=
  mkBaseClient (defaultTenant c) root override (scheme c)
               (tokenContext c) (httpClient c) (responseHandlers c) (tokenRetriever c)
               (tokenExpireWindow c) (clientVersion c) (tenantScoped c) (region c).

Definition with_region (c : BaseClient) (scoped : bool) (r : string) : BaseClient :=
  mkBaseClient (defaultTenant c) (rootDomain c) (overrideHost c) (scheme c)
               (tokenContext c) (httpClient c) (responseHandlers c) (tokenRetriever c)
               (tokenExpireWindow c) (clientVersion c) scoped r.

Definition sample_world : World := mkWorld (1700000000 * time_Second) "0123456789abcdef" [].

Definition sample_request : Request :=
  mkReq (http.mkRequest "GET" "https://api.example.com/acme/catalog" ∅ None) 0 ∅.

Definition sample_params : gdepservices.RequestParams :=
  gdepservices.mkRequestParams "GET" (url.mkURL "https" "api.example.com" "acme/catalog" "")
                               None [].

Definition sample_config : Config :=
  mkConfig None "tok" "acme" "" "" "" 0 [pass_through] false
           (mkRetryStrategyConfig None) None 0 "" false "".

(** A multipart upload of three bytes, and the same upload from a stream
    that breaks after two of them. *)
Definition upload (stream : gdepservices.Reader) : gdepservices.RequestParams :=
  gdepservices.mkRequestParams
    "POST" (url.mkURL "https" "api.example.com" "acme/files" "")
    (Some (gdepservices.Form (gdepservices.mkFormData "file" "a.txt" stream)
                             (inr "json: unsupported type")))
    [("Content-Type", "multipart/form-data")].

Definition whole_stream : gdepservices.Reader :=
  gdepservices.mkReader [Byte.x61; Byte.x62; Byte.x63] None.

Definition broken_stream : gdepservices.Reader :=
  gdepservices.mkReader [Byte.x61; Byte.x62] (Some "unexpected EOF").

(** The sample world an hour later, when the sample token has expired. *)
Definition late_world : World := mkWorld (1700003600 * time_Second) "0123456789abcdef" [].

Definition renewed_context : idp.Context := idp.mkContext "fresh" 3600 1700003600.

Definition sample_retriever : idp.TokenRetriever := fun _ => (Some renewed_context, None).

Definition unreachable_idp : idp.TokenRetriever := fun _ => (None, Some "idp unreachable").

(** A configuration with a retriever, no static token, no retries, and one
    caller-supplied handler. *)
Definition retriever_config : Config :=
  mkConfig (Some sample_retriever) "" "acme" "" "" "" 0 [pass_through] false
           (mkRetryStrategyConfig None) None 0 "" false "".

Definition both_hosts_config : Config :=
  mkConfig None "tok" "acme" "example.com" "x.test" "" 0 [] false
           (mkRetryStrategyConfig None) None 0 "" false "".

Definition caller_headers : list (string * string) :=
  [("content-type", "text/plain"); ("X-Request-Id", "42")].

(** The client of the system tenant, as the integration scripts configure
    it: tenant [system], tenant-scoped, with a region. *)
Definition system_client : BaseClient :=
  mkBaseClient "system" "example.com" "" "https"
               (Some (idp.mkContext "tok" 3600 1700000000))
               (http.mkClient (5 * time_Second) None) []
               sample_retriever time_Minute "" true "us1".

(** ** The rest of the client's methods *)

From Stdlib Require Import DecimalZ.

Section ClientMethods.
Variable E : Env.

(** [requestParams.Method = method], on the callee's copy of the params. *)
Definition with_Method (requestParams : gdepservices.RequestParams) (method : string)
    : gdepservices.RequestParams :=
  gdepservices.mkRequestParams method (gdepservices.URL requestParams)
                               (gdepservices.Body requestParams)
                               (gdepservices.Headers requestParams).

(** [Get]. *)
Definition Get (fuel : nat) (requestParams : gdepservices.RequestParams)
    : ST (BaseClient * World) Result :=
  DoRequest E fuel (with_Method requestParams "GET").

(** [Post]. *)
Definition Post (fuel : nat) (requestParams : gdepservices.RequestParams)
    : ST (BaseClient * World) Result :=
  DoRequest E fuel (with_Method requestParams "POST").

(** [Put]. *)
Definition Put (fuel : nat) (requestParams : gdepservices.RequestParams)
    : ST (BaseClient * World) Result :=
  DoRequest E fuel (with_Method requestParams "PUT").

(** [Delete]. *)
Definition Delete (fuel : nat) (requestParams : gdepservices.RequestParams)
    : ST (BaseClient * World) Result :=
  DoRequest E fuel (with_Method requestParams "DELETE").

(** [Patch]. *)
Definition Patch (fuel : nat) (requestParams : gdepservices.RequestParams)
    : ST (BaseClient * World) Result :=
  DoRequest E fuel (with_Method requestParams "PATCH").

(** [GetDefaultTenant]. *)
Definition GetDefaultTenant (c : BaseClient) : string := defaultTenant c.

(** [SetDefaultTenant]. *)
Definition SetDefaultTenant (c : BaseClient) (tenant : string) : BaseClient :=
  mkBaseClient tenant (rootDomain c) (overrideHost c) (scheme c) (tokenContext c)
               (httpClient c) (responseHandlers c) (tokenRetriever c)
               (tokenExpireWindow c) (clientVersion c) (tenantScoped c) (region c).

(** [SetOverrideHost]. *)
Definition SetOverrideHost (c : BaseClient) (host : string) : BaseClient :=
  mkBaseClient (defaultTenant c) (rootDomain c) host (scheme c) (tokenContext c)
               (httpClient c) (responseHandlers c) (tokenRetriever c)
               (tokenExpireWindow c) (clientVersion c) (tenantScoped c) (region c).

End ClientMethods.

(** [IncrementErrorsByType], called [n] times on the same request. *)
Definition increment_times (E : Env) (n : nat) (r : Request) (errType : string) : Request :=
  Nat.iter n (fun r => IncrementErrorsByType E r errType) r.

(** A handler that gives up on every response, and a handler that answers
    every transport error with a cached response. *)
Definition refuse_all : ResponseHandler :=
  mkHandler (fun req response => Return (response, Some "giving up") req) None.

Definition cached_answer : ResponseHandler :=
  mkHandler (fun req response => Return (response, None) req)
            (Some (fun req err => Return (Some (http.mkResponse 200 ∅ []), None) req)).

(** An error handler that tries once more and hands on what comes back. *)
Definition resubmit_once : ResponseHandler :=
  mkHandler (fun req response => Return (response, None) req)
            (Some (fun req err =>
                     if NumAttempts req <? 2
                     then CallDo req (fun out => Return (fst out) (snd out))
                     else Return (None, Some err) req)).

(** A transport that is down, and the sample client on it. *)
Definition transport_down : http.RoundTripper :=
  fun _ _ => http.Failure None "connection reset by peer".

(** What [c.httpClient.Do] then returns as error for the sample request. *)
Definition sample_url_error : error :=
  "Get " ++ dquote ++ "https://api.example.com/acme/catalog" ++ dquote
  ++ ": connection reset by peer".

Definition with_transport (c : BaseClient) (rt : http.RoundTripper) : BaseClient :=
  mkBaseClient (defaultTenant c) (rootDomain c) (overrideHost c) (scheme c)
               (tokenContext c) (http.mkClient (http.Timeout (httpClient c)) (Some rt))
               (responseHandlers c) (tokenRetriever c)
               (tokenExpireWindow c) (clientVersion c) (tenantScoped c) (region c).

(** Bodies: a byte slice, a value that marshals itself by method, and a
    value that [json.Marshal] refuses. *)
Definition raw_body : gdepservices.BodyValue :=
  gdepservices.Bytes [Byte.x7b; Byte.x7d].

Definition patch_body : gdepservices.BodyValue :=
  gdepservices.Marshaler
    (fun method => if String.eqb method "PATCH" then inl [Byte.x5b; Byte.x5d]
                   else inl [Byte.x7b; Byte.x7d]).

Definition unmarshalable_body : gdepservices.BodyValue :=
  gdepservices.Other (inr "json: unsupported type: chan int").

Definition with_Body (p : gdepservices.RequestParams) (body : gdepservices.BodyValue)
    : gdepservices.RequestParams :=
  gdepservices.mkRequestParams (gdepservices.Method p) (gdepservices.URL p) (Some body)
                               (gdepservices.Headers p).

(** Configurations: one whose identity provider is unreachable, one with
    retries on, and one without tenant and region. *)
Definition failing_config : Config :=
  mkConfig (Some unreachable_idp) "" "acme" "" "" "" 0 [] false
           (mkRetryStrategyConfig None) None 0 "" false "".

Definition retry_config : Config :=
  mkConfig (Some sample_retriever) "" "acme" "" "" "" 0 [pass_through] true
           (mkRetryStrategyConfig None) None 0 "" false "".

Definition untenanted_config : Config :=
  mkConfig (Some sample_retriever) "" "" "" "" "" 0 [] false
           (mkRetryStrategyConfig None) None 0 "" true "".

(** The handlers of a list all hand the result on. From a result, a
    request and a world, each handler in turn is consulted and does not end
    the call: after a response it returns no error; after an error it lacks
    the error-handling capability, or it returns an error still. The last
    three indices are the result, the request and the world the handler
    after the list starts from. *)
Inductive chain_passes (do : Request -> M (Result * Request))
    : list ResponseHandler -> Result -> Request -> World
      -> Result -> Request -> World -> Prop :=
| passes_none (res : Result) (req : Request) (w : World) :
    chain_passes do [] res req w res req w
| passes_response (hr : ResponseHandler) (hs : list ResponseHandler) (req : Request)
    (response : option http.Response) (w : World) (out : option http.Response)
    (req1 : Request) (w1 : World) (res' : Result) (req' : Request) (w' : World) :
    handle do (HandleResponse hr req response) w = (Done ((out, None), req1), w1) ->
    chain_passes do hs (out, None) req1 w1 res' req' w' ->
    chain_passes do (hr :: hs) (response, None) req w res' req' w'
| passes_incapable (hr : ResponseHandler) (hs : list ResponseHandler) (req : Request)
    (response : option http.Response) (err : error) (w : World)
    (res' : Result) (req' : Request) (w' : World) :
    HandleRequestError hr = None ->
    chain_passes do hs (response, Some err) req w res' req' w' ->
    chain_passes do (hr :: hs) (response, Some err) req w res' req' w'
| passes_error (hr : ResponseHandler) (hs : list ResponseHandler)
    (her : Request -> error -> Handling) (req : Request)
    (response : option http.Response) (err : error) (w : World)
    (out : option http.Response) (err1 : error) (req1 : Request) (w1 : World)
    (res' : Result) (req' : Request) (w' : World) :
    HandleRequestError hr = Some her ->
    handle do (her req err) w = (Done ((out, Some err1), req1), w1) ->
    chain_passes do hs (out, Some err1) req1 w1 res' req' w' ->
    chain_passes do (hr :: hs) (response, Some err) req w res' req' w'.

(** A handler keeps to the request it was handed: what it resubmits and
    what it returns has the attempt counter of the request it holds at that
    moment ([attempts]), as when it only uses the pointer it was given. *)
Inductive keeps_request : Z -> Handling -> Prop :=
| keeps_Return (res : Result) (req : Request) :
    keeps_request (NumAttempts req) (Return res req)
| keeps_CallDo (req : Request) (k : Result * Request -> Handling) :
    (forall out, keeps_request (NumAttempts (snd out)) (k out)) ->
    keeps_request (NumAttempts req) (CallDo req k)
| keeps_Sleep (attempts d : Z) (k : Handling) :
    keeps_request attempts k -> keeps_request attempts (Sleep d k).

Definition keeps_requests (hr : ResponseHandler) : Prop :=
  (forall req response, keeps_request (NumAttempts req) (HandleResponse hr req response))
  /\ (forall her, HandleRequestError hr = Some her ->
        forall req err, keeps_request (NumAttempts req) (her req err)).

(** Between two moments, the attempt counter went up (in [uint] arithmetic)
    by the number of calls of [c.httpClient.Do]. *)
Definition counts_sends (bits attempts : Z) (w : World) (attempts' : Z) (w' : World) : Prop :=
  exists n : nat,
    count_events is_Send w' = (count_events is_Send w + n)%nat
    /\ ((n = 0%nat /\ attempts' = attempts)
        \/ attempts' = uint_wrap bits (attempts + Z.of_nat n)).

(** * Properties *)

(** ** The library models on known values *)

Example path_Clean_examples :
  path_Clean "abc/def/../../../ghi" = "../ghi"
  /\ path_Clean "///a/./b/..c/.." = "/a/b"
  /\ path_Clean "/.." = "/"
  /\ path_Clean "" = ".".
Proof. repeat split. Qed.

Example path_Join_examples :
  path_Join ["acme"; "system/config"] = "acme/system/config"
  /\ path_Join ["acme"; "system"; ".."] = "acme"
  /\ path_Join [""; "a"; ""; "b/"] = "a/b"
  /\ path_Join [""; ""] = "".
Proof. repeat split. Qed.

Example CanonicalMIMEHeaderKey_examples :
  http.CanonicalMIMEHeaderKey "content-type" = "Content-Type"
  /\ http.CanonicalMIMEHeaderKey "X-REQUEST-id" = "X-Request-Id"
  /\ http.CanonicalMIMEHeaderKey "not a token" = "not a token".
Proof. repeat split. Qed.

Example Sprintf_d_examples :
  Sprintf_d 429 = "429" /\ Sprintf_d 0 = "0" /\ Sprintf_d (-1) = "-1".
Proof. repeat split. Qed.

(** ** [path.Clean] reads its whole input *)

Lemma path_copy_element_rest (r : string) (rout : list ascii) :
  (String.length (snd (path_copy_element r rout)) <= String.length r)%nat.
Proof.
  revert rout. induction r as [| c r IH]; intros rout; simpl; [lia |].
  destruct (Ascii.eqb c slash); simpl; [lia |]. specialize (IH (c :: rout)). lia.
Qed.

(** The loop of [path.Clean] gives the same output for every fuel that is at
    least the length of the unread input: [len(path)] is enough. *)
Lemma path_clean_loop_fuel (fuel fuel' : nat) (rooted : bool) (r : string)
    (rout : list ascii) (dotdot : nat) :
  (String.length r <= fuel)%nat -> (String.length r <= fuel')%nat ->
  path_clean_loop fuel rooted r rout dotdot = path_clean_loop fuel' rooted r rout dotdot.
Proof.
  revert fuel' r rout dotdot.
  induction fuel as [| fuel IH]; intros fuel' r rout dotdot Hf Hf'.
  - destruct r; [destruct fuel'; reflexivity | simpl in Hf; lia].
  - destruct r as [| c r1]; [destruct fuel'; reflexivity |].
    destruct fuel' as [| fuel']; [simpl in Hf'; lia |].
    simpl in Hf, Hf'.
    assert (Helem : forall rout1,
              (let '(rout2, r') := path_copy_element (String c r1) rout1 in
               path_clean_loop fuel rooted r' rout2 dotdot)
              = (let '(rout2, r') := path_copy_element (String c r1) rout1 in
                 path_clean_loop fuel' rooted r' rout2 dotdot) \/ Ascii.eqb c slash = true).
    { intros rout1. destruct (Ascii.eqb c slash) eqn:Hc; [right; reflexivity | left].
      cbn [path_copy_element]. rewrite Hc.
      pose proof (path_copy_element_rest r1 (c :: rout1)) as Hrest.
      destruct (path_copy_element r1 (c :: rout1)) as [rout2 r']. simpl in Hrest.
      apply IH; lia. }
    cbn [path_clean_loop].
    destruct (Ascii.eqb c slash) eqn:Hc; [apply IH; lia |].
    destruct (Ascii.eqb c dot && starts_with_slash_or_ends r1); [apply IH; lia |].
    destruct r1 as [| c1 r2].
    + destruct (Helem (if (rooted && negb (List.length rout =? 1)%nat)
                          || (negb rooted && negb (List.length rout =? 0)%nat)
                       then slash :: rout else rout)) as [H | H]; [exact H | congruence].
    + simpl in Hf, Hf'.
      destruct (Ascii.eqb c dot && Ascii.eqb c1 dot && starts_with_slash_or_ends r2).
      * destruct (dotdot <? List.length rout)%nat; [apply IH; lia |].
        destruct (negb rooted); apply IH; lia.
      * destruct (Helem (if (rooted && negb (List.length rout =? 1)%nat)
                            || (negb rooted && negb (List.length rout =? 0)%nat)
                         then slash :: rout else rout)) as [H | H]; [exact H | congruence].
Qed.

(** ** Strings *)

Lemma is_empty_true (s : string) : is_empty s = true <-> s = "".
Proof. unfold is_empty. apply String.eqb_eq. Qed.

Lemma is_empty_false (s : string) : is_empty s = false <-> s <> "".
Proof. unfold is_empty. apply String.eqb_neq. Qed.

Lemma length_zero_empty (s : string) : (String.length s =? 0)%nat = is_empty s.
Proof. destruct s; reflexivity. Qed.

Lemma length_pos_nonempty (s : string) : (0 <? String.length s)%nat = negb (is_empty s).
Proof. destruct s; reflexivity. Qed.

(** [strings.HasPrefix] decides "[s] starts with [prefix]". *)
Lemma strings_HasPrefix_spec (s prefix : string) :
  strings_HasPrefix s prefix = true <-> exists rest, s = prefix ++ rest.
Proof.
  revert s. induction prefix as [|p prefix IH]; intros s; simpl.
  - split; [intros _; exists s; reflexivity | reflexivity].
  - destruct s as [|c s]; simpl.
    + split; [discriminate | intros [rest H]; discriminate].
    + rewrite andb_true_iff, Ascii.eqb_eq, IH. split.
      * intros [-> [rest ->]]. exists rest. reflexivity.
      * intros [rest H]. injection H as -> ->. split; [reflexivity | eauto].
Qed.

(** [strings.Contains] decides "[substr] occurs somewhere in [s]". *)
Lemma strings_Contains_spec (s substr : string) :
  strings_Contains s substr = true <-> exists before after, s = before ++ substr ++ after.
Proof.
  induction s as [|c s IH].
  - change (strings_Contains "" substr) with (strings_HasPrefix "" substr || false).
    rewrite orb_false_r, strings_HasPrefix_spec. split.
    + intros [rest H]. exists "", rest. exact H.
    + intros [before [after H]]. destruct before; simpl in H; [eauto | discriminate].
  - change (strings_Contains (String c s) substr)
      with (strings_HasPrefix (String c s) substr || strings_Contains s substr).
    rewrite orb_true_iff, IH, strings_HasPrefix_spec. split.
    + intros [[rest H] | [before [after H]]].
      * exists "", rest. exact H.
      * exists (String c before), after. simpl. rewrite H. reflexivity.
    + intros [before [after H]]. destruct before as [|b before]; simpl in H.
      * left. eauto.
      * right. injection H as _ H. eauto.
Qed.

(** ** URL builders *)

(** Closes a goal from the boolean test [Hb : test = true <-> P] of a
    property [P] that the context asserts or denies. *)
Ltac decide_system Hb :=
  solve [ reflexivity
        | congruence
        | exfalso; match goal with H : ~ _ |- _ => apply H; apply Hb; reflexivity end
        | match goal with H : _ |- _ => apply Hb in H; discriminate end ].

Ltac empty_cases H :=
  first [apply is_empty_true in H | apply is_empty_false in H].

Section URLBuilders.
Variable E : Env.

(** C5. BuildHost returns the override host whenever one is configured, for
    every service cluster and prefix value; without an override host it
    returns [prefix ++ serviceCluster ++ "." ++ rootDomain] for a non-empty
    service cluster and [prefix ++ "api." ++ rootDomain] for an empty one,
    where [prefix] is empty for an empty prefix value and the value followed
    by a dot otherwise. *)
Theorem BuildHost_spec (c : BaseClient) (serviceCluster value : string) :
  exists prefix,
    (value = "" -> prefix = "") /\
    (value <> "" -> prefix = value ++ ".") /\
    (overrideHost c <> "" -> BuildHost c serviceCluster value = overrideHost c) /\
    (overrideHost c = "" -> serviceCluster <> "" ->
       BuildHost c serviceCluster value = prefix ++ serviceCluster ++ "." ++ rootDomain c) /\
    (overrideHost c = "" -> serviceCluster = "" ->
       BuildHost c serviceCluster value = prefix ++ "api." ++ rootDomain c).
Proof.
  unfold BuildHost.
  exists (if negb (is_empty value) then value ++ "." else value).
  destruct (is_empty value) eqn:Hv, (is_empty (overrideHost c)) eqn:Ho,
    (is_empty serviceCluster) eqn:Hs;
    empty_cases Hv; empty_cases Ho; empty_cases Hs; simpl; (split; [| split; [| split; [| split]]]); intros; subst;
    solve [reflexivity | congruence].
Qed.

(** C7. BuildURLWithTenant with an empty tenant returns a non-nil error
    (and the zero URL), whatever the other arguments are. *)
Theorem BuildURLWithTenant_empty_tenant (c : BaseClient) (tenantScoped : bool)
    (region : string) (queryValues : option (gmap string (list string)))
    (serviceCluster : string) (urlPathParts : list string) :
  BuildURLWithTenant E c "" tenantScoped region queryValues serviceCluster urlPathParts
  = (zero_URL, Some "a non-empty tenant must be specified")
  /\ snd (BuildURLWithTenant E c "" tenantScoped region queryValues serviceCluster
                              urlPathParts) <> None.
Proof. split; [reflexivity | discriminate]. Qed.

(** C3. For a non-empty tenant BuildURLWithTenant returns no error and a URL
    whose path is the tenant joined with the path segments and whose host is
    the one BuildHost builds from a prefix that is: the region when the
    client is tenant-scoped, the region is non-empty and the joined path
    contains "system"; the tenant when tenant-scoped and the joined
    path does not contain "system"; empty when not tenant-scoped, and
    when the region is empty and the path contains "system". *)
Theorem BuildURLWithTenant_spec (c : BaseClient) (tenant : string) (tenantScoped : bool)
    (region : string) (queryValues : option (gmap string (list string)))
    (serviceCluster : string) (urlPathParts : list string) :
  tenant <> "" ->
  let joined := path_Join (tenant :: urlPathParts) in
  let has_system := exists before after, joined = before ++ "system" ++ after in
  exists prefix,
    BuildURLWithTenant E c tenant tenantScoped region queryValues serviceCluster urlPathParts
    = (url.mkURL (scheme c) (BuildHost c serviceCluster prefix) joined
                 (Values_Encode E (query_or_empty queryValues)), None)
    /\ (tenantScoped = true -> region <> "" -> has_system -> prefix = region)
    /\ (tenantScoped = true -> ~ has_system -> prefix = tenant)
    /\ (tenantScoped = false -> prefix = "")
    /\ (region = "" -> has_system -> prefix = "").
Proof.
  intros Ht joined has_system. unfold BuildURLWithTenant.
  rewrite length_zero_empty. apply is_empty_false in Ht. rewrite Ht.
  fold joined.
  assert (Hsys : strings_Contains joined "system" = true <-> has_system)
    by apply strings_Contains_spec.
  eexists. split; [reflexivity |].
  destruct tenantScoped, (is_empty region) eqn:Hr, (strings_Contains joined "system") eqn:Hc;
    empty_cases Hr; simpl;
    (split; [| split; [| split]]); intros; decide_system Hsys.
Qed.

(** C4. When the template renders, the path of the URL is the rendered path
    if that starts with "/system/" and "/" ++ default tenant ++ rendered path
    otherwise; the call fails with "region cannot be empty" exactly when the
    client is tenant-scoped, the path starts with "/system/" and the region is
    empty; in every other case it returns the URL whose host BuildHost builds
    from the prefix "region-" ++ region (tenant-scoped, system path), the
    default tenant (tenant-scoped, other path), or no prefix (not
    tenant-scoped). *)
Theorem BuildURLFromPathParams_spec (c : BaseClient)
    (queryValues : option (gmap string (list string))) (serviceCluster templ : string)
    (pathParams : PathParams E) (rendered : string) :
  template_Parse E templ = None ->
  template_Execute E templ pathParams = inl rendered ->
  let system p := exists rest, p = "/system/" ++ rest in
  let result := BuildURLFromPathParams E c queryValues serviceCluster templ pathParams in
  exists path,
    (~ system rendered -> path = "/" ++ defaultTenant c ++ rendered)
    /\ (system rendered -> path = rendered)
    /\ (snd result = Some "region cannot be empty"
        <-> tenantScoped c = true /\ system path /\ region c = "")
    /\ (tenantScoped c = true /\ system path /\ region c = ""
        -> result = (zero_URL, Some "region cannot be empty"))
    /\ (~ (tenantScoped c = true /\ system path /\ region c = "") ->
        exists prefix,
          result = (url.mkURL (scheme c) (BuildHost c serviceCluster prefix) path
                              (Values_Encode E (query_or_empty queryValues)), None)
          /\ (tenantScoped c = true -> system path -> prefix = "region-" ++ region c)
          /\ (tenantScoped c = true -> ~ system path -> prefix = defaultTenant c)
          /\ (tenantScoped c = false -> prefix = "")).
Proof.
  intros Hparse Hexec system result. subst result. unfold BuildURLFromPathParams.
  rewrite Hparse, Hexec.
  set (path := if negb (strings_HasPrefix rendered "/system/")
               then "/" ++ defaultTenant c ++ rendered else rendered).
  assert (Hsys : forall p, strings_HasPrefix p "/system/" = true <-> system p)
    by (intros p; apply strings_HasPrefix_spec).
  exists path. split; [| split].
  - intros Hn. subst path. destruct (strings_HasPrefix rendered "/system/") eqn:Hp;
      [exfalso; apply Hn, Hsys, Hp | reflexivity].
  - intros Hy. apply Hsys in Hy. subst path. rewrite Hy. reflexivity.
  - specialize (Hsys path).
    destruct (tenantScoped c), (is_empty (region c)) eqn:Hr,
      (strings_HasPrefix path "/system/") eqn:Hp;
      empty_cases Hr; simpl;
      (split; [split | split]);
      try (intros (H1 & H2 & H3); decide_system Hsys);
      try (intros _; repeat split; solve [assumption | apply Hsys; reflexivity]);
      try discriminate;
      try (intros Hn; exfalso; apply Hn; repeat split;
           solve [assumption | apply Hsys; reflexivity]);
      try (intros _; eexists; split; [reflexivity |];
           (split; [| split]); intros; decide_system Hsys).
Qed.

End URLBuilders.

(** For the system tenant the prepended tenant makes every path a
    "/system/" path: its requests go to the region's host. *)
Example BuildURLFromPathParams_system_tenant :
  BuildURLFromPathParams sample_Env system_client None "" "/identity/v3/" "validate"
  = (url.mkURL "https" "region-us1.api.example.com" "/system/identity/v3/validate" "", None).
Proof. reflexivity. Qed.

(** ** Computations and the events they emit *)

Lemma bind_eq {S A B} (m : ST S A) (k : A -> ST S B) (s : S) :
  (m ≫= k) s =
  match m s with
  | (Done a, s') => k a s'
  | (Panic msg, s') => (Panic msg, s')
  | (OutOfFuel, s') => (OutOfFuel, s')
  end.
Proof. reflexivity. Qed.

Lemma emits_ret {A} (P : Event -> bool) (a : A) : emits P (mret a).
Proof. intros w. exists []. split; [symmetry; apply app_nil_r | reflexivity]. Qed.

Lemma emits_panic {A} (P : Event -> bool) (msg : string) : emits P (@panic World A msg).
Proof. intros w. exists []. split; [symmetry; apply app_nil_r | reflexivity]. Qed.

Lemma emits_out_of_fuel {A} (P : Event -> bool) : emits P (@out_of_fuel World A).
Proof. intros w. exists []. split; [symmetry; apply app_nil_r | reflexivity]. Qed.

Lemma emits_get_world (P : Event -> bool) : emits P get_world.
Proof. intros w. exists []. split; [symmetry; apply app_nil_r | reflexivity]. Qed.

Lemma emits_sleep (P : Event -> bool) (d : Z) : emits P (sleep d).
Proof. intros w. exists []. split; [symmetry; apply app_nil_r | reflexivity]. Qed.

Lemma emits_log (P : Event -> bool) (ev : Event) : P ev = true -> emits P (log ev).
Proof. intros H w. exists [ev]. split; [reflexivity | simpl; rewrite H; reflexivity]. Qed.

Lemma emits_bind {A B} (P : Event -> bool) (m : M A) (k : A -> M B) :
  emits P m -> (forall a, emits P (k a)) -> emits P (m ≫= k).
Proof.
  intros Hm Hk w. rewrite bind_eq. destruct (Hm w) as (evs & Ht & HP).
  destruct (m w) as [[a | msg |] w1]; simpl in Ht.
  - destruct (Hk a w1) as (evs' & Ht' & HP'). exists (evs ++ evs')%list. split.
    + rewrite Ht', Ht. symmetry. apply app_assoc.
    + rewrite forallb_app, HP, HP'. reflexivity.
  - exists evs. auto.
  - exists evs. auto.
Qed.

Lemma emits_weaken {A} (P Q : Event -> bool) (m : M A) :
  (forall ev, P ev = true -> Q ev = true) -> emits P m -> emits Q m.
Proof.
  intros HPQ Hm w. destruct (Hm w) as (evs & Ht & HP). exists evs. split; [exact Ht |].
  rewrite forallb_forall in *. auto.
Qed.

Create HintDb emits.
#[export] Hint Resolve emits_ret emits_panic emits_out_of_fuel emits_get_world
  emits_sleep emits_log : emits.

Section Pipeline.
Variable E : Env.

Lemma send_emits (c : BaseClient) (req : Request) : emits is_Send (send E c req).
Proof.
  unfold send. apply emits_bind; [auto with emits | intros w0].
  apply emits_bind; [apply emits_log; reflexivity | intros _]. auto with emits.
Qed.

Lemma record_status_emits (P : Event -> bool) (req : Request) (res : Result) :
  emits P (record_status E req res).
Proof.
  unfold record_status. destruct (snd res); [auto with emits |].
  destruct (fst res); [| auto with emits].
  destruct (400 <=? http.StatusCode _); auto with emits.
Qed.

Lemma handle_emits (P : Event -> bool) (do : Request -> M (Result * Request))
    (h : Handling) :
  (forall req, emits P (do req)) -> emits P (handle do h).
Proof.
  intros Hdo. induction h as [res req | req k IH | d k IH]; simpl.
  - auto with emits.
  - apply emits_bind; [apply Hdo | exact IH].
  - apply emits_bind; [auto with emits | intros _; exact IH].
Qed.

Lemma run_handlers_emits (P : Event -> bool) (do : Request -> M (Result * Request))
    (handlers : list ResponseHandler) :
  (forall req, emits P (do req)) ->
  forall req response err, emits P (run_handlers do handlers req response err).
Proof.
  intros Hdo. induction handlers as [| hr handlers IH]; intros req response err; simpl.
  - auto with emits.
  - destruct err as [e |].
    + apply emits_bind.
      * destruct (HandleRequestError hr); [apply handle_emits; exact Hdo | auto with emits].
      * intros [res req']. destruct (snd res); [apply IH | auto with emits].
    + apply emits_bind; [apply handle_emits; exact Hdo |].
      intros [res req']. destruct (snd res); [auto with emits | apply IH].
Qed.

(** Whatever the handlers do, [Do] leaves nothing in the trace but sends. *)
Lemma Do_emits (fuel : nat) (c : BaseClient) (req : Request) :
  emits is_Send (Do E fuel c req).
Proof.
  revert req. induction fuel as [| fuel IH]; intros req; simpl.
  - auto with emits.
  - apply emits_bind; [apply send_emits | intros reply].
    destruct (_ =? 0)%nat; [auto with emits |].
    apply emits_bind; [apply record_status_emits | intros req2].
    apply run_handlers_emits. exact IH.
Qed.

Lemma send_eq (c : BaseClient) (req : Request) (w : World) :
  send E c req w
  = (Done (transport_of E c (count_events is_Send w) (http_Request req)),
     emit (EvSend (http_Request req) (NumAttempts req)) w).
Proof. reflexivity. Qed.

(** One iteration of [Do], after the transport has replied. *)
Lemma Do_unfold (fuel : nat) (c : BaseClient) (req : Request) (w : World) :
  let sent := count_attempt E req in
  let reply := transport_of E c (count_events is_Send w) (http_Request req) in
  let w1 := emit (EvSend (http_Request req) (NumAttempts sent)) w in
  Do E (S fuel) c req w
  = if (List.length (responseHandlers c) =? 0)%nat
    then (Done (result_of reply, sent), w1)
    else (record_status E sent (result_of reply)
          ≫= fun counted => run_handlers (Do E fuel c) (responseHandlers c) counted
                                          (fst (result_of reply)) (snd (result_of reply))) w1.
Proof.
  simpl. rewrite bind_eq, send_eq. simpl.
  destruct (List.length (responseHandlers c) =? 0)%nat; reflexivity.
Qed.

Lemma uint_wrap_small (z : Z) :
  0 <= z < 2 ^ uint_bits E - 1 -> uint_wrap (uint_bits E) (z + 1) = z + 1.
Proof. intros H. unfold uint_wrap. apply Z.mod_small. lia. Qed.

Lemma uint_wrap_one : uint_wrap (uint_bits E) (0 + 1) = 1.
Proof. unfold uint_wrap, uint_bits. destruct (arch64 E); reflexivity. Qed.

(** What [IncrementErrorsByType] does to the counter of a response code and
    to all the others. *)
Lemma IncrementErrorsByType_count (req : Request) (respCode : Z) :
  let counted := IncrementErrorsByType E req (Sprintf_d respCode) in
  NumErrorsByType counted !! Sprintf_d respCode
  = Some (uint_wrap (uint_bits E) (GetNumErrorsByResponseCode req respCode + 1))
  /\ (forall errType, errType <> Sprintf_d respCode ->
        NumErrorsByType counted !! errType = NumErrorsByType req !! errType)
  /\ http_Request counted = http_Request req
  /\ NumAttempts counted = NumAttempts req.
Proof.
  unfold IncrementErrorsByType, GetNumErrorsByResponseCode.
  destruct (NumErrorsByType req !! Sprintf_d respCode) as [val |] eqn:Hv; simpl;
    (split; [| split; [| split]]); try reflexivity.
  - apply lookup_insert_eq.
  - intros errType Hne. apply lookup_insert_ne. congruence.
  - rewrite lookup_insert_eq, uint_wrap_one. reflexivity.
  - intros errType Hne. apply lookup_insert_ne. congruence.
Qed.

(** C2. A call to Do counts one more attempt (in [uint] arithmetic: plus
    one, unless the counter was at its maximum) and only then calls
    [c.httpClient.Do], with the counter already raised. Without response
    handlers it returns what that call handed back as it is, a response
    without error or an error with whatever response came with it, on the
    request with the raised attempt counter and the error counts it had.
    With handlers, after a response with status code 400 or more that came
    without error, the handler chain starts on a request whose error count
    under the decimal numeral of the status code is one more than before (1
    if there was none), all other counts being unchanged. *)
Theorem Do_spec (fuel : nat) (c : BaseClient) (req : Request) (w : World) :
  let attempts := uint_wrap (uint_bits E) (NumAttempts req + 1) in
  let sent := mkReq (http_Request req) attempts (NumErrorsByType req) in
  let reply := transport_of E c (count_events is_Send w) (http_Request req) in
  let w1 := emit (EvSend (http_Request req) attempts) w in
  (0 <= NumAttempts req < 2 ^ uint_bits E - 1 -> attempts = NumAttempts req + 1)
  /\ (exists evs, trace (snd (Do E (S fuel) c req w))
                  = (trace w ++ EvSend (http_Request req) attempts :: evs)%list)
  /\ (forall response,
        responseHandlers c = [] ->
        reply = http.Answer response ->
        Do E (S fuel) c req w = (Done ((Some response, None), sent), w1))
  /\ (forall response err,
        responseHandlers c = [] ->
        reply = http.Failure response err ->
        Do E (S fuel) c req w = (Done ((response, Some err), sent), w1))
  /\ (forall response,
        responseHandlers c <> [] ->
        reply = http.Answer response ->
        400 <= http.StatusCode response ->
        let key := NilZero.string_of_int (Z.to_int (http.StatusCode response)) in
        let before := match NumErrorsByType req !! key with
                      | Some val => val
                      | None => 0
                      end in
        exists counted,
          Do E (S fuel) c req w
          = run_handlers (Do E fuel c) (responseHandlers c) counted (Some response) None w1
          /\ http_Request counted = http_Request req
          /\ NumAttempts counted = attempts
          /\ NumErrorsByType counted !! key = Some (uint_wrap (uint_bits E) (before + 1))
          /\ (0 <= before < 2 ^ uint_bits E - 1 ->
              NumErrorsByType counted !! key = Some (before + 1))
          /\ (forall errType, errType <> key ->
                NumErrorsByType counted !! errType = NumErrorsByType req !! errType)).
Proof.
  intros attempts sent reply w1.
  pose proof (Do_unfold fuel c req w) as Hdo. cbv zeta in Hdo.
  change (count_attempt E req) with sent in Hdo.
  change (NumAttempts sent) with attempts in Hdo.
  fold reply w1 in Hdo.
  split; [| split; [| split; [| split]]].
  - apply uint_wrap_small.
  - rewrite Hdo. destruct (List.length (responseHandlers c) =? 0)%nat.
    + exists []. reflexivity.
    + assert (Hrest : emits is_Send
                (record_status E sent (result_of reply)
                 ≫= fun counted => run_handlers (Do E fuel c) (responseHandlers c) counted
                                                 (fst (result_of reply)) (snd (result_of reply)))).
      { apply emits_bind; [apply record_status_emits | intros counted].
        apply run_handlers_emits. intros r. apply Do_emits. }
      destruct (Hrest w1) as (evs & Ht & _). exists evs. rewrite Ht. simpl.
      rewrite <- app_assoc. reflexivity.
  - intros response Hnone Hreply. rewrite Hdo, Hnone, Hreply. reflexivity.
  - intros response err Hnone Hreply. rewrite Hdo, Hnone, Hreply. reflexivity.
  - intros response Hsome Hreply Hstatus key before.
    exists (IncrementErrorsByType E sent key).
    destruct (IncrementErrorsByType_count sent (http.StatusCode response))
      as (Hcode & Hother & Hreq & Hatt).
    cbv zeta in Hcode, Hother, Hreq, Hatt.
    change (Sprintf_d (http.StatusCode response)) with key in Hcode, Hother, Hreq, Hatt.
    change (GetNumErrorsByResponseCode sent (http.StatusCode response)) with before in Hcode.
    split; [| split; [exact Hreq | split; [exact Hatt | split; [exact Hcode | split]]]].
    + rewrite Hdo. destruct (responseHandlers c) as [| hr hs]; [congruence |].
      cbn [List.length Nat.eqb]. rewrite Hreply. cbn [result_of fst snd].
      rewrite bind_eq. unfold record_status. cbn [fst snd].
      apply Z.leb_le in Hstatus. rewrite Hstatus. reflexivity.
    + intros Hrange. rewrite Hcode, (uint_wrap_small before Hrange). reflexivity.
    + exact Hother.
Qed.

End Pipeline.

(** ** Request construction *)

Lemma caller_value_None (headers : list (string * string)) (canonical : string) :
  ~ In canonical (canonical_keys headers) -> caller_value headers canonical = None.
Proof.
  induction headers as [| [k v] headers IH]; simpl; intros Hn; [reflexivity |].
  rewrite IH by tauto.
  destruct (String.eqb_spec (http.CanonicalMIMEHeaderKey k) canonical); [tauto | reflexivity].
Qed.

(** When no two of the caller's keys share a canonical form, every entry is
    the caller's value under its canonical key. *)
Lemma caller_value_In (headers : list (string * string)) (k v : string) :
  List.NoDup (canonical_keys headers) -> In (k, v) headers ->
  caller_value headers (http.CanonicalMIMEHeaderKey k) = Some v.
Proof.
  induction headers as [| [k0 v0] headers IH]; simpl; intros Hnd Hin; [contradiction |].
  apply NoDup_cons_iff in Hnd as [Hfresh Hnd]. destruct Hin as [Heq | Hin].
  - injection Heq as -> ->. rewrite caller_value_None by exact Hfresh.
    rewrite String.eqb_refl. reflexivity.
  - rewrite IH by assumption. reflexivity.
Qed.

Lemma set_header_lookup (request : http.Request) (key value canonical : string) :
  http.Header (set_header request key value) !! canonical
  = if String.eqb (http.CanonicalMIMEHeaderKey key) canonical then Some [value]
    else http.Header request !! canonical.
Proof.
  unfold set_header, http.Header_Set. simpl.
  destruct (String.eqb_spec (http.CanonicalMIMEHeaderKey key) canonical) as [-> | Hne].
  - apply lookup_insert_eq.
  - apply lookup_insert_ne. exact Hne.
Qed.

(** After the loop over the caller's headers, a canonical key holds the
    caller's value if there is one and what it held before otherwise. *)
Lemma set_headers_lookup (headers : list (string * string)) (request : http.Request)
    (canonical : string) :
  http.Header (set_headers request headers) !! canonical
  = match caller_value headers canonical with
    | Some v => Some [v]
    | None => http.Header request !! canonical
    end.
Proof.
  revert request. induction headers as [| [k v] headers IH]; intros request; [reflexivity |].
  change (set_headers request ((k, v) :: headers))
    with (set_headers (set_header request k v) headers).
  rewrite IH. cbn [caller_value]. destruct (caller_value headers canonical); [reflexivity |].
  rewrite set_header_lookup.
  destruct (String.eqb (http.CanonicalMIMEHeaderKey k) canonical); reflexivity.
Qed.

Section Requests.
Variable E : Env.

Lemma http_NewRequest_Header (method url : string) (body : option bytes)
    (request : http.Request) :
  http_NewRequest E method url body = inl request ->
  http.Header request = ∅ /\ http.Body request = body /\ http.URL request = url.
Proof.
  unfold http_NewRequest. destruct (negb _); [discriminate |].
  destruct (url_Parse E url); [discriminate |]. intros [= <-]. auto.
Qed.

Lemma set_header_Body (request : http.Request) (key value : string) :
  http.Body (set_header request key value) = http.Body request.
Proof. reflexivity. Qed.

Lemma set_headers_Body (headers : list (string * string)) (request : http.Request) :
  http.Body (set_headers request headers) = http.Body request.
Proof.
  revert request. induction headers as [| [k v] headers IH]; intros request; [reflexivity |].
  change (set_headers request ((k, v) :: headers))
    with (set_headers (set_header request k v) headers).
  rewrite IH. reflexivity.
Qed.

Lemma set_headers_if (headers : list (string * string)) (request : http.Request) :
  (if negb (List.length headers =? 0)%nat then set_headers request headers else request)
  = set_headers request headers.
Proof. destruct headers; reflexivity. Qed.

(** The headers of the request NewRequest returns, key by key: the caller's
    value where the caller gives one, the default otherwise. *)
Lemma NewRequest_eq (c : BaseClient) (method url : string) (body : option bytes)
    (headers : list (string * string)) (w : World) (request : http.Request) :
  http_NewRequest E method url body = inl request ->
  exists r,
    NewRequest E c method url body headers w
    = (Done (inl r), emit (EvNewRequest method url) w)
    /\ NumAttempts r = 0 /\ NumErrorsByType r = ∅
    /\ http.Body (http_Request r) = body
    /\ forall canonical,
         http.Header (http_Request r) !! canonical
         = match caller_value headers canonical with
           | Some v => Some [v]
           | None =>
               if String.eqb "Content-Type" canonical then Some ["application/json"]
               else if String.eqb "Splunk-Client" canonical then
                 Some [if is_empty (clientVersion c)
                       then UserAgent E ++ "/" ++ Version E
                       else (UserAgent E ++ "/" ++ Version E) ++ "," ++ clientVersion c]
               else if String.eqb "Authorization" canonical
                       && negb (is_empty (access_token c))
               then Some [AuthorizationType ++ " " ++ access_token c]
               else None
           end.
Proof.
  intros Hnew. destruct (http_NewRequest_Header _ _ _ _ Hnew) as (Hhdr & Hbody & _).
  unfold NewRequest. rewrite bind_eq. cbn [log]. rewrite Hnew, set_headers_if.
  eexists. split; [reflexivity |]. split; [reflexivity |]. split; [reflexivity |].
  cbn [http_Request]. split.
  - rewrite set_headers_Body, !set_header_Body.
    destruct (tokenContext c) as [ctx |]; [| exact Hbody].
    destruct (0 <? String.length (idp.AccessToken ctx))%nat; exact Hbody.
  - intros canonical. rewrite set_headers_lookup.
    destruct (caller_value headers canonical); [reflexivity |].
    rewrite !set_header_lookup.
    change (http.CanonicalMIMEHeaderKey "Content-Type") with "Content-Type".
    change (http.CanonicalMIMEHeaderKey "Splunk-Client") with "Splunk-Client".
    destruct (String.eqb "Content-Type" canonical); [reflexivity |].
    rewrite length_pos_nonempty.
    destruct (String.eqb "Splunk-Client" canonical);
      [destruct (is_empty (clientVersion c)); reflexivity |].
    unfold access_token. destruct (tokenContext c) as [ctx |].
    + rewrite length_pos_nonempty. destruct (is_empty (idp.AccessToken ctx)).
      * cbn [negb]. rewrite andb_false_r, Hhdr. apply lookup_empty.
      * cbn [negb]. rewrite andb_true_r, set_header_lookup, Hhdr, lookup_empty.
        reflexivity.
    + rewrite Hhdr, lookup_empty. cbn [is_empty String.eqb negb]. rewrite andb_false_r.
      reflexivity.
Qed.

(** C8. A request produced by NewRequest starts with an attempt counter of
    zero and an empty error-by-kind map. Its headers are the caller's,
    key by key, over the defaults: under a canonical key the caller supplies
    it carries the caller's value; otherwise it carries
    "Authorization: Bearer " ++ token exactly when the client holds a
    non-empty access token, the client-identification header
    UserAgent ++ "/" ++ Version, with "," ++ clientVersion appended when
    that is non-empty, and "Content-Type: application/json". *)
Theorem NewRequest_spec (c : BaseClient) (method url : string) (body : option bytes)
    (headers : list (string * string)) (w : World) (request : http.Request) :
  http_NewRequest E method url body = inl request ->
  exists r,
    NewRequest E c method url body headers w
    = (Done (inl r), emit (EvNewRequest method url) w)
    /\ NumAttempts r = 0 /\ NumErrorsByType r = ∅
    /\ (caller_value headers "Authorization" = None ->
        (access_token c <> "" ->
         http.Header (http_Request r) !! "Authorization"
         = Some ["Bearer " ++ access_token c])
        /\ (access_token c = "" ->
            http.Header (http_Request r) !! "Authorization" = None))
    /\ (caller_value headers "Splunk-Client" = None ->
        (clientVersion c = "" ->
         http.Header (http_Request r) !! "Splunk-Client"
         = Some [UserAgent E ++ "/" ++ Version E])
        /\ (clientVersion c <> "" ->
            http.Header (http_Request r) !! "Splunk-Client"
            = Some [(UserAgent E ++ "/" ++ Version E) ++ "," ++ clientVersion c]))
    /\ (caller_value headers "Content-Type" = None ->
        http.Header (http_Request r) !! "Content-Type" = Some ["application/json"])
    /\ (forall canonical v,
          caller_value headers canonical = Some v ->
          http.Header (http_Request r) !! canonical = Some [v])
    /\ (List.NoDup (canonical_keys headers) ->
        forall k v, In (k, v) headers ->
          http.Header (http_Request r) !! http.CanonicalMIMEHeaderKey k = Some [v]).
Proof.
  intros Hnew.
  destruct (NewRequest_eq c method url body headers w request Hnew)
    as (r & Heq & Hatt & Herr & _ & Hhdr).
  exists r. split; [exact Heq |]. split; [exact Hatt |]. split; [exact Herr |].
  split; [| split; [| split; [| split]]].
  - intros Hnone. rewrite Hhdr, Hnone. cbn [String.eqb Ascii.eqb Bool.eqb andb].
    split; intros Htok.
    + apply is_empty_false in Htok. rewrite Htok. reflexivity.
    + apply is_empty_true in Htok. rewrite Htok. reflexivity.
  - intros Hnone. rewrite Hhdr, Hnone. cbn [String.eqb Ascii.eqb Bool.eqb].
    split; intros Hcv.
    + apply is_empty_true in Hcv. rewrite Hcv. reflexivity.
    + apply is_empty_false in Hcv. rewrite Hcv. reflexivity.
  - intros Hnone. rewrite Hhdr, Hnone. reflexivity.
  - intros canonical v Hsome. rewrite Hhdr, Hsome. reflexivity.
  - intros Hnd k v Hin. rewrite Hhdr, (caller_value_In headers k v Hnd Hin). reflexivity.
Qed.

End Requests.

(** ** DoRequest *)

Lemma is_pipeline_NewRequest (ev : Event) : is_NewRequest ev = true -> is_pipeline ev = true.
Proof. unfold is_pipeline. intros ->. reflexivity. Qed.

Lemma is_pipeline_Send (ev : Event) : is_Send ev = true -> is_pipeline ev = true.
Proof. unfold is_pipeline. intros ->. apply orb_true_r. Qed.

Lemma is_pipeline_not_retriever (evs : list Event) :
  forallb is_pipeline evs = true -> List.filter is_GetTokenContext evs = [].
Proof.
  induction evs as [| ev evs IH]; simpl; [reflexivity |].
  intros [Hev Hevs]%andb_true_iff. rewrite (IH Hevs).
  destruct ev; try reflexivity; discriminate.
Qed.

Lemma add64_exact (a b : Z) : - 2 ^ 63 <= a + b < 2 ^ 63 -> add64 a b = a + b.
Proof.
  intros H. unfold add64, wrap64. rewrite Z.mod_small by lia. lia.
Qed.

(** Flooring to seconds does not change a comparison with a whole number
    of seconds. *)
Lemma Unix_after_lt (t d n : Z) : Unix_after t d < n <-> t + d < n * time_Second.
Proof.
  unfold Unix_after, time_Second.
  pose proof (Z.div_mod (t + d) 1000000000 ltac:(lia)) as Hdiv.
  pose proof (Z.mod_pos_bound (t + d) 1000000000 ltac:(lia)) as Hmod.
  split; intros H; [lia |].
  apply Z.div_lt_upper_bound; lia.
Qed.

Lemma liftW_eq {A} (m : M A) (c : BaseClient) (w : World) :
  liftW m (c, w) = (fst (m w), (c, snd (m w))).
Proof. unfold liftW. simpl. destruct (m w). reflexivity. Qed.

Section TokenRefresh.
Variable E : Env.

Lemma NewRequest_emits (c : BaseClient) (method url : string) (body : option bytes)
    (headers : list (string * string)) :
  emits is_NewRequest (NewRequest E c method url body headers).
Proof.
  unfold NewRequest. apply emits_bind; [apply emits_log; reflexivity | intros _].
  destruct (http_NewRequest E method url body); auto with emits.
Qed.

Lemma makeFormRequest_emits (c : BaseClient) (p : gdepservices.RequestParams) :
  emits is_NewRequest (makeFormRequest E c p).
Proof.
  unfold makeFormRequest. apply emits_bind; [auto with emits | intros w0].
  destruct (_ ≫= _) as [forms |]; [| auto with emits].
  unfold multipart_CreateFormFile, io_Copy. destruct (gdepservices.failure _); [auto with emits |].
  apply emits_bind; [apply NewRequest_emits | intros [r | e]]; auto with emits.
Qed.

Lemma build_request_emits (c : BaseClient) (p : gdepservices.RequestParams) :
  emits is_NewRequest (build_request E c p).
Proof.
  unfold build_request. destruct (_ && _); [apply makeFormRequest_emits |].
  destruct (gdepservices.Body p) as [body |]; [| apply NewRequest_emits].
  destruct (match body with
            | gdepservices.Bytes contentBytes => inl contentBytes
            | gdepservices.Marshaler f => f (gdepservices.Method p)
            | gdepservices.Form _ json | gdepservices.Other json => json
            end); [apply NewRequest_emits | auto with emits].
Qed.

(** Once the token is settled, the rest of DoRequest leaves the client as it
    is and adds nothing to the trace but request constructions and sends. *)
Lemma submit_events (fuel : nat) (p : gdepservices.RequestParams) (c : BaseClient)
    (w : World) :
  fst (snd (submit E fuel p (c, w))) = c
  /\ exists evs,
       trace (snd (snd (submit E fuel p (c, w)))) = (trace w ++ evs)%list
       /\ forallb is_pipeline evs = true.
Proof.
  unfold submit. rewrite bind_eq. cbn [get_client fst snd]. rewrite bind_eq, liftW_eq.
  destruct (emits_weaken _ _ _ is_pipeline_NewRequest (build_request_emits c p) w)
    as (evs1 & Ht1 & HP1).
  destruct (build_request E c p w) as [[[request | err] | msg |] w1]; cbn [fst snd] in *;
    try (split; [reflexivity | exists evs1; auto]).
  rewrite bind_eq, liftW_eq.
  destruct (emits_weaken _ _ _ is_pipeline_Send (Do_emits E fuel c request) w1)
    as (evs2 & Ht2 & HP2).
  assert (Hall : trace (snd (Do E fuel c request w1)) = (trace w ++ evs1 ++ evs2)%list)
    by (rewrite Ht2, Ht1; symmetry; apply app_assoc).
  assert (HP : forallb is_pipeline (evs1 ++ evs2) = true)
    by (rewrite forallb_app, HP1, HP2; reflexivity).
  destruct (Do E fuel c request w1) as [[[res req'] | msg |] w2]; cbn [fst snd] in *;
    try (split; [reflexivity | exists (evs1 ++ evs2)%list; auto]).
  destruct (snd res); cbn [fst snd];
    (split; [reflexivity | exists (evs1 ++ evs2)%list; auto]).
Qed.

Lemma renew_token_fresh (c : BaseClient) (w : World) (tc : idp.Context) :
  tokenContext c = Some tc ->
  Unix_after (now w) (tokenExpireWindow c) < add64 (idp.StartTime tc) (idp.ExpiresIn tc) ->
  renew_token (c, w) = (Done None, (c, w)).
Proof.
  intros Htc Hfresh. unfold renew_token. rewrite bind_eq. cbn [get_client fst snd].
  rewrite bind_eq, liftW_eq. cbn [get_world fst snd]. rewrite Htc.
  apply Z.leb_gt in Hfresh. rewrite Hfresh. reflexivity.
Qed.

Lemma renew_token_stale (c : BaseClient) (w : World) (tc : idp.Context) :
  tokenContext c = Some tc ->
  add64 (idp.StartTime tc) (idp.ExpiresIn tc) <= Unix_after (now w) (tokenExpireWindow c) ->
  let w' := mkWorld (now w) (boundary w) (trace w ++ refresh_events) in
  renew_token (c, w)
  = match tokenRetriever c (count_events is_GetTokenContext w) with
    | (ctx, Some err) => (Done (Some err), (c, w'))
    | (ctx, None) => (Done None, (UpdateTokenContext c ctx, w'))
    end.
Proof.
  intros Htc Hstale. unfold renew_token. rewrite bind_eq. cbn [get_client fst snd].
  rewrite bind_eq, liftW_eq. cbn [get_world fst snd]. rewrite Htc.
  apply Z.leb_le in Hstale. rewrite Hstale.
  rewrite bind_eq, liftW_eq. cbn [log fst snd]. rewrite bind_eq, liftW_eq.
  unfold GetTokenContext. rewrite bind_eq. cbn [get_world]. rewrite bind_eq.
  cbn [log mret ST_ret fst snd].
  assert (Hcount : count_events is_GetTokenContext (emit EvLock w)
                   = count_events is_GetTokenContext w).
  { unfold count_events, emit. cbn [trace]. rewrite List.filter_app. simpl.
    rewrite app_nil_r. reflexivity. }
  rewrite Hcount.
  destruct (tokenRetriever c (count_events is_GetTokenContext w)) as [ctx [err |]];
    rewrite bind_eq, ?liftW_eq; cbn [log set_client fst snd];
    rewrite ?bind_eq, ?liftW_eq; cbn [log mret ST_ret fst snd];
    unfold emit; cbn [now boundary trace]; rewrite <- !app_assoc; reflexivity.
Qed.

(** C1. Let the client hold a token. If the Unix time of now plus the
    expiry window is before issuance plus expires-in (Go's [int64] sum, the
    mathematical one whenever that fits 64 bits; the comparison in whole
    seconds is the comparison in nanoseconds), DoRequest does not call
    the retriever and leaves the client as it is. Otherwise it calls the
    retriever once, between Lock and Unlock; if that returns no error the
    client holds the returned snapshot from then on; if it returns an error,
    DoRequest returns that error at once, whatever the fuel: nothing else is
    added to the trace (no request is constructed or sent) and the client,
    with its token snapshot, is unchanged. *)
Theorem DoRequest_token_spec (fuel : nat) (p : gdepservices.RequestParams)
    (c : BaseClient) (w : World) (tc : idp.Context) :
  tokenContext c = Some tc ->
  let curEpoch := Unix_after (now w) (tokenExpireWindow c) in
  let expiry := add64 (idp.StartTime tc) (idp.ExpiresIn tc) in
  let calls := count_events is_GetTokenContext in
  let result := DoRequest E fuel p (c, w) in
  (- 2 ^ 63 <= idp.StartTime tc + idp.ExpiresIn tc < 2 ^ 63 ->
   expiry = idp.StartTime tc + idp.ExpiresIn tc)
  /\ (curEpoch < expiry <-> now w + tokenExpireWindow c < expiry * time_Second)
  /\ (curEpoch < expiry ->
      result = submit E fuel p (c, w)
      /\ fst (snd result) = c
      /\ calls (snd (snd result)) = calls w
      /\ exists evs, trace (snd (snd result)) = (trace w ++ evs)%list
                     /\ forallb is_pipeline evs = true)
  /\ (expiry <= curEpoch ->
      forall ctx, tokenRetriever c (calls w) = (ctx, None) ->
        fst (snd result) = UpdateTokenContext c ctx
        /\ tokenContext (fst (snd result)) = ctx
        /\ calls (snd (snd result)) = S (calls w)
        /\ exists evs,
             trace (snd (snd result)) = (trace w ++ refresh_events ++ evs)%list
             /\ forallb is_pipeline evs = true)
  /\ (expiry <= curEpoch ->
      forall ctx err, tokenRetriever c (calls w) = (ctx, Some err) ->
        result = (Done (None, Some err),
                  (c, mkWorld (now w) (boundary w) (trace w ++ refresh_events)))).
Proof.
  intros Htc curEpoch expiry calls result. subst result.
  split; [apply add64_exact |]. split; [apply Unix_after_lt |]. split; [| split].
  - intros Hfresh. unfold DoRequest. rewrite bind_eq.
    rewrite (renew_token_fresh c w tc Htc Hfresh).
    destruct (submit_events fuel p c w) as (Hc & evs & Ht & HP).
    split; [reflexivity |]. split; [exact Hc |]. split; [| eauto].
    unfold calls, count_events. rewrite Ht, List.filter_app.
    rewrite (is_pipeline_not_retriever evs HP), app_nil_r. reflexivity.
  - intros Hstale ctx Hret. unfold DoRequest. rewrite bind_eq.
    rewrite (renew_token_stale c w tc Htc Hstale). fold calls. rewrite Hret.
    set (w' := mkWorld (now w) (boundary w) (trace w ++ refresh_events)).
    destruct (submit_events fuel p (UpdateTokenContext c ctx) w') as (Hc & evs & Ht & HP).
    split; [exact Hc |]. split; [rewrite Hc; reflexivity |].
    assert (Htrace : trace (snd (snd (submit E fuel p (UpdateTokenContext c ctx, w'))))
                     = (trace w ++ refresh_events ++ evs)%list)
      by (rewrite Ht; subst w'; cbn [trace]; symmetry; apply app_assoc).
    split; [| eauto].
    unfold calls, count_events. rewrite Htrace, !List.filter_app.
    rewrite (is_pipeline_not_retriever evs HP), app_nil_r, length_app. simpl. lia.
  - intros Hstale ctx err Hret. unfold DoRequest. rewrite bind_eq.
    rewrite (renew_token_stale c w tc Htc Hstale). fold calls. rewrite Hret.
    reflexivity.
Qed.

End TokenRefresh.

(** ** Multipart requests *)

Section Multipart.
Variable E : Env.

Lemma declares_multipart (c : BaseClient) (p : gdepservices.RequestParams) :
  map_index (gdepservices.Headers p) "Content-Type" = "multipart/form-data" ->
  build_request E c p = makeFormRequest E c p.
Proof.
  intros Hct. unfold build_request. rewrite Hct.
  destruct (gdepservices.Headers p); [discriminate | reflexivity].
Qed.

Lemma no_send_in_construction (evs : list Event) :
  forallb is_NewRequest evs = true -> List.filter is_Send evs = [].
Proof.
  induction evs as [| ev evs IH]; simpl; [reflexivity |].
  intros [Hev Hevs]%andb_true_iff. rewrite (IH Hevs).
  destruct ev; try reflexivity; discriminate.
Qed.

(** C9, as amended. When the headers declare multipart/form-data, DoRequest
    delegates to makeFormRequest. That fails with an error if the body is not
    form data, if reading the stream fails, or if the request cannot be
    constructed, and then DoRequest returns the error and sends nothing.
    Otherwise the body of the request is one file part: the part header, the
    bytes of the stream, all of them and unchanged, and the closing boundary;
    and its Content-Type is "multipart/form-data; boundary=..." for the
    writer's boundary. *)
Theorem makeFormRequest_spec (c : BaseClient) (p : gdepservices.RequestParams)
    (w : World) :
  map_index (gdepservices.Headers p) "Content-Type" = "multipart/form-data" ->
  let method := gdepservices.Method p in
  let url := URL_String E (gdepservices.URL p) in
  let built := makeFormRequest E c p w in
  build_request E c p = makeFormRequest E c p
  /\ (gdepservices.Body p ≫= gdepservices.as_FormData = None ->
      built = (Done (inr "bad request of form data"), w))
  /\ (forall forms,
        gdepservices.Body p ≫= gdepservices.as_FormData = Some forms ->
        let stream := gdepservices.Stream forms in
        let body :=
          (multipart_part_header E (boundary w) (gdepservices.Key forms)
                                 (gdepservices.Filename forms)
           ++ gdepservices.data stream ++ multipart_close (boundary w))%list in
        (forall err, gdepservices.failure stream = Some err ->
           built = (Done (inr err), w))
        /\ (forall err, gdepservices.failure stream = None ->
              http_NewRequest E method url (Some body) = inr err ->
              built = (Done (inr err), emit (EvNewRequest method url) w))
        /\ (forall request, gdepservices.failure stream = None ->
              http_NewRequest E method url (Some body) = inl request ->
              exists r,
                built = (Done (inl r), emit (EvNewRequest method url) w)
                /\ http.Body (http_Request r) = Some body
                /\ http.Header (http_Request r) !! "Content-Type"
                   = Some [FormDataContentType (boundary w)]
                /\ exists b, FormDataContentType (boundary w)
                             = "multipart/form-data; boundary=" ++ b))
  /\ (forall fuel c0 w0 err,
        renew_token (c0, w0) = (Done None, (c, w)) ->
        fst built = Done (inr err) ->
        DoRequest E fuel p (c0, w0) = (Done (None, Some err), (c, snd built))
        /\ count_events is_Send (snd built) = count_events is_Send w).
Proof.
  intros Hct method url built.
  split; [apply declares_multipart; exact Hct |]. split; [| split].
  - intros Hnone. subst built. unfold makeFormRequest. rewrite bind_eq.
    cbn [get_world]. rewrite Hnone. reflexivity.
  - intros forms Hforms stream body. subst built. unfold makeFormRequest.
    rewrite bind_eq. cbn [get_world]. rewrite Hforms.
    unfold multipart_CreateFormFile, io_Copy.
    fold stream. split; [| split].
    + intros err Hfail. rewrite Hfail. reflexivity.
    + intros err Hfail Hnew. rewrite Hfail, bind_eq. fold body method url.
      unfold NewRequest. rewrite bind_eq. cbn [log]. rewrite Hnew. reflexivity.
    + intros request Hfail Hnew. rewrite Hfail, bind_eq. fold body method url.
      destruct (NewRequest_eq E c method url (Some body) (gdepservices.Headers p) w
                              request Hnew) as (r & Heq & _ & _ & Hbody & _).
      rewrite Heq. eexists. split; [reflexivity |]. cbn [http_Request].
      split; [rewrite set_header_Body; exact Hbody |]. split.
      * rewrite set_header_lookup. reflexivity.
      * unfold FormDataContentType. eexists. reflexivity.
  - intros fuel c0 w0 err Hrenew Hbuilt. split.
    + unfold DoRequest. rewrite bind_eq, Hrenew. unfold submit.
      rewrite bind_eq. cbn [get_client fst snd]. rewrite bind_eq, liftW_eq.
      rewrite (declares_multipart c p Hct). fold built. rewrite Hbuilt. reflexivity.
    + destruct (makeFormRequest_emits E c p w) as (evs & Ht & HP). fold built in Ht.
      unfold count_events. rewrite Ht, List.filter_app.
      rewrite (no_send_in_construction evs HP), app_nil_r. reflexivity.
Qed.

End Multipart.

(** ** Client construction *)

Section Construction.
Variable E : Env.

Lemma GetTokenContext_eq (r : idp.TokenRetriever) (w : World) :
  GetTokenContext r w = (Done (r (count_events is_GetTokenContext w)), emit EvGetTokenContext w).
Proof. reflexivity. Qed.

(** What a successful NewClient tells about the configuration, and how the
    client it returns is made from it. *)
Lemma NewClient_inv (config : Config) (w : World) (c : BaseClient) (s' : Config * World) :
  NewClient E (config, w) = (Done (inl c), s') ->
  (Host config = "" \/ OverrideHost config = "")
  /\ ((Token config <> "" /\ TokenRetriever config = None
       /\ tokenRetriever c = NoOpTokenRetriever E (idp.mkContext (Token config) 0 0))
      \/ (Token config = "" /\ TokenRetriever config = Some (tokenRetriever c)))
  /\ responseHandlers c = install_handlers E config
  /\ rootDomain c = or_default (Host config) "scp.splunk.com"
  /\ overrideHost c = OverrideHost config.
Proof.
  unfold NewClient. cbn [fst snd].
  destruct (is_empty (Host config)) eqn:Hh, (is_empty (OverrideHost config)) eqn:Ho;
    empty_cases Hh; empty_cases Ho; cbn [negb andb]; try discriminate;
    (destruct (TokenRetriever config) as [r |] eqn:Hr, (is_empty (Token config)) eqn:Ht;
     empty_cases Ht; cbn [is_nil negb andb orb]; try discriminate;
     [rewrite Hr | cbn [set_TokenRetriever TokenRetriever]];
     rewrite GetTokenContext_eq;
     match goal with |- context [?f (count_events is_GetTokenContext w)] =>
       destruct (f (count_events is_GetTokenContext w)) as [ctx [err |]] end;
     try discriminate; intros [= <- _]; cbn [tokenRetriever responseHandlers rootDomain overrideHost];
     (split; [tauto |]); (split; [tauto |]); (split; [reflexivity |]);
     (split; [reflexivity |]); unfold or_default;
     try rewrite Ho; try reflexivity).
  - apply is_empty_false in Ho. rewrite Ho. reflexivity.
  - apply is_empty_false in Ho. rewrite Ho. reflexivity.
Qed.

(** C6. NewClient returns an error and no client, before it calls any
    retriever, when the configuration sets both Host and OverrideHost, and
    when it sets both or neither of Token and TokenRetriever. With a static
    token and at most one of the two hosts it returns a client, provided the
    no-op retriever it installs returns no error. Whenever it
    returns a client, the configuration had exactly one token source, which
    is the client's retriever (the no-op retriever of the static token, or the
    configured one), and at most one of Host and OverrideHost, which the
    client carries: an override host never comes with a root domain other
    than the default. *)
Theorem NewClient_config_spec (config : Config) (w : World) :
  (Host config <> "" -> OverrideHost config <> "" ->
   exists err, NewClient E (config, w) = (Done (inr err), (config, w)))
  /\ (Token config <> "" -> TokenRetriever config <> None ->
      exists err, NewClient E (config, w) = (Done (inr err), (config, w)))
  /\ (Token config = "" -> TokenRetriever config = None ->
      exists err, NewClient E (config, w) = (Done (inr err), (config, w)))
  /\ (Token config <> "" -> TokenRetriever config = None ->
      Host config = "" \/ OverrideHost config = "" ->
      forall ctx,
        NoOpTokenRetriever E (idp.mkContext (Token config) 0 0)
                           (count_events is_GetTokenContext w) = (ctx, None) ->
        exists c s', NewClient E (config, w) = (Done (inl c), s'))
  /\ (forall c s',
        NewClient E (config, w) = (Done (inl c), s') ->
        (Host config = "" \/ OverrideHost config = "")
        /\ ((Token config <> "" /\ TokenRetriever config = None
             /\ tokenRetriever c
                = NoOpTokenRetriever E (idp.mkContext (Token config) 0 0))
            \/ (Token config = "" /\ TokenRetriever config = Some (tokenRetriever c)))
        /\ overrideHost c = OverrideHost config
        /\ (Host config <> "" -> rootDomain c = Host config)
        /\ (Host config = "" -> rootDomain c = "scp.splunk.com")
        /\ (overrideHost c <> "" -> rootDomain c = "scp.splunk.com")).
Proof.
  split; [| split; [| split; [| split]]].
  - intros Hh Ho. apply is_empty_false in Hh, Ho. unfold NewClient. cbn [fst].
    rewrite Hh, Ho. eexists. reflexivity.
  - intros Ht Hr. apply is_empty_false in Ht. unfold NewClient. cbn [fst].
    destruct (negb (is_empty (Host config)) && negb (is_empty (OverrideHost config)));
      [eexists; reflexivity |].
    destruct (TokenRetriever config); [| congruence]. rewrite Ht. eexists. reflexivity.
  - intros Ht Hr. apply is_empty_true in Ht. unfold NewClient. cbn [fst].
    destruct (negb (is_empty (Host config)) && negb (is_empty (OverrideHost config)));
      [eexists; reflexivity |].
    rewrite Hr, Ht. eexists. reflexivity.
  - intros Ht Hr Hhosts ctx Hnoop. apply is_empty_false in Ht. unfold NewClient.
    cbn [fst snd].
    assert (Hcheck : negb (is_empty (Host config)) && negb (is_empty (OverrideHost config))
                     = false).
    { destruct Hhosts as [H | H]; apply is_empty_true in H; rewrite H;
        [reflexivity | apply andb_false_r]. }
    rewrite Hcheck, Hr, Ht. cbn [is_nil negb andb orb set_TokenRetriever TokenRetriever].
    rewrite GetTokenContext_eq, Hnoop. eauto.
  - intros c s' Hnew.
    destruct (NewClient_inv config w c s' Hnew) as (Hhosts & Hsource & _ & Hroot & Hover).
    split; [exact Hhosts |]. split; [exact Hsource |]. split; [exact Hover |].
    unfold or_default in Hroot. split; [| split].
    + intros Hh. apply is_empty_false in Hh. rewrite Hroot, Hh. reflexivity.
    + intros Hh. apply is_empty_true in Hh. rewrite Hroot, Hh. reflexivity.
    + intros Ho. rewrite Hover in Ho. destruct Hhosts as [Hh | Hh]; [| congruence].
      apply is_empty_true in Hh. rewrite Hroot, Hh. reflexivity.
Qed.

(** C10. With a token retriever, no static token and RetryRequests off, the
    client NewClient constructs (and it does construct one when the hosts
    are consistent and the retriever returns no error) has no response
    handlers, whatever ResponseHandlers the configuration supplies. A client
    has handlers only if a static token is given or RetryRequests is on: the
    caller's handlers as they are with a static token and no retries, and
    behind the retry handler with retries. *)
Theorem NewClient_handlers_spec (config : Config) (w : World) :
  (forall r ctx,
     TokenRetriever config = Some r -> Token config = "" ->
     Host config = "" \/ OverrideHost config = "" ->
     r (count_events is_GetTokenContext w) = (ctx, None) ->
     exists c,
       NewClient E (config, w) = (Done (inl c), (config, emit EvGetTokenContext w))
       /\ (RetryRequests config = false -> responseHandlers c = []))
  /\ (forall c s',
        NewClient E (config, w) = (Done (inl c), s') ->
        (TokenRetriever config <> None -> RetryRequests config = false ->
         responseHandlers c = [])
        /\ (responseHandlers c <> [] ->
            Token config <> "" \/ RetryRequests config = true)
        /\ (Token config <> "" -> RetryRequests config = false ->
            responseHandlers c = ResponseHandlers config)
        /\ (RetryRequests config = true ->
            exists retry, responseHandlers c = retry :: ResponseHandlers config)).
Proof.
  assert (Hinstall : forall c s',
            NewClient E (config, w) = (Done (inl c), s') ->
            (TokenRetriever config <> None -> RetryRequests config = false ->
             responseHandlers c = [])
            /\ (responseHandlers c <> [] ->
                Token config <> "" \/ RetryRequests config = true)
            /\ (Token config <> "" -> RetryRequests config = false ->
                responseHandlers c = ResponseHandlers config)
            /\ (RetryRequests config = true ->
                exists retry, responseHandlers c = retry :: ResponseHandlers config)).
  { intros c s' Hnew.
    destruct (NewClient_inv config w c s' Hnew) as (_ & Hsource & Hhandlers & _).
    rewrite Hhandlers. unfold install_handlers.
    destruct (RetryRequests config), (is_empty (Token config)) eqn:Ht;
      empty_cases Ht; cbn [negb]; (split; [| split; [| split]]);
      try (intros; discriminate); try (intros; congruence); try tauto;
      try (intros _; destruct (ConfigurableRetryConfig_ (RetryConfig config)); eauto). }
  split; [| exact Hinstall].
  intros r ctx Hr Ht Hhosts Hret.
  assert (Hnew : exists c, NewClient E (config, w)
                           = (Done (inl c), (config, emit EvGetTokenContext w))).
  { apply is_empty_true in Ht. unfold NewClient. cbn [fst snd].
    assert (Hcheck : negb (is_empty (Host config)) && negb (is_empty (OverrideHost config))
                     = false).
    { destruct Hhosts as [H | H]; apply is_empty_true in H; rewrite H;
        [reflexivity | apply andb_false_r]. }
    rewrite Hcheck, Hr, Ht. cbn [is_nil negb andb orb]. rewrite Hr, GetTokenContext_eq, Hret.
    eauto. }
  destruct Hnew as (c & Hnew). exists c. split; [exact Hnew |].
  intros Hretry. apply (Hinstall c _ Hnew); [congruence | exact Hretry].
Qed.

End Construction.

(** ** The statements on the sample values *)

Lemma BuildHost_spec_witness :
  BuildHost sample_client "catalog" "" = "catalog.example.com"
  /\ BuildHost sample_client "" "" = "api.example.com"
  /\ BuildHost (with_hosts sample_client "example.com" "x.test") "catalog" "acme" = "x.test".
Proof.
  split; [| split].
  - destruct (BuildHost_spec sample_client "catalog" "") as (prefix & Hp & _ & _ & H & _).
    rewrite H, Hp; [reflexivity | reflexivity | reflexivity | discriminate].
  - destruct (BuildHost_spec sample_client "" "") as (prefix & Hp & _ & _ & _ & H).
    rewrite H, Hp; reflexivity.
  - destruct (BuildHost_spec (with_hosts sample_client "example.com" "x.test") "catalog" "acme")
      as (prefix & _ & _ & H & _).
    rewrite H; [reflexivity | discriminate].
Defined.

Lemma BuildURLWithTenant_spec_witness :
  "acme" <> ""
  /\ url.Host (fst (BuildURLWithTenant sample_Env sample_client "acme" true "us1" None ""
                                        ["system/config"]))
     = "us1.api.example.com"
  /\ url.Host (fst (BuildURLWithTenant sample_Env sample_client "acme" true "us1" None ""
                                        ["catalog"; "datasets"]))
     = "acme.api.example.com".
Proof.
  split; [discriminate |]. split.
  - destruct (BuildURLWithTenant_spec sample_Env sample_client "acme" true "us1" None ""
                                      ["system/config"])
      as (prefix & Heq & Hregion & _); [discriminate |].
    rewrite Heq. cbn [fst url.Host]. rewrite Hregion; [reflexivity | reflexivity | discriminate |].
    exists "acme/", "/config". reflexivity.
  - destruct (BuildURLWithTenant_spec sample_Env sample_client "acme" true "us1" None ""
                                      ["catalog"; "datasets"])
      as (prefix & Heq & _ & Htenant & _); [discriminate |].
    rewrite Heq. cbn [fst url.Host]. rewrite Htenant; [reflexivity | reflexivity |].
    intros Hsys. apply strings_Contains_spec in Hsys. vm_compute in Hsys. discriminate.
Defined.

Lemma BuildURLFromPathParams_spec_witness :
  snd (BuildURLFromPathParams sample_Env (with_region sample_client true "") None ""
                              "/system/" "foo")
  = Some "region cannot be empty".
Proof.
  destruct (BuildURLFromPathParams_spec sample_Env (with_region sample_client true "") None ""
              "/system/" ("foo" : PathParams sample_Env) "/system/foo" eq_refl eq_refl)
    as (path & _ & Hsys & Hfail & _).
  apply Hfail. split; [reflexivity |]. split; [| reflexivity].
  rewrite Hsys; exists "foo"; reflexivity.
Defined.

Lemma DoRequest_token_spec_witness :
  count_events is_GetTokenContext
    (snd (snd (DoRequest sample_Env 2 sample_params (sample_client, sample_world))))
  = 0%nat
  /\ tokenContext (fst (snd (DoRequest sample_Env 2 sample_params (sample_client, late_world))))
     = Some renewed_context
  /\ DoRequest sample_Env 0 sample_params
               (with_retriever sample_client unreachable_idp, late_world)
     = (Done (None, Some "idp unreachable"),
        (with_retriever sample_client unreachable_idp,
         mkWorld (now late_world) (boundary late_world) refresh_events)).
Proof.
  split; [| split].
  - destruct (DoRequest_token_spec sample_Env 2 sample_params sample_client sample_world
                                   _ eq_refl) as (_ & _ & Hfresh & _).
    destruct Hfresh as (_ & _ & Hcalls & _); [reflexivity | exact Hcalls].
  - destruct (DoRequest_token_spec sample_Env 2 sample_params sample_client late_world
                                   _ eq_refl) as (_ & _ & _ & Hstale & _).
    destruct (Hstale ltac:(discriminate) (Some renewed_context) eq_refl) as (_ & Hctx & _).
    exact Hctx.
  - destruct (DoRequest_token_spec sample_Env 0 sample_params
                (with_retriever sample_client unreachable_idp) late_world _ eq_refl)
      as (_ & _ & _ & _ & Herr).
    exact (Herr ltac:(discriminate) None "idp unreachable" eq_refl).
Defined.

Lemma Do_spec_witness :
  Do sample_Env 1 sample_client sample_request sample_world
  = (Done ((Some (http.mkResponse 429 ∅ []), None),
           mkReq (http_Request sample_request) 1 ∅),
     emit (EvSend (http_Request sample_request) 1) sample_world)
  /\ Do sample_Env 1 (with_transport sample_client transport_down) sample_request
         sample_world
     = (Done ((None, Some ("Get " ++ dquote ++ "https://api.example.com/acme/catalog"
                                  ++ dquote ++ ": connection reset by peer")),
              mkReq (http_Request sample_request) 1 ∅),
        emit (EvSend (http_Request sample_request) 1) sample_world)
  /\ exists counted,
       Do sample_Env 2 (with_handlers sample_client [retry_once]) sample_request sample_world
       = run_handlers (Do sample_Env 1 (with_handlers sample_client [retry_once]))
                      [retry_once] counted (Some (http.mkResponse 429 ∅ [])) None
                      (emit (EvSend (http_Request sample_request) 1) sample_world)
       /\ NumAttempts counted = 1
       /\ NumErrorsByType counted !! "429" = Some 1
       /\ NumErrorsByType counted !! "" = None.
Proof.
  split; [| split].
  - destruct (Do_spec sample_Env 0 sample_client sample_request sample_world)
      as (_ & _ & Hanswer & _).
    exact (Hanswer (http.mkResponse 429 ∅ []) eq_refl eq_refl).
  - destruct (Do_spec sample_Env 0 (with_transport sample_client transport_down)
                      sample_request sample_world) as (_ & _ & _ & Hfailure & _).
    exact (Hfailure None _ eq_refl eq_refl).
  - destruct (Do_spec sample_Env 1 (with_handlers sample_client [retry_once]) sample_request
                      sample_world) as (_ & _ & _ & _ & H).
    destruct (H (http.mkResponse 429 ∅ []) ltac:(discriminate) eq_refl ltac:(discriminate))
      as (counted & Hdo & _ & Hatt & _ & Hplus & Hother).
    exists counted. split; [exact Hdo |]. split; [exact Hatt |]. split.
    + apply Hplus. split; [discriminate | reflexivity].
    + rewrite Hother; [reflexivity | discriminate].
Defined.

Lemma NewRequest_spec_witness :
  exists r,
    NewRequest sample_Env sample_client "GET" "https://api.example.com/acme/catalog" None
               caller_headers sample_world
    = (Done (inl r),
       emit (EvNewRequest "GET" "https://api.example.com/acme/catalog") sample_world)
    /\ http.Header (http_Request r) !! "Authorization" = Some ["Bearer tok"]
    /\ http.Header (http_Request r) !! "Splunk-Client" = Some ["client-go/1.0.0"]
    /\ http.Header (http_Request r) !! "Content-Type" = Some ["text/plain"].
Proof.
  destruct (NewRequest_spec sample_Env sample_client "GET"
              "https://api.example.com/acme/catalog" None caller_headers sample_world
              _ eq_refl)
    as (r & Heq & _ & _ & Hauth & Hclient & _ & Hcaller & _).
  exists r. split; [exact Heq |]. split; [| split].
  - apply Hauth; [reflexivity | discriminate].
  - apply Hclient; reflexivity.
  - apply Hcaller. reflexivity.
Defined.

Lemma makeFormRequest_spec_witness :
  exists r,
    makeFormRequest sample_Env sample_client (upload whole_stream) sample_world
    = (Done (inl r),
       emit (EvNewRequest "POST" "https://api.example.com/acme/files") sample_world)
    /\ http.Header (http_Request r) !! "Content-Type"
       = Some ["multipart/form-data; boundary=0123456789abcdef"].
Proof.
  destruct (makeFormRequest_spec sample_Env sample_client (upload whole_stream) sample_world
                                 eq_refl) as (_ & _ & Hform & _).
  destruct (Hform _ eq_refl) as (_ & _ & Hcopy).
  destruct (Hcopy _ eq_refl eq_refl) as (r & Heq & _ & Hct & _).
  exists r. split; [exact Heq | exact Hct].
Defined.

(** The body is form data and the headers declare multipart/form-data, yet
    the stream breaks: no request comes out, DoRequest returns the read
    error. *)
Lemma multipart_stream_failure :
  map_index (gdepservices.Headers (upload broken_stream)) "Content-Type"
  = "multipart/form-data"
  /\ gdepservices.Body (upload broken_stream) ≫= gdepservices.as_FormData
     = Some (gdepservices.mkFormData "file" "a.txt" broken_stream)
  /\ DoRequest sample_Env 1 (upload broken_stream) (sample_client, sample_world)
     = (Done (None, Some "unexpected EOF"), (sample_client, sample_world))
  /\ ~ exists r w',
         makeFormRequest sample_Env sample_client (upload broken_stream) sample_world
         = (Done (inl r), w').
Proof.
  split; [reflexivity |]. split; [reflexivity |]. split; [reflexivity |].
  intros (r & w' & H). discriminate H.
Qed.

Lemma NewClient_config_spec_witness :
  (exists c s',
     NewClient sample_Env (sample_config, sample_world) = (Done (inl c), s')
     /\ rootDomain c = "scp.splunk.com")
  /\ exists err,
       NewClient sample_Env (both_hosts_config, sample_world)
       = (Done (inr err), (both_hosts_config, sample_world)).
Proof.
  split.
  - destruct (NewClient_config_spec sample_Env sample_config sample_world)
      as (_ & _ & _ & Hok & Hinv).
    destruct (Hok ltac:(discriminate) eq_refl (or_introl eq_refl) _ eq_refl)
      as (c & s' & Hnew).
    exists c, s'. split; [exact Hnew |].
    destruct (Hinv c s' Hnew) as (_ & _ & _ & _ & Hroot & _). apply Hroot. reflexivity.
  - destruct (NewClient_config_spec sample_Env both_hosts_config sample_world)
      as (Hboth & _).
    apply Hboth; discriminate.
Defined.

Lemma NewClient_handlers_spec_witness :
  ResponseHandlers retriever_config <> []
  /\ exists c,
       NewClient sample_Env (retriever_config, sample_world)
       = (Done (inl c), (retriever_config, emit EvGetTokenContext sample_world))
       /\ responseHandlers c = [].
Proof.
  split; [discriminate |].
  destruct (NewClient_handlers_spec sample_Env retriever_config sample_world) as (H & _).
  destruct (H sample_retriever (Some renewed_context) eq_refl eq_refl (or_introl eq_refl)
              eq_refl) as (c & Hnew & Hnil).
  exists c. split; [exact Hnew | apply Hnil; reflexivity].
Defined.

(** * Further properties of the client *)

(** ** Error counters *)

Lemma int_of_string_of_int (d : Decimal.signed_int) :
  exists d', NilZero.int_of_string (NilZero.string_of_int d) = Some d'
             /\ Z.of_int d' = Z.of_int d.
Proof.
  destruct d as [u | u]; destruct u;
    first [ eexists; split; [apply NilZero.isi_posnil | reflexivity]
          | eexists; split; [apply NilZero.isi_negnil | reflexivity]
          | eexists; split; [apply NilZero.isi; discriminate | reflexivity] ].
Qed.

(** Two response codes have the same decimal text only if they are equal. *)
Lemma Sprintf_d_inj (a b : Z) : Sprintf_d a = Sprintf_d b -> a = b.
Proof.
  unfold Sprintf_d. intros H.
  destruct (int_of_string_of_int (Z.to_int a)) as (da & Ha & Hza).
  destruct (int_of_string_of_int (Z.to_int b)) as (db & Hb & Hzb).
  rewrite H, Hb in Ha. injection Ha as <-.
  rewrite <- (DecimalZ.of_to a), <- (DecimalZ.of_to b). congruence.
Qed.

Section Counters.
Variable E : Env.

Lemma uint_wrap_add (a b : Z) :
  uint_wrap (uint_bits E) (uint_wrap (uint_bits E) a + b) = uint_wrap (uint_bits E) (a + b).
Proof.
  unfold uint_wrap. apply Zplus_mod_idemp_l.
Qed.

Lemma increment_times_S (n : nat) (r : Request) (errType : string) :
  increment_times E (S n) r errType
  = IncrementErrorsByType E (increment_times E n r errType) errType.
Proof. reflexivity. Qed.

Lemma increment_times_other (n : nat) (r : Request) (errType other : string) :
  other <> errType ->
  NumErrorsByType (increment_times E n r errType) !! other = NumErrorsByType r !! other.
Proof.
  intros Hne. induction n as [| n IH]; [reflexivity |].
  rewrite increment_times_S. unfold IncrementErrorsByType.
  destruct (NumErrorsByType (increment_times E n r errType) !! errType); cbn [NumErrorsByType];
    rewrite lookup_insert_ne by congruence; exact IH.
Qed.

(** X1. Error counts add up, code by code: after [n] calls of
    IncrementErrorsByType with the text of a response code,
    GetNumErrorsByResponseCode reports [n] more for that code ([uint]
    arithmetic; exactly [n] more while the count stays below [2 ^ bits]) and
    what it reported before for every other code; a request that never saw a
    code reports 0 for it. *)
Theorem error_counts_add_up (n : nat) (r : Request) (respCode : Z) :
  let counted := increment_times E n r (Sprintf_d respCode) in
  (NumErrorsByType r !! Sprintf_d respCode = None ->
   GetNumErrorsByResponseCode r respCode = 0)
  /\ ((0 < n)%nat \/ 0 <= GetNumErrorsByResponseCode r respCode < 2 ^ uint_bits E ->
      GetNumErrorsByResponseCode counted respCode
      = uint_wrap (uint_bits E) (GetNumErrorsByResponseCode r respCode + Z.of_nat n))
  /\ (0 <= GetNumErrorsByResponseCode r respCode ->
      GetNumErrorsByResponseCode r respCode + Z.of_nat n < 2 ^ uint_bits E ->
      GetNumErrorsByResponseCode counted respCode
      = GetNumErrorsByResponseCode r respCode + Z.of_nat n)
  /\ (forall other, other <> respCode ->
        GetNumErrorsByResponseCode counted other = GetNumErrorsByResponseCode r other)
  /\ http_Request counted = http_Request r
  /\ NumAttempts counted = NumAttempts r.
Proof.
  intros counted. subst counted.
  assert (Hstep : forall m,
            GetNumErrorsByResponseCode (increment_times E (S m) r (Sprintf_d respCode)) respCode
            = uint_wrap (uint_bits E)
                (GetNumErrorsByResponseCode (increment_times E m r (Sprintf_d respCode)) respCode
                 + 1)).
  { intros m. rewrite increment_times_S.
    destruct (IncrementErrorsByType_count E (increment_times E m r (Sprintf_d respCode)) respCode)
      as (Hc & _). cbv zeta in Hc.
    unfold GetNumErrorsByResponseCode at 1. rewrite Hc. reflexivity. }
  assert (Hwrap : (0 < n)%nat \/ 0 <= GetNumErrorsByResponseCode r respCode < 2 ^ uint_bits E ->
            GetNumErrorsByResponseCode (increment_times E n r (Sprintf_d respCode)) respCode
            = uint_wrap (uint_bits E) (GetNumErrorsByResponseCode r respCode + Z.of_nat n)).
  { induction n as [| n IH].
    - intros [Hn | Hr]; [lia |]. cbn [increment_times Nat.iter Z.of_nat].
      rewrite Z.add_0_r. unfold uint_wrap. symmetry. apply Z.mod_small. exact Hr.
    - intros _. rewrite Hstep. destruct n as [| n].
      + cbn [increment_times Nat.iter]. reflexivity.
      + rewrite IH by (left; lia). rewrite uint_wrap_add. f_equal. lia. }
  split; [| split; [exact Hwrap | split; [| split; [| split]]]].
  - intros Hnone. unfold GetNumErrorsByResponseCode. rewrite Hnone. reflexivity.
  - intros Hlo Hhi. rewrite Hwrap.
    + unfold uint_wrap. apply Z.mod_small. lia.
    + right. lia.
  - intros other Hne. unfold GetNumErrorsByResponseCode.
    rewrite increment_times_other; [reflexivity |].
    intros Heq. apply Hne. apply Sprintf_d_inj. exact Heq.
  - clear Hstep Hwrap. induction n as [| n IH]; [reflexivity |].
    rewrite increment_times_S. unfold IncrementErrorsByType. destruct (_ !! _); exact IH.
  - clear Hstep Hwrap. induction n as [| n IH]; [reflexivity |].
    rewrite increment_times_S. unfold IncrementErrorsByType. destruct (_ !! _); exact IH.
Qed.

End Counters.

(** ** Tokens on requests *)

Section Tokens.
Variable E : Env.

(** X2. UpdateToken puts "Bearer " ++ token under Authorization, whatever
    was there and even for an empty token; it leaves every other header, the
    method, URL and body and both counters as they are; of two updates the
    later one stands. *)
Theorem UpdateToken_spec (r : Request) (accessToken : string) :
  let r' := UpdateToken r accessToken in
  http.Header (http_Request r') !! "Authorization" = Some ["Bearer " ++ accessToken]
  /\ http.Header_Get (http.Header (http_Request r')) "authorization"
     = "Bearer " ++ accessToken
  /\ (forall canonical, canonical <> "Authorization" ->
        http.Header (http_Request r') !! canonical
        = http.Header (http_Request r) !! canonical)
  /\ http.Method (http_Request r') = http.Method (http_Request r)
  /\ http.URL (http_Request r') = http.URL (http_Request r)
  /\ http.Body (http_Request r') = http.Body (http_Request r)
  /\ NumAttempts r' = NumAttempts r
  /\ NumErrorsByType r' = NumErrorsByType r
  /\ (forall earlier, UpdateToken (UpdateToken r earlier) accessToken = r').
Proof.
  intros r'. subst r'. unfold UpdateToken. cbn [http_Request NumAttempts NumErrorsByType].
  assert (Hauth : http.Header (set_header (http_Request r) "Authorization"
                                          (AuthorizationType ++ " " ++ accessToken))
                  !! "Authorization" = Some ["Bearer " ++ accessToken])
    by (rewrite set_header_lookup; reflexivity).
  split; [exact Hauth |]. split.
  - unfold http.Header_Get.
    change (http.CanonicalMIMEHeaderKey "authorization") with "Authorization".
    rewrite Hauth. reflexivity.
  - split.
    + intros canonical Hne. rewrite set_header_lookup.
      change (http.CanonicalMIMEHeaderKey "Authorization") with "Authorization".
      destruct (String.eqb_spec "Authorization" canonical); [congruence | reflexivity].
    + repeat (split; [reflexivity |]).
      intros earlier. unfold set_header, http.Header_Set. cbn [http.Method http.URL http.Header http.Body].
      rewrite insert_insert_eq. reflexivity.
Qed.

(** X3. UpdateTokenContext makes later requests use the new access token:
    a request NewRequest builds afterwards carries "Bearer " ++ the new
    token, or no Authorization header when the new context is nil or its
    token empty (unless the caller supplies the header); the host the client
    builds is not affected. *)
Theorem UpdateTokenContext_NewRequest (c : BaseClient) (ctx : option idp.Context)
    (method url : string) (body : option bytes) (headers : list (string * string))
    (w : World) (request : http.Request) :
  http_NewRequest E method url body = inl request ->
  caller_value headers "Authorization" = None ->
  exists r,
    NewRequest E (UpdateTokenContext c ctx) method url body headers w
    = (Done (inl r), emit (EvNewRequest method url) w)
    /\ http.Header (http_Request r) !! "Authorization"
       = match ctx with
         | Some context =>
             if is_empty (idp.AccessToken context) then None
             else Some ["Bearer " ++ idp.AccessToken context]
         | None => None
         end
    /\ tokenContext (UpdateTokenContext c ctx) = ctx
    /\ forall serviceCluster appendToHost,
         BuildHost (UpdateTokenContext c ctx) serviceCluster appendToHost
         = BuildHost c serviceCluster appendToHost.
Proof.
  intros Hnew Hcaller.
  destruct (NewRequest_eq E (UpdateTokenContext c ctx) method url body headers w request Hnew)
    as (r & Heq & _ & _ & _ & Hhdr).
  exists r. split; [exact Heq |]. split; [| split; [reflexivity | reflexivity]].
  rewrite Hhdr, Hcaller. cbn [String.eqb Ascii.eqb Bool.eqb andb].
  unfold access_token. cbn [UpdateTokenContext tokenContext].
  destruct ctx as [context |]; [| reflexivity].
  destruct (is_empty (idp.AccessToken context)); reflexivity.
Qed.

End Tokens.

(** ** Hosts and tenants *)

Section Hosts.
Variable E : Env.

Lemma BuildHost_override (c : BaseClient) (serviceCluster appendToHost : string) :
  overrideHost c <> "" -> BuildHost c serviceCluster appendToHost = overrideHost c.
Proof. intros H. unfold BuildHost. apply is_empty_false in H. rewrite H. reflexivity. Qed.

(** X4. Once SetOverrideHost has set a non-empty host, that host is the host
    of everything the client builds: BuildHost for every service cluster
    and prefix, GetURL, and every URL BuildURLWithTenant or
    BuildURLFromPathParams returns without error, tenant-scoped or not; the
    paths are the ones built without the override. *)
Theorem SetOverrideHost_wins (c : BaseClient) (host : string) :
  host <> "" ->
  let c' := SetOverrideHost c host in
  (forall serviceCluster appendToHost, BuildHost c' serviceCluster appendToHost = host)
  /\ (forall serviceCluster, url.Host (GetURL c' serviceCluster) = host)
  /\ (forall tenant tenantScoped region queryValues serviceCluster urlPathParts,
        tenant <> "" ->
        let built := BuildURLWithTenant E c' tenant tenantScoped region queryValues
                                        serviceCluster urlPathParts in
        snd built = None /\ url.Host (fst built) = host
        /\ url.Path (fst built)
           = url.Path (fst (BuildURLWithTenant E c tenant tenantScoped region queryValues
                                               serviceCluster urlPathParts)))
  /\ (forall queryValues serviceCluster templ pathParams,
        let built := BuildURLFromPathParams E c' queryValues serviceCluster templ
                                            pathParams in
        snd built = None ->
        url.Host (fst built) = host
        /\ url.Path (fst built)
           = url.Path (fst (BuildURLFromPathParams E c queryValues serviceCluster templ
                                                   pathParams))).
Proof.
  intros Hhost c'.
  assert (Hbuild : forall serviceCluster appendToHost,
            BuildHost c' serviceCluster appendToHost = host)
    by (intros; apply (BuildHost_override c'); exact Hhost).
  split; [exact Hbuild |]. split; [| split].
  - intros serviceCluster. unfold GetURL. cbn [url.Host]. apply Hbuild.
  - intros tenant tenantScoped region queryValues serviceCluster urlPathParts Ht built.
    subst built. unfold BuildURLWithTenant. rewrite length_zero_empty.
    apply is_empty_false in Ht. rewrite Ht. cbn [fst snd url.Host url.Path].
    rewrite Hbuild. auto.
  - intros queryValues serviceCluster templ pathParams built. subst built.
    unfold BuildURLFromPathParams.
    change (defaultTenant c') with (defaultTenant c).
    change (tenantScoped c') with (tenantScoped c).
    change (region c') with (region c).
    destruct (template_Parse E templ); [discriminate |].
    destruct (template_Execute E templ pathParams) as [rendered | err]; [| discriminate].
    destruct (tenantScoped c && is_empty (region c) && strings_HasPrefix _ "/system/");
      [discriminate |].
    cbn [fst snd url.Host url.Path]. intros _. rewrite Hbuild. auto.
Qed.

(** X5. BuildURL fails exactly when the client's default tenant is empty.
    After SetDefaultTenant with a non-empty tenant, GetDefaultTenant returns
    that tenant and BuildURL returns, without error, the URL that
    BuildURLWithTenant builds for it from the client's own scoping and
    region: its path is the new tenant joined with the path segments. *)
Theorem BuildURL_default_tenant (c : BaseClient)
    (queryValues : option (gmap string (list string))) (serviceCluster : string)
    (urlPathParts : list string) :
  (snd (BuildURL E c queryValues serviceCluster urlPathParts) <> None
   <-> GetDefaultTenant c = "")
  /\ forall tenant,
       tenant <> "" ->
       let c' := SetDefaultTenant c tenant in
       GetDefaultTenant c' = tenant
       /\ BuildURL E c' queryValues serviceCluster urlPathParts
          = BuildURLWithTenant E c tenant (tenantScoped c) (region c) queryValues
                               serviceCluster urlPathParts
       /\ snd (BuildURL E c' queryValues serviceCluster urlPathParts) = None
       /\ url.Path (fst (BuildURL E c' queryValues serviceCluster urlPathParts))
          = path_Join (tenant :: urlPathParts).
Proof.
  split.
  - unfold BuildURL, BuildURLWithTenant, GetDefaultTenant. rewrite length_zero_empty.
    destruct (is_empty (defaultTenant c)) eqn:Ht; empty_cases Ht; cbn [snd].
    + split; [intros _; exact Ht | discriminate].
    + split; [congruence | contradiction].
  - intros tenant Ht c'. subst c'. split; [reflexivity |]. split; [reflexivity |].
    unfold BuildURL, BuildURLWithTenant. cbn [SetDefaultTenant defaultTenant].
    rewrite length_zero_empty. apply is_empty_false in Ht. rewrite Ht. cbn [fst snd url.Path].
    auto.
Qed.

(** X6. GetURL gives the host of the URLs the client builds outside the
    system namespace: for a client with a default tenant, BuildURL's host is
    GetURL's whenever the client is not tenant-scoped or the joined path does
    not contain "system", and BuildURLFromPathParams's host is GetURL's
    whenever the client is not tenant-scoped or the path does not start with
    "/system/". *)
Theorem GetURL_host_agrees (c : BaseClient)
    (queryValues : option (gmap string (list string))) (serviceCluster : string) :
  (forall urlPathParts,
     defaultTenant c <> "" ->
     tenantScoped c = false
     \/ ~ (exists before after,
             path_Join (defaultTenant c :: urlPathParts) = before ++ "system" ++ after) ->
     url.Host (fst (BuildURL E c queryValues serviceCluster urlPathParts))
     = url.Host (GetURL c serviceCluster))
  /\ (forall templ pathParams,
        let built := BuildURLFromPathParams E c queryValues serviceCluster templ pathParams in
        snd built = None ->
        tenantScoped c = false
        \/ ~ (exists rest, url.Path (fst built) = "/system/" ++ rest) ->
        url.Host (fst built) = url.Host (GetURL c serviceCluster)).
Proof.
  split.
  - intros urlPathParts Ht Hcase. unfold BuildURL, BuildURLWithTenant, GetURL.
    rewrite length_zero_empty. apply is_empty_false in Ht. rewrite Ht.
    cbn [fst url.Host]. destruct Hcase as [Hscoped | Hsys].
    + rewrite Hscoped. reflexivity.
    + destruct (strings_Contains _ "system") eqn:Hc;
        [exfalso; apply Hsys; apply strings_Contains_spec; exact Hc |].
      destruct (tenantScoped c); cbn [andb negb]; [| reflexivity].
      rewrite andb_false_r. reflexivity.
  - intros templ pathParams built. subst built. unfold BuildURLFromPathParams, GetURL.
    destruct (template_Parse E templ); [discriminate |].
    destruct (template_Execute E templ pathParams) as [rendered | err]; [| discriminate].
    set (path := if negb (strings_HasPrefix rendered "/system/")
                 then "/" ++ defaultTenant c ++ rendered else rendered).
    destruct (tenantScoped c && is_empty (region c) && strings_HasPrefix path "/system/");
      [discriminate |].
    cbn [fst snd url.Host url.Path]. intros _ [Hscoped | Hsys].
    + rewrite Hscoped. reflexivity.
    + destruct (strings_HasPrefix path "/system/") eqn:Hp;
        [exfalso; apply Hsys; apply strings_HasPrefix_spec; exact Hp |].
      destruct (tenantScoped c); cbn [andb negb]; [| reflexivity].
      rewrite andb_false_r. reflexivity.
Qed.

(** X7. A URL builder that returns an error returns the zero URL with it.
    BuildURLFromPathParams returns the template's parse error or execution
    error as it is; its only other error is "region cannot be empty", so a
    client that is not tenant-scoped, or has a region, gets a URL for every
    template that renders. *)
Theorem builders_errors (c : BaseClient)
    (queryValues : option (gmap string (list string))) (serviceCluster : string) :
  (forall tenant tenantScoped region urlPathParts err,
     snd (BuildURLWithTenant E c tenant tenantScoped region queryValues serviceCluster
                             urlPathParts) = Some err ->
     fst (BuildURLWithTenant E c tenant tenantScoped region queryValues serviceCluster
                             urlPathParts) = zero_URL)
  /\ forall templ pathParams,
       let built := BuildURLFromPathParams E c queryValues serviceCluster templ pathParams in
       (forall err, snd built = Some err -> fst built = zero_URL)
       /\ (forall err, template_Parse E templ = Some err -> built = (zero_URL, Some err))
       /\ (forall err, template_Parse E templ = None ->
             template_Execute E templ pathParams = inr err -> built = (zero_URL, Some err))
       /\ (forall rendered err,
             template_Parse E templ = None ->
             template_Execute E templ pathParams = inl rendered ->
             snd built = Some err ->
             err = "region cannot be empty" /\ tenantScoped c = true /\ region c = "")
       /\ (forall rendered,
             template_Parse E templ = None ->
             template_Execute E templ pathParams = inl rendered ->
             tenantScoped c = false \/ region c <> "" ->
             snd built = None).
Proof.
  split.
  - intros tenant tenantScoped region urlPathParts err. unfold BuildURLWithTenant.
    destruct (String.length tenant =? 0)%nat; [reflexivity | discriminate].
  - intros templ pathParams built. subst built. unfold BuildURLFromPathParams.
    destruct (template_Parse E templ) as [perr |].
    { repeat split; try reflexivity; intros; congruence. }
    destruct (template_Execute E templ pathParams) as [rendered | xerr].
    2:{ repeat split; try reflexivity; intros; congruence. }
    set (path := if negb (strings_HasPrefix rendered "/system/")
                 then "/" ++ defaultTenant c ++ rendered else rendered).
    destruct (tenantScoped c) eqn:Hs, (is_empty (region c)) eqn:Hr,
      (strings_HasPrefix path "/system/") eqn:Hp; empty_cases Hr; cbn [andb fst snd];
      (split; [intros; first [reflexivity | discriminate] |]);
      (split; [intros; discriminate |]); (split; [intros; discriminate |]);
      (split; [intros ? ? _ _ Herr; first [discriminate Herr | injection Herr as <-; auto] |]);
      intros ? _ _ [Hc | Hc]; first [reflexivity | discriminate | contradiction].
Qed.

End Hosts.

(** ** The handler chain *)

Section Chain.
Variable E : Env.

Lemma run_handlers_unhandled (do : Request -> M (Result * Request))
    (handlers : list ResponseHandler) (req : Request) (response : option http.Response)
    (err : error) (w : World) :
  Forall (fun hr => HandleRequestError hr = None) handlers ->
  run_handlers do handlers req response (Some err) w = (Done ((response, Some err), req), w).
Proof.
  intros Hall. induction Hall as [| hr handlers Hhr _ IH]; [reflexivity |].
  cbn [run_handlers]. rewrite Hhr, bind_eq. cbn [mret ST_ret snd fst]. exact IH.
Qed.

(** X8. When the call of [c.httpClient.Do] fails and no registered handler
    has the error-handling capability, Do returns the error of that call, and
    the response that came with it, as they are, after that one call: the
    response handlers are not consulted, the attempt is counted and the error
    counts are untouched. *)
Theorem Do_error_unhandled (fuel : nat) (c : BaseClient) (req : Request) (w : World)
    (response : option http.Response) (err : error) :
  transport_of E c (count_events is_Send w) (http_Request req) = http.Failure response err ->
  Forall (fun hr => HandleRequestError hr = None) (responseHandlers c) ->
  let attempts := uint_wrap (uint_bits E) (NumAttempts req + 1) in
  Do E (S fuel) c req w
  = (Done ((response, Some err), mkReq (http_Request req) attempts (NumErrorsByType req)),
     emit (EvSend (http_Request req) attempts) w).
Proof.
  intros Hreply Hall attempts. rewrite Do_unfold. cbv zeta. rewrite Hreply.
  cbn [result_of fst snd].
  destruct (List.length (responseHandlers c) =? 0)%nat; [reflexivity |].
  rewrite bind_eq. cbn [record_status snd mret ST_ret].
  apply run_handlers_unhandled. exact Hall.
Qed.

(** The request on which the handler chain starts after a reply: the attempt
    is counted, and so is the status code of a response of 400 or more that
    came without an error. *)
Lemma Do_chain_start (fuel : nat) (c : BaseClient) (req : Request) (w : World) :
  responseHandlers c <> [] ->
  let sent := count_attempt E req in
  let reply := transport_of E c (count_events is_Send w) (http_Request req) in
  let counted :=
    match reply with
    | http.Answer response =>
        if 400 <=? http.StatusCode response
        then IncrementErrorsByType E sent (Sprintf_d (http.StatusCode response))
        else sent
    | http.Failure _ _ => sent
    end in
  Do E (S fuel) c req w
  = run_handlers (Do E fuel c) (responseHandlers c) counted (fst (result_of reply))
                 (snd (result_of reply))
                 (emit (EvSend (http_Request req) (NumAttempts sent)) w).
Proof.
  intros Hsome sent reply counted. rewrite Do_unfold. cbv zeta. fold sent reply.
  destruct (responseHandlers c) as [| hr hs] eqn:Hh; [congruence |].
  cbn [List.length Nat.eqb]. rewrite bind_eq. subst counted.
  destruct reply as [response | response err]; cbn [result_of fst snd record_status].
  - destruct (400 <=? http.StatusCode response); reflexivity.
  - reflexivity.
Qed.

(** A list of handlers that all hand the result on leaves the rest of the
    chain to run from where they end. *)
Lemma run_handlers_passes (do : Request -> M (Result * Request))
    (before tail : list ResponseHandler) (res : Result) (req : Request) (w : World)
    (res' : Result) (req' : Request) (w' : World) :
  chain_passes do before res req w res' req' w' ->
  run_handlers do (before ++ tail) req (fst res) (snd res) w
  = run_handlers do tail req' (fst res') (snd res') w'.
Proof.
  intros Hpass.
  induction Hpass as [res req w
                     | hr hs req response w out req1 w1 res' req' w' Hh _ IH
                     | hr hs req response err w res' req' w' Hcap _ IH
                     | hr hs her req response err w out err1 req1 w1 res' req' w' Hcap Hh _ IH];
    [reflexivity | | |]; cbn [app run_handlers fst snd].
  - rewrite bind_eq, Hh. exact IH.
  - rewrite Hcap, bind_eq. exact IH.
  - rewrite Hcap, bind_eq, Hh. exact IH.
Qed.

(** X9. The handler chain stops at the first handler, wherever it stands in
    the list, that turns the result around, and not before. Let the handlers
    registered before [hr] all hand the result on (after a response: return
    no error; after an error: lack the error capability or return an error
    still), whatever they do meanwhile, resubmitting included. If [hr] is then
    handed a response and ends with an error, Do returns that error with
    [hr]'s response; if it is handed an error and ends without one, Do
    returns [hr]'s response: in both cases the handlers after it are not
    consulted. If [hr] and the handlers after it hand the result on as well,
    Do returns what the last of them handed on, so an error that no handler
    clears is returned. The chain starts from what [c.httpClient.Do] handed
    back, on the request with the attempt (and the status, from 400 on)
    counted. *)
Theorem Do_chain_stops (fuel : nat) (c : BaseClient) (req : Request) (w : World)
    (before : list ResponseHandler) (hr : ResponseHandler) (rest : list ResponseHandler)
    (res1 : Result) (req1 : Request) (w1 : World) :
  responseHandlers c = (before ++ hr :: rest)%list ->
  let sent := mkReq (http_Request req) (uint_wrap (uint_bits E) (NumAttempts req + 1))
                    (NumErrorsByType req) in
  let reply := transport_of E c (count_events is_Send w) (http_Request req) in
  let start :=
    match reply with
    | http.Answer response =>
        ((Some response, None),
         if 400 <=? http.StatusCode response
         then IncrementErrorsByType E sent
                (NilZero.string_of_int (Z.to_int (http.StatusCode response)))
         else sent)
    | http.Failure response err => ((response, Some err), sent)
    end in
  chain_passes (Do E fuel c) before (fst start) (snd start)
               (emit (EvSend (http_Request req) (NumAttempts sent)) w) res1 req1 w1 ->
  (forall response out err req' w',
     res1 = (response, None) ->
     handle (Do E fuel c) (HandleResponse hr req1 response) w1
     = (Done ((out, Some err), req'), w') ->
     Do E (S fuel) c req w = (Done ((out, Some err), req'), w'))
  /\ (forall response err her out req' w',
        res1 = (response, Some err) ->
        HandleRequestError hr = Some her ->
        handle (Do E fuel c) (her req1 err) w1 = (Done ((out, None), req'), w') ->
        Do E (S fuel) c req w = (Done ((out, None), req'), w'))
  /\ (forall res' req' w',
        chain_passes (Do E fuel c) (hr :: rest) res1 req1 w1 res' req' w' ->
        Do E (S fuel) c req w = (Done (res', req'), w')).
Proof.
  intros Hh sent reply start Hbefore.
  assert (Hne : responseHandlers c <> []) by (rewrite Hh; destruct before; discriminate).
  assert (Hdo : Do E (S fuel) c req w
                = run_handlers (Do E fuel c) (hr :: rest) req1 (fst res1) (snd res1) w1).
  { rewrite (Do_chain_start fuel c req w Hne). cbv zeta. rewrite Hh.
    rewrite <- (run_handlers_passes _ _ (hr :: rest) _ _ _ _ _ _ Hbefore).
    subst start. fold reply. change (count_attempt E req) with sent.
    destruct reply as [response | response err]; reflexivity. }
  split; [| split].
  - intros response out err req' w' -> Hhandle. rewrite Hdo.
    cbn [run_handlers fst snd]. rewrite bind_eq, Hhandle. reflexivity.
  - intros response err her out req' w' -> Hher Hhandle. rewrite Hdo.
    cbn [run_handlers fst snd]. rewrite Hher, bind_eq, Hhandle. reflexivity.
  - intros res' req' w' Hrest. rewrite Hdo.
    rewrite <- (app_nil_r (hr :: rest)).
    rewrite (run_handlers_passes _ _ [] _ _ _ _ _ _ Hrest). destruct res'. reflexivity.
Qed.

(** X10. Do records an error by kind only for a response that came without
    a transport error and has a status code of 400 or more: after a transport
    error (even one that comes with a response) and after a response below
    400 the handler chain starts on a request whose error counts are the
    ones it had, with one more attempt. *)
Theorem Do_counts_only_status_errors (fuel : nat) (c : BaseClient) (req : Request)
    (w : World) :
  responseHandlers c <> [] ->
  let attempts := uint_wrap (uint_bits E) (NumAttempts req + 1) in
  let sent := mkReq (http_Request req) attempts (NumErrorsByType req) in
  let reply := transport_of E c (count_events is_Send w) (http_Request req) in
  let w1 := emit (EvSend (http_Request req) attempts) w in
  (forall response err,
     reply = http.Failure response err ->
     Do E (S fuel) c req w
     = run_handlers (Do E fuel c) (responseHandlers c) sent response (Some err) w1)
  /\ (forall response,
        reply = http.Answer response ->
        http.StatusCode response < 400 ->
        Do E (S fuel) c req w
        = run_handlers (Do E fuel c) (responseHandlers c) sent (Some response) None w1).
Proof.
  intros Hne attempts sent reply w1.
  pose proof (Do_chain_start fuel c req w Hne) as Hdo. cbv zeta in Hdo.
  change (count_attempt E req) with sent in Hdo. fold reply in Hdo.
  change (NumAttempts sent) with attempts in Hdo. fold w1 in Hdo.
  split.
  - intros response err Hreply. rewrite Hdo, Hreply. reflexivity.
  - intros response Hreply Hlow. rewrite Hdo, Hreply. cbn [result_of fst snd].
    apply Z.leb_gt in Hlow. rewrite Hlow. reflexivity.
Qed.

End Chain.

(** ** DoRequest, end to end *)

Section EndToEnd.
Variable E : Env.

Lemma NewRequest_world (c : BaseClient) (method url : string) (body : option bytes)
    (headers : list (string * string)) (w : World) :
  snd (NewRequest E c method url body headers w) = emit (EvNewRequest method url) w
  /\ exists built, fst (NewRequest E c method url body headers w) = Done built.
Proof.
  unfold NewRequest. rewrite bind_eq. cbn [log].
  destruct (http_NewRequest E method url body); cbn [mret ST_ret fst snd]; eauto.
Qed.

(** Building the request either fails before http.NewRequest is called, or
    calls it once, with the method and URL of the params. *)
Lemma build_request_world (c : BaseClient) (p : gdepservices.RequestParams) (w : World) :
  exists built,
    fst (build_request E c p w) = Done built
    /\ ((snd (build_request E c p w) = w /\ exists err, built = inr err)
        \/ snd (build_request E c p w)
           = emit (EvNewRequest (gdepservices.Method p)
                                (URL_String E (gdepservices.URL p))) w).
Proof.
  assert (Hnew : forall body,
            exists built,
              fst (NewRequest E c (gdepservices.Method p) (URL_String E (gdepservices.URL p))
                              body (gdepservices.Headers p) w) = Done built
              /\ ((snd (NewRequest E c (gdepservices.Method p)
                                   (URL_String E (gdepservices.URL p)) body
                                   (gdepservices.Headers p) w) = w
                   /\ exists err, built = inr err)
                  \/ snd (NewRequest E c (gdepservices.Method p)
                                     (URL_String E (gdepservices.URL p)) body
                                     (gdepservices.Headers p) w)
                     = emit (EvNewRequest (gdepservices.Method p)
                                          (URL_String E (gdepservices.URL p))) w)).
  { intros body. destruct (NewRequest_world c (gdepservices.Method p)
                             (URL_String E (gdepservices.URL p)) body
                             (gdepservices.Headers p) w) as (Hw & built & Hb).
    exists built. auto. }
  unfold build_request. destruct (_ && _).
  - unfold makeFormRequest. rewrite bind_eq. cbn [get_world].
    destruct (_ ≫= _) as [forms |]; [| cbn; eauto 6].
    unfold multipart_CreateFormFile, io_Copy.
    destruct (gdepservices.failure _); [cbn; eauto 6 |].
    rewrite bind_eq.
    match goal with |- context [NewRequest E c ?m ?u ?b ?h w] =>
      destruct (NewRequest_world c m u b h w) as (Hw & built & Hb);
      destruct (NewRequest E c m u b h w) as [o w1] end.
    cbn [fst snd] in *. subst o w1. destruct built; cbn [mret ST_ret fst snd]; eauto.
  - destruct (gdepservices.Body p) as [body |]; [| apply Hnew].
    destruct (match body with
              | gdepservices.Bytes contentBytes => inl contentBytes
              | gdepservices.Marshaler f => f (gdepservices.Method p)
              | gdepservices.Form _ json | gdepservices.Other json => json
              end); [apply Hnew | cbn; eauto 6].
Qed.

Lemma submit_trace (fuel : nat) (p : gdepservices.RequestParams) (c : BaseClient)
    (w : World) :
  exists built sends,
    trace (snd (snd (submit E fuel p (c, w)))) = (trace w ++ built ++ sends)%list
    /\ (built = []
        \/ built = [EvNewRequest (gdepservices.Method p)
                                 (URL_String E (gdepservices.URL p))])
    /\ forallb is_Send sends = true
    /\ (built = [] -> sends = []).
Proof.
  unfold submit. rewrite bind_eq. cbn [get_client fst snd]. rewrite bind_eq, liftW_eq.
  destruct (build_request_world c p w) as (res & Hres & Hw).
  destruct (build_request E c p w) as [o w1]. cbn [fst snd] in *. subst o.
  destruct Hw as [(-> & err & ->) | ->].
  - exists [], []. cbn [mret ST_ret fst snd]. rewrite !app_nil_r. auto.
  - destruct res as [request | err].
    + rewrite bind_eq, liftW_eq.
      destruct (Do_emits E fuel c request
                  (emit (EvNewRequest (gdepservices.Method p)
                                      (URL_String E (gdepservices.URL p))) w))
        as (sends & Ht & HP).
      destruct (Do E fuel c request _) as [[[res req'] | msg |] w2]; cbn [fst snd] in *;
        try destruct (snd res); cbn [mret ST_ret fst snd];
        (eexists _, sends; split;
         [rewrite Ht; cbn [emit trace]; rewrite <- app_assoc; reflexivity
         | split; [right; reflexivity | split; [exact HP | discriminate]]]).
    + eexists _, []. cbn [mret ST_ret fst snd emit trace]. rewrite app_nil_r.
      split; [reflexivity |]. split; [right; reflexivity |]. split; [reflexivity | discriminate].
Qed.

Lemma renew_token_nil (c : BaseClient) (w : World) :
  tokenContext c = None ->
  renew_token (c, w)
  = (Panic "invalid memory address or nil pointer dereference", (c, w)).
Proof.
  intros Hnil. unfold renew_token. rewrite bind_eq. cbn [get_client fst snd].
  rewrite bind_eq, liftW_eq. cbn [get_world fst snd]. rewrite Hnil. reflexivity.
Qed.

(** The events of one DoRequest call: a refresh, a construction, sends. *)
Lemma DoRequest_events (fuel : nat) (p : gdepservices.RequestParams) (c : BaseClient)
    (w : World) :
  exists refresh built sends,
    trace (snd (snd (DoRequest E fuel p (c, w))))
    = (trace w ++ refresh ++ built ++ sends)%list
    /\ (refresh = [] \/ refresh = refresh_events)
    /\ (built = []
        \/ built = [EvNewRequest (gdepservices.Method p)
                                 (URL_String E (gdepservices.URL p))])
    /\ forallb is_Send sends = true
    /\ (built = [] -> sends = []).
Proof.
  unfold DoRequest. rewrite bind_eq.
  destruct (tokenContext c) as [tc |] eqn:Htc.
  2:{ rewrite (renew_token_nil c w Htc). exists [], [], []. cbn [fst snd].
      rewrite !app_nil_r. auto. }
  destruct (Z.lt_ge_cases (Unix_after (now w) (tokenExpireWindow c))
                          (add64 (idp.StartTime tc) (idp.ExpiresIn tc))) as [Hfresh | Hstale].
  - rewrite (renew_token_fresh c w tc Htc Hfresh).
    destruct (submit_trace fuel p c w) as (built & sends & Ht & Hb & Hs & He).
    exists [], built, sends. auto.
  - rewrite (renew_token_stale c w tc Htc Hstale).
    destruct (tokenRetriever c (count_events is_GetTokenContext w)) as [ctx [err |]].
    + exists refresh_events, [], []. cbn [mret ST_ret fst snd trace].
      rewrite !app_nil_r. auto.
    + set (w' := mkWorld (now w) (boundary w) (trace w ++ refresh_events)).
      destruct (submit_trace fuel p (UpdateTokenContext c ctx) w')
        as (built & sends & Ht & Hb & Hs & He).
      exists refresh_events, built, sends. split; [| auto].
      rewrite Ht. subst w'. cbn [trace]. rewrite <- app_assoc. reflexivity.
Qed.

(** X12. Get, Post, Put, Delete and Patch are DoRequest with their own
    method: whatever method the caller wrote into the params is ignored, and
    the only request such a call constructs is one with the verb's method
    and the params' URL. *)
Theorem verbs_set_method (fuel : nat) (p : gdepservices.RequestParams) (c : BaseClient)
    (w : World) (verb : string)
    (call : nat -> gdepservices.RequestParams -> ST (BaseClient * World) Result) :
  In (verb, call)
     [("GET", Get E); ("POST", Post E); ("PUT", Put E); ("DELETE", Delete E);
      ("PATCH", Patch E)] ->
  (forall method, call fuel (with_Method p method) (c, w) = call fuel p (c, w))
  /\ exists refresh built sends,
       trace (snd (snd (call fuel p (c, w)))) = (trace w ++ refresh ++ built ++ sends)%list
       /\ (refresh = [] \/ refresh = refresh_events)
       /\ (built = [] \/ built = [EvNewRequest verb (URL_String E (gdepservices.URL p))])
       /\ forallb is_Send sends = true
       /\ (built = [] -> sends = []).
Proof.
  intros Hin. cbn [In] in Hin.
  destruct Hin as [H | [H | [H | [H | [H | []]]]]]; injection H as <- <-;
    (split; [reflexivity |]);
    match goal with |- context [trace (snd (snd (?f E fuel p (c, w))))] =>
      match goal with |- context [EvNewRequest ?v _] =>
        exact (DoRequest_events fuel (with_Method p v) c w) end end.
Qed.

End EndToEnd.

Section Bodies.
Variable E : Env.

Lemma not_multipart (c : BaseClient) (p : gdepservices.RequestParams) :
  map_index (gdepservices.Headers p) "Content-Type" <> "multipart/form-data" ->
  build_request E c p
  = match gdepservices.Body p with
    | Some body =>
        match match body with
              | gdepservices.Bytes contentBytes => inl contentBytes
              | gdepservices.Marshaler f => f (gdepservices.Method p)
              | gdepservices.Form _ json | gdepservices.Other json => json
              end with
        | inr marshalErr => mret (inr marshalErr)
        | inl content =>
            NewRequest E c (gdepservices.Method p) (URL_String E (gdepservices.URL p))
                       (Some content) (gdepservices.Headers p)
        end
    | None =>
        NewRequest E c (gdepservices.Method p) (URL_String E (gdepservices.URL p)) None
                   (gdepservices.Headers p)
    end.
Proof.
  intros Hct. unfold build_request. apply String.eqb_neq in Hct. rewrite Hct, andb_false_r.
  reflexivity.
Qed.

Lemma submit_world (fuel : nat) (p : gdepservices.RequestParams) (c : BaseClient)
    (w w1 : World) (r0 : Request) :
  build_request E c p w = (Done (inl r0), w1) ->
  snd (submit E fuel p (c, w)) = (c, snd (Do E fuel c r0 w1))
  /\ forall res req' w2,
       Do E fuel c r0 w1 = (Done (res, req'), w2) ->
       fst (submit E fuel p (c, w))
       = Done (match snd res with
               | Some err => (None, Some err)
               | None => ParseHTTPStatusCodeInResponse E (fst res)
               end).
Proof.
  intros Hbuilt. unfold submit. rewrite bind_eq. cbn [get_client fst snd].
  rewrite bind_eq, liftW_eq, Hbuilt. cbn [fst snd]. rewrite bind_eq, liftW_eq.
  destruct (Do E fuel c r0 w1) as [[[res req'] | msg |] w2]; cbn [fst snd].
  - split; [destruct (snd res); reflexivity |].
    intros res0 req0 w0 [= <- <- <-]. destruct (snd res); reflexivity.
  - split; [reflexivity | discriminate].
  - split; [reflexivity | discriminate].
Qed.

Lemma fresh_DoRequest (fuel : nat) (p : gdepservices.RequestParams) (c : BaseClient)
    (w : World) (tc : idp.Context) :
  tokenContext c = Some tc ->
  Unix_after (now w) (tokenExpireWindow c) < add64 (idp.StartTime tc) (idp.ExpiresIn tc) ->
  DoRequest E fuel p (c, w) = submit E fuel p (c, w).
Proof.
  intros Htc Hfresh. unfold DoRequest. rewrite bind_eq.
  rewrite (renew_token_fresh c w tc Htc Hfresh). reflexivity.
Qed.

Lemma Do_first_send (fuel : nat) (c : BaseClient) (req : Request) (w : World) :
  exists evs,
    trace (snd (Do E (S fuel) c req w))
    = (trace w ++ EvSend (http_Request req) (uint_wrap (uint_bits E) (NumAttempts req + 1))
               :: evs)%list.
Proof.
  rewrite Do_unfold. cbv zeta.
  destruct (List.length (responseHandlers c) =? 0)%nat; [exists []; reflexivity |].
  match goal with |- context [(?m ≫= ?k) ?w1] =>
    assert (Hrest : emits is_Send (m ≫= k)) end.
  { apply emits_bind; [apply record_status_emits | intros counted].
    apply run_handlers_emits. intros r. apply Do_emits. }
  match goal with |- context [(?m ≫= ?k) ?w1] =>
    destruct (Hrest w1) as (evs & Ht & _) end.
  exists evs. rewrite Ht. cbn [emit trace count_attempt NumAttempts].
  rewrite <- app_assoc. reflexivity.
Qed.

Lemma NewRequest_inv (c : BaseClient) (method url : string) (body : option bytes)
    (headers : list (string * string)) (w w1 : World) (r : Request) :
  NewRequest E c method url body headers w = (Done (inl r), w1) ->
  NumAttempts r = 0
  /\ (caller_value headers "Authorization" = None ->
      http.Header (http_Request r) !! "Authorization"
      = if is_empty (access_token c) then None
        else Some ["Bearer " ++ access_token c]).
Proof.
  intros Hr.
  destruct (http_NewRequest E method url body) as [request | err] eqn:Hnew.
  - destruct (NewRequest_eq E c method url body headers w request Hnew)
      as (r' & Hr' & Hatt & _ & _ & Hhdr).
    rewrite Hr' in Hr. injection Hr as <- _. split; [exact Hatt |].
    intros Hcaller. rewrite Hhdr, Hcaller. cbn [String.eqb Ascii.eqb Bool.eqb andb].
    destruct (is_empty (access_token c)); reflexivity.
  - unfold NewRequest in Hr. rewrite bind_eq in Hr. cbn [log] in Hr. rewrite Hnew in Hr.
    discriminate Hr.
Qed.

(** Every request DoRequest builds, multipart or not, starts with no
    attempts and carries the token the client holds at that moment. *)
Lemma build_request_inv (c : BaseClient) (p : gdepservices.RequestParams) (w w1 : World)
    (r : Request) :
  build_request E c p w = (Done (inl r), w1) ->
  w1 = emit (EvNewRequest (gdepservices.Method p) (URL_String E (gdepservices.URL p))) w
  /\ NumAttempts r = 0
  /\ (caller_value (gdepservices.Headers p) "Authorization" = None ->
      http.Header (http_Request r) !! "Authorization"
      = if is_empty (access_token c) then None
        else Some ["Bearer " ++ access_token c]).
Proof.
  intros Hr. split.
  - destruct (build_request_world E c p w) as (built & Hb & [(_ & err & ->) | Hw]);
      rewrite Hr in *; cbn [fst snd] in *; [congruence | exact Hw].
  - revert Hr. unfold build_request. destruct (_ && _).
    + unfold makeFormRequest. rewrite bind_eq. cbn [get_world].
      destruct (_ ≫= _) as [forms |]; [| discriminate].
      unfold multipart_CreateFormFile, io_Copy.
      destruct (gdepservices.failure _); [discriminate |]. rewrite bind_eq.
      match goal with |- context [NewRequest E c ?m ?u ?b ?h w] =>
        destruct (NewRequest E c m u b h w) as [[[r0 | e] | msg |] w0] eqn:Hnew end;
        try discriminate.
      intros [= <- _]. cbn [NumAttempts http_Request].
      destruct (NewRequest_inv _ _ _ _ _ _ _ _ Hnew) as (Hatt & Hauth).
      split; [exact Hatt |]. intros Hcaller. rewrite set_header_lookup.
      change (http.CanonicalMIMEHeaderKey "Content-Type") with "Content-Type".
      cbn [String.eqb Ascii.eqb Bool.eqb]. auto.
    + destruct (gdepservices.Body p) as [body |]; [| apply NewRequest_inv].
      destruct (match body with
                | gdepservices.Bytes contentBytes => inl contentBytes
                | gdepservices.Marshaler f => f (gdepservices.Method p)
                | gdepservices.Form _ json | gdepservices.Other json => json
                end); [apply NewRequest_inv | discriminate].
Qed.

(** X14. The request that follows a token refresh already uses the new
    token: when DoRequest finds the token stale and the retriever returns a
    context, the request it builds and sends first, as attempt 1, carries
    "Bearer " ++ the new access token (no Authorization header if the new
    context is nil or its token empty), unless the caller supplies that
    header. *)
Theorem DoRequest_sends_renewed_token (fuel : nat) (p : gdepservices.RequestParams)
    (c : BaseClient) (w : World) (tc : idp.Context) (ctx : option idp.Context)
    (r0 : Request) (w1 : World) :
  tokenContext c = Some tc ->
  add64 (idp.StartTime tc) (idp.ExpiresIn tc) <= Unix_after (now w) (tokenExpireWindow c) ->
  tokenRetriever c (count_events is_GetTokenContext w) = (ctx, None) ->
  build_request E (UpdateTokenContext c ctx) p
                (mkWorld (now w) (boundary w) (trace w ++ refresh_events))
  = (Done (inl r0), w1) ->
  let new_token := match ctx with Some context => idp.AccessToken context | None => "" end in
  (exists evs,
     trace (snd (snd (DoRequest E (S fuel) p (c, w))))
     = (trace w ++ refresh_events
        ++ [EvNewRequest (gdepservices.Method p) (URL_String E (gdepservices.URL p));
            EvSend (http_Request r0) 1] ++ evs)%list)
  /\ (caller_value (gdepservices.Headers p) "Authorization" = None ->
      new_token <> "" ->
      http.Header (http_Request r0) !! "Authorization" = Some ["Bearer " ++ new_token])
  /\ (caller_value (gdepservices.Headers p) "Authorization" = None ->
      new_token = "" ->
      http.Header (http_Request r0) !! "Authorization" = None).
Proof.
  intros Htc Hstale Hret Hbuilt new_token.
  destruct (build_request_inv _ _ _ _ _ Hbuilt) as (Hw1 & Hatt & Hauth).
  change (access_token (UpdateTokenContext c ctx)) with new_token in Hauth.
  split; [| split].
  - unfold DoRequest. rewrite bind_eq, (renew_token_stale c w tc Htc Hstale), Hret.
    destruct (submit_world (S fuel) p _ _ _ _ Hbuilt) as (Hworld & _). rewrite Hworld.
    cbn [snd]. destruct (Do_first_send fuel (UpdateTokenContext c ctx) r0 w1) as (evs & Ht).
    exists evs. rewrite Ht, Hatt, uint_wrap_one, Hw1. cbn [emit trace].
    rewrite <- !app_assoc. reflexivity.
  - intros Hcaller Htok. rewrite (Hauth Hcaller). apply is_empty_false in Htok.
    rewrite Htok. reflexivity.
  - intros Hcaller Htok. rewrite (Hauth Hcaller). apply is_empty_true in Htok.
    rewrite Htok. reflexivity.
Qed.

(** X13. What DoRequest sends as body when the headers do not declare
    multipart/form-data (token fresh, request accepted by http.NewRequest):
    the request of its first call of [c.httpClient.Do], made as attempt 1
    right after the one request construction, has no body for a nil body; the
    byte slice itself for a [[]byte]; for a value that marshals itself by
    method, what its marshaller returns for the method of the params; for any
    other value (a FormData without the multipart header included) what
    json.Marshal returns. If marshalling fails, DoRequest returns that error
    and neither constructs nor sends a request. *)
Theorem DoRequest_body_encoding (fuel : nat) (c : BaseClient)
    (p : gdepservices.RequestParams) (w : World) (tc : idp.Context) :
  map_index (gdepservices.Headers p) "Content-Type" <> "multipart/form-data" ->
  tokenContext c = Some tc ->
  Unix_after (now w) (tokenExpireWindow c) < add64 (idp.StartTime tc) (idp.ExpiresIn tc) ->
  let method := gdepservices.Method p in
  let url := URL_String E (gdepservices.URL p) in
  let sends chosen :=
    forall request, http_NewRequest E method url chosen = inl request ->
      exists r evs,
        trace (snd (snd (DoRequest E (S fuel) p (c, w))))
        = (trace w ++ [EvNewRequest method url; EvSend r 1] ++ evs)%list
        /\ http.Body r = chosen in
  (gdepservices.Body p = None -> sends None)
  /\ (forall contentBytes,
        gdepservices.Body p = Some (gdepservices.Bytes contentBytes) ->
        sends (Some contentBytes))
  /\ (forall marshal content,
        gdepservices.Body p = Some (gdepservices.Marshaler marshal) ->
        marshal method = inl content ->
        sends (Some content))
  /\ (forall forms content,
        gdepservices.Body p = Some (gdepservices.Form forms (inl content)) ->
        sends (Some content))
  /\ (forall content,
        gdepservices.Body p = Some (gdepservices.Other (inl content)) ->
        sends (Some content))
  /\ (forall err,
        (exists marshal, gdepservices.Body p = Some (gdepservices.Marshaler marshal)
                         /\ marshal method = inr err)
        \/ (exists forms, gdepservices.Body p = Some (gdepservices.Form forms (inr err)))
        \/ gdepservices.Body p = Some (gdepservices.Other (inr err)) ->
        DoRequest E fuel p (c, w) = (Done (None, Some err), (c, w))).
Proof.
  intros Hct Htc Hfresh method url sends.
  pose proof (not_multipart c p Hct) as Hbuild. fold method url in Hbuild.
  assert (Hsends : forall chosen,
            build_request E c p = NewRequest E c method url chosen (gdepservices.Headers p) ->
            sends chosen).
  { intros chosen Heq request Hnew.
    destruct (NewRequest_eq E c method url chosen (gdepservices.Headers p) w request Hnew)
      as (r & Hr & Hatt & _ & Hbody & _).
    rewrite <- Heq in Hr.
    rewrite (fresh_DoRequest (S fuel) p c w tc Htc Hfresh).
    destruct (submit_world (S fuel) p c w _ r Hr) as (Hworld & _). rewrite Hworld.
    cbn [snd]. destruct (Do_first_send fuel c r (emit (EvNewRequest method url) w))
      as (evs & Ht).
    exists (http_Request r), evs. split; [| exact Hbody].
    rewrite Ht, Hatt, uint_wrap_one. cbn [emit trace]. rewrite <- app_assoc. reflexivity. }
  assert (Hfails : forall err,
            build_request E c p = mret (inr err) ->
            DoRequest E fuel p (c, w) = (Done (None, Some err), (c, w))).
  { intros err Heq. rewrite (fresh_DoRequest fuel p c w tc Htc Hfresh).
    unfold submit. rewrite bind_eq. cbn [get_client fst snd]. rewrite bind_eq, liftW_eq, Heq.
    reflexivity. }
  split; [| split; [| split; [| split; [| split]]]].
  - intros Hnil. apply Hsends. rewrite Hbuild, Hnil. reflexivity.
  - intros contentBytes Hb. apply Hsends. rewrite Hbuild, Hb. reflexivity.
  - intros marshal content Hb Hc. apply Hsends. rewrite Hbuild, Hb, Hc. reflexivity.
  - intros forms content Hb. apply Hsends. rewrite Hbuild, Hb. reflexivity.
  - intros content Hb. apply Hsends. rewrite Hbuild, Hb. reflexivity.
  - intros err [(marshal & Hb & Hm) | [(forms & Hb) | Hb]]; apply Hfails;
      rewrite Hbuild, Hb, ?Hm; reflexivity.
Qed.

(** Without handlers, what follows the token check leaves in the trace at
    most one construction and then at most one call of [c.httpClient.Do]. *)
Lemma submit_once (fuel : nat) (p : gdepservices.RequestParams) (c : BaseClient)
    (w : World) :
  responseHandlers c = [] ->
  exists built sends,
    trace (snd (snd (submit E (S fuel) p (c, w)))) = (trace w ++ built ++ sends)%list
    /\ (built = []
        \/ built = [EvNewRequest (gdepservices.Method p)
                                 (URL_String E (gdepservices.URL p))])
    /\ (sends = [] \/ (built <> [] /\ exists r, sends = [EvSend r 1])).
Proof.
  intros Hnone.
  destruct (build_request E c p w) as [[[r0 | err] | msg |] w1] eqn:Hb.
  - destruct (build_request_inv _ _ _ _ _ Hb) as (Hw1 & Hatt & _).
    destruct (submit_world (S fuel) p c w w1 r0 Hb) as (Hworld & _). rewrite Hworld.
    rewrite Do_unfold. cbv zeta. rewrite Hnone.
    cbn [List.length Nat.eqb snd count_attempt NumAttempts]. rewrite Hatt, uint_wrap_one, Hw1.
    eexists [_], [_]. cbn [emit trace]. rewrite <- app_assoc.
    split; [reflexivity |]. split; [right; reflexivity |].
    right. split; [discriminate | eauto].
  - destruct (build_request_world E c p w) as (built & _ & Hw). rewrite Hb in Hw.
    cbn [snd] in Hw. unfold submit. rewrite bind_eq. cbn [get_client fst snd].
    rewrite bind_eq, liftW_eq, Hb. cbn [mret ST_ret fst snd].
    destruct Hw as [(-> & _) | ->].
    + exists [], []. rewrite !app_nil_r. auto.
    + eexists [_], []. cbn [emit trace]. auto.
  - destruct (build_request_world E c p w) as (built & Hres & _). rewrite Hb in Hres.
    discriminate Hres.
  - destruct (build_request_world E c p w) as (built & Hres & _). rewrite Hb in Hres.
    discriminate Hres.
Qed.

(** X11. What one DoRequest call of a client without response handlers
    leaves in the trace, in this order: at most one token refresh (one
    retriever call between Lock and Unlock), at most one request
    construction, with the method and URL of the params, and at most one call
    of [c.httpClient.Do], made as attempt 1; there is no such call unless a
    request was constructed. *)
Theorem DoRequest_trace (fuel : nat) (p : gdepservices.RequestParams) (c : BaseClient)
    (w : World) :
  responseHandlers c = [] ->
  exists refresh built sends,
    trace (snd (snd (DoRequest E (S fuel) p (c, w))))
    = (trace w ++ refresh ++ built ++ sends)%list
    /\ (refresh = [] \/ refresh = refresh_events)
    /\ (built = []
        \/ built = [EvNewRequest (gdepservices.Method p)
                                 (URL_String E (gdepservices.URL p))])
    /\ (sends = [] \/ (built <> [] /\ exists r, sends = [EvSend r 1])).
Proof.
  intros Hnone. unfold DoRequest. rewrite bind_eq.
  destruct (tokenContext c) as [tc |] eqn:Htc.
  2:{ rewrite (renew_token_nil c w Htc). exists [], [], []. cbn [fst snd].
      rewrite !app_nil_r. auto. }
  destruct (Z.lt_ge_cases (Unix_after (now w) (tokenExpireWindow c))
                          (add64 (idp.StartTime tc) (idp.ExpiresIn tc))) as [Hfresh | Hstale].
  - rewrite (renew_token_fresh c w tc Htc Hfresh).
    destruct (submit_once fuel p c w Hnone) as (built & sends & Ht & Hb & Hs).
    exists [], built, sends. auto.
  - rewrite (renew_token_stale c w tc Htc Hstale).
    destruct (tokenRetriever c (count_events is_GetTokenContext w)) as [ctx [err |]].
    + exists refresh_events, [], []. cbn [mret ST_ret fst snd trace].
      rewrite !app_nil_r. auto.
    + set (w' := mkWorld (now w) (boundary w) (trace w ++ refresh_events)).
      destruct (submit_once fuel p (UpdateTokenContext c ctx) w' Hnone)
        as (built & sends & Ht & Hb & Hs).
      exists refresh_events, built, sends. split; [| auto].
      rewrite Ht. subst w'. cbn [trace]. rewrite <- app_assoc. reflexivity.
Qed.

(** X15. What DoRequest returns once the request is built (token fresh):
    if Do ends with an error, that error and no response, even when a
    response came with it; otherwise whatever the status translator makes of
    Do's response. Without response handlers there is exactly one call of
    [c.httpClient.Do], as attempt 1, and DoRequest returns the error of that
    call (and no response), or the translation of its response, leaving the
    client as it is. *)
Theorem DoRequest_result (fuel : nat) (p : gdepservices.RequestParams) (c : BaseClient)
    (w : World) (tc : idp.Context) (r0 : Request) (w1 : World) :
  tokenContext c = Some tc ->
  Unix_after (now w) (tokenExpireWindow c) < add64 (idp.StartTime tc) (idp.ExpiresIn tc) ->
  build_request E c p w = (Done (inl r0), w1) ->
  let reply := transport_of E c (count_events is_Send w1) (http_Request r0) in
  (forall res req' w2,
     Do E fuel c r0 w1 = (Done (res, req'), w2) ->
     (forall err, snd res = Some err ->
        fst (DoRequest E fuel p (c, w)) = Done (None, Some err))
     /\ (snd res = None ->
         fst (DoRequest E fuel p (c, w)) = Done (ParseHTTPStatusCodeInResponse E (fst res))))
  /\ (forall response,
        responseHandlers c = [] ->
        reply = http.Answer response ->
        DoRequest E (S fuel) p (c, w)
        = (Done (ParseHTTPStatusCodeInResponse E (Some response)),
           (c, emit (EvSend (http_Request r0) 1) w1)))
  /\ (forall response err,
        responseHandlers c = [] ->
        reply = http.Failure response err ->
        DoRequest E (S fuel) p (c, w)
        = (Done (None, Some err), (c, emit (EvSend (http_Request r0) 1) w1))).
Proof.
  intros Htc Hfresh Hbuilt reply.
  assert (Hgen : forall fuel' res req' w2,
            Do E fuel' c r0 w1 = (Done (res, req'), w2) ->
            DoRequest E fuel' p (c, w)
            = (Done (match snd res with
                     | Some err => (None, Some err)
                     | None => ParseHTTPStatusCodeInResponse E (fst res)
                     end), (c, w2))).
  { intros fuel' res req' w2 Hdo. rewrite (fresh_DoRequest fuel' p c w tc Htc Hfresh).
    destruct (submit_world fuel' p c w w1 r0 Hbuilt) as (Hworld & Hres).
    specialize (Hres res req' w2 Hdo). rewrite Hdo in Hworld. cbn [snd] in Hworld.
    destruct (submit E fuel' p (c, w)) as [o s]. cbn [fst snd] in Hworld, Hres.
    rewrite Hres, Hworld. reflexivity. }
  destruct (build_request_inv _ _ _ _ _ Hbuilt) as (_ & Hatt & _).
  assert (Hdo : responseHandlers c = [] ->
                Do E (S fuel) c r0 w1
                = (Done (result_of reply, count_attempt E r0),
                   emit (EvSend (http_Request r0) 1) w1)).
  { intros Hnone. rewrite Do_unfold. cbv zeta. rewrite Hnone.
    cbn [List.length Nat.eqb count_attempt NumAttempts].
    rewrite Hatt, uint_wrap_one. reflexivity. }
  split; [| split].
  - intros res req' w2 Hrun. rewrite (Hgen fuel _ _ _ Hrun). cbn [fst]. split.
    + intros err ->. reflexivity.
    + intros ->. reflexivity.
  - intros response Hnone Hreply. rewrite (Hgen (S fuel) _ _ _ (Hdo Hnone)), Hreply.
    reflexivity.
  - intros response err Hnone Hreply. rewrite (Hgen (S fuel) _ _ _ (Hdo Hnone)), Hreply.
    reflexivity.
Qed.

End Bodies.

(** ** More on client construction *)

Section Construction2.
Variable E : Env.

(** The retriever NewClient calls: the configured one, or the no-op
    retriever of the static token. *)
Lemma NewClient_passed (config : Config) (w : World) :
  (Host config = "" \/ OverrideHost config = "") ->
  forall retriever config',
    (Token config <> "" /\ TokenRetriever config = None
     /\ retriever = NoOpTokenRetriever E (idp.mkContext (Token config) 0 0)
     /\ config' = set_TokenRetriever config retriever)
    \/ (Token config = "" /\ TokenRetriever config = Some retriever /\ config' = config) ->
    NewClient E (config, w)
    = match retriever (count_events is_GetTokenContext w) with
      | (ctx, Some err) =>
          (Done (inr ("service.NewClient: error retrieving token: " ++ err)),
           (config', emit EvGetTokenContext w))
      | (ctx, None) =>
          (Done (inl (mkBaseClient (Tenant config)
                        (or_default (Host config) "scp.splunk.com")
                        (or_default (OverrideHost config) "")
                        (or_default (Scheme config) "https") ctx
                        (http.mkClient (or_default_Z (Timeout config) (5 * time_Second))
                                       (RoundTripper config))
                        (install_handlers E config) retriever
                        (or_default_Z (TokenExpireWindow config) (1 * time_Minute))
                        (or_default (ClientVersion config) "")
                        (TenantScoped config) (Region config))),
           (config', emit EvGetTokenContext w))
      end.
Proof.
  intros Hhosts retriever config' Hsource. unfold NewClient. cbn [fst snd].
  assert (Hcheck : negb (is_empty (Host config)) && negb (is_empty (OverrideHost config))
                   = false).
  { destruct Hhosts as [H | H]; apply is_empty_true in H; rewrite H;
      [reflexivity | apply andb_false_r]. }
  rewrite Hcheck.
  destruct Hsource as [(Ht & Hr & -> & ->) | (Ht & Hr & ->)].
  - apply is_empty_false in Ht. rewrite Hr, Ht.
    cbn [is_nil negb andb orb set_TokenRetriever TokenRetriever RoundTripper TenantScoped
         Region Tenant].
    rewrite GetTokenContext_eq.
    destruct (NoOpTokenRetriever E _ _) as [ctx [err |]]; reflexivity.
  - apply is_empty_true in Ht. rewrite Hr, Ht. cbn [is_nil negb andb orb]. rewrite Hr.
    rewrite GetTokenContext_eq.
    destruct (retriever _) as [ctx [err |]]; reflexivity.
Qed.

Lemma or_default_empty (value : string) : or_default value "" = value.
Proof.
  unfold or_default. destruct (is_empty value) eqn:Hv; empty_cases Hv; cbn [negb];
    [symmetry; exact Hv | reflexivity].
Qed.

(** The client NewClient returns, field by field. *)
Lemma NewClient_fields (config : Config) (w : World) (c : BaseClient)
    (s' : Config * World) :
  NewClient E (config, w) = (Done (inl c), s') ->
  exists retriever ctx,
    c = mkBaseClient (Tenant config)
          (or_default (Host config) "scp.splunk.com")
          (or_default (OverrideHost config) "")
          (or_default (Scheme config) "https") ctx
          (http.mkClient (or_default_Z (Timeout config) (5 * time_Second))
                         (RoundTripper config))
          (install_handlers E config) retriever
          (or_default_Z (TokenExpireWindow config) (1 * time_Minute))
          (or_default (ClientVersion config) "")
          (TenantScoped config) (Region config).
Proof.
  intros Hnew.
  destruct (NewClient_inv E config w c s' Hnew) as (Hhosts & Hsource & _).
  destruct Hsource as [(Ht & Hr & _) | (Ht & Hr)].
  - rewrite (NewClient_passed config w Hhosts _ _
               (or_introl (conj Ht (conj Hr (conj eq_refl eq_refl))))) in Hnew.
    destruct (NoOpTokenRetriever E _ _) as [ctx [err |]]; [discriminate |].
    injection Hnew as <- _. eauto.
  - rewrite (NewClient_passed config w Hhosts _ _
               (or_intror (conj Ht (conj Hr eq_refl)))) in Hnew.
    destruct (tokenRetriever c _) as [ctx [err |]]; [discriminate |].
    injection Hnew as Hc _. eauto.
Qed.

(** X16. The defaults of NewClient: a client it returns has scheme "https",
    root domain "scp.splunk.com", a timeout of 5 seconds and a token expiry
    window of 1 minute exactly where the configuration leaves the field at
    its zero value, and the configured value otherwise (a negative timeout
    included); tenant, client version, scoping, region and round tripper
    are taken over as they are, unchecked. *)
Theorem NewClient_defaults (config : Config) (w : World) (c : BaseClient)
    (s' : Config * World) :
  NewClient E (config, w) = (Done (inl c), s') ->
  (Scheme config = "" -> scheme c = "https")
  /\ (Scheme config <> "" -> scheme c = Scheme config)
  /\ (Host config = "" -> rootDomain c = "scp.splunk.com")
  /\ (Host config <> "" -> rootDomain c = Host config)
  /\ (Timeout config = 0 -> http.Timeout (httpClient c) = 5000000000)
  /\ (Timeout config <> 0 -> http.Timeout (httpClient c) = Timeout config)
  /\ (TokenExpireWindow config = 0 -> tokenExpireWindow c = 60000000000)
  /\ (TokenExpireWindow config <> 0 -> tokenExpireWindow c = TokenExpireWindow config)
  /\ http.Transport (httpClient c) = RoundTripper config
  /\ defaultTenant c = Tenant config
  /\ clientVersion c = ClientVersion config
  /\ tenantScoped c = TenantScoped config
  /\ region c = Region config.
Proof.
  intros Hnew. destruct (NewClient_fields config w c s' Hnew) as (retriever & ctx & ->).
  cbn [scheme rootDomain httpClient http.Timeout http.Transport tokenExpireWindow
       defaultTenant clientVersion tenantScoped region].
  unfold or_default_Z. rewrite or_default_empty. unfold or_default.
  split; [intros H; apply is_empty_true in H; rewrite H; reflexivity |].
  split; [intros H; apply is_empty_false in H; rewrite H; reflexivity |].
  split; [intros H; apply is_empty_true in H; rewrite H; reflexivity |].
  split; [intros H; apply is_empty_false in H; rewrite H; reflexivity |].
  split; [intros H; rewrite H; reflexivity |].
  split; [intros H; apply Z.eqb_neq in H; rewrite H; reflexivity |].
  split; [intros H; rewrite H; reflexivity |].
  split; [intros H; apply Z.eqb_neq in H; rewrite H; reflexivity |].
  repeat split.
Qed.

(** X17. When the retriever fails, NewClient returns
    "service.NewClient: error retrieving token: " ++ the retriever's error
    and no client, after exactly one retriever call, for a configured
    retriever as for the no-op retriever of a static token. *)
Theorem NewClient_retriever_error (config : Config) (w : World) (ctx : option idp.Context)
    (err : error) :
  Host config = "" \/ OverrideHost config = "" ->
  (forall retriever,
     TokenRetriever config = Some retriever -> Token config = "" ->
     retriever (count_events is_GetTokenContext w) = (ctx, Some err) ->
     NewClient E (config, w)
     = (Done (inr ("service.NewClient: error retrieving token: " ++ err)),
        (config, emit EvGetTokenContext w)))
  /\ (TokenRetriever config = None -> Token config <> "" ->
      NoOpTokenRetriever E (idp.mkContext (Token config) 0 0)
                         (count_events is_GetTokenContext w) = (ctx, Some err) ->
      fst (NewClient E (config, w))
      = Done (inr ("service.NewClient: error retrieving token: " ++ err))
      /\ snd (snd (NewClient E (config, w))) = emit EvGetTokenContext w).
Proof.
  intros Hhosts. split.
  - intros retriever Hr Ht Hret.
    rewrite (NewClient_passed config w Hhosts retriever config
               (or_intror (conj Ht (conj Hr eq_refl)))), Hret. reflexivity.
  - intros Hr Ht Hret.
    rewrite (NewClient_passed config w Hhosts _ _
               (or_introl (conj Ht (conj Hr (conj eq_refl eq_refl))))), Hret.
    split; reflexivity.
Qed.

(** X18. NewClient writes into the configuration it is given: for a static
    token it stores the no-op retriever in config.TokenRetriever, whether or
    not token retrieval then succeeds, so a second NewClient on the same
    configuration fails with "either config.TokenRetriever or config.Token
    must be set, not both"; a configuration with a retriever is left as it
    was. *)
Theorem NewClient_reuses_config (config : Config) (w : World) :
  Host config = "" \/ OverrideHost config = "" ->
  (Token config <> "" -> TokenRetriever config = None ->
   let after := snd (NewClient E (config, w)) in
   TokenRetriever (fst after)
   = Some (NoOpTokenRetriever E (idp.mkContext (Token config) 0 0))
   /\ Token (fst after) = Token config
   /\ NewClient E after
      = (Done (inr "either config.TokenRetriever or config.Token must be set, not both"),
         after))
  /\ (forall retriever,
        TokenRetriever config = Some retriever -> Token config = "" ->
        fst (snd (NewClient E (config, w))) = config).
Proof.
  intros Hhosts. split.
  - intros Ht Hr after. subst after.
    rewrite (NewClient_passed config w Hhosts _ _
               (or_introl (conj Ht (conj Hr (conj eq_refl eq_refl))))).
    assert (Hcheck : negb (is_empty (Host config)) && negb (is_empty (OverrideHost config))
                     = false).
    { destruct Hhosts as [H | H]; apply is_empty_true in H; rewrite H;
        [reflexivity | apply andb_false_r]. }
    apply is_empty_false in Ht.
    destruct (NoOpTokenRetriever E _ _) as [ctx [err |]]; cbn [fst snd];
      (split; [reflexivity |]); (split; [reflexivity |]);
      unfold NewClient; cbn [fst snd set_TokenRetriever Host OverrideHost TokenRetriever Token];
      rewrite Hcheck, Ht; reflexivity.
  - intros retriever Hr Ht.
    rewrite (NewClient_passed config w Hhosts retriever config
               (or_intror (conj Ht (conj Hr eq_refl)))).
    destruct (retriever _) as [ctx [err |]]; reflexivity.
Qed.

(** X19. With RetryRequests on, the client's handler chain is the retry
    handler followed by the caller's handlers in their order, with a static
    token as with a retriever: the default strategy's handler when no
    configurable retry configuration is given, and otherwise the
    configurable handler made from its retry number, interval and
    predicate. *)
Theorem NewClient_retry_first (config : Config) (w : World) (c : BaseClient)
    (s' : Config * World) :
  NewClient E (config, w) = (Done (inl c), s') ->
  RetryRequests config = true ->
  (ConfigurableRetryConfig_ (RetryConfig config) = None ->
   responseHandlers c = DefaultRetryResponseHandler E :: ResponseHandlers config)
  /\ (forall cfg,
        ConfigurableRetryConfig_ (RetryConfig config) = Some cfg ->
        responseHandlers c
        = ConfigurableRetryResponseHandler E
            (mkConfigurableRetryConfig (RetryNum cfg) (Interval cfg) (ShouldRetryFn cfg))
          :: ResponseHandlers config).
Proof.
  intros Hnew Hretry.
  destruct (NewClient_inv E config w c s' Hnew) as (_ & _ & Hhandlers & _).
  rewrite Hhandlers. unfold install_handlers. rewrite Hretry.
  split; [intros -> | intros cfg ->]; reflexivity.
Qed.

(** X20. NewClient checks neither the tenant nor the region. A configuration
    with an empty tenant gives a client on which every BuildURL fails; a
    tenant-scoped configuration with an empty region gives a client on which
    BuildURLFromPathParams fails with "region cannot be empty" for every
    template that renders to a path under "/system/". *)
Theorem NewClient_unchecked (config : Config) (w : World) (c : BaseClient)
    (s' : Config * World) :
  NewClient E (config, w) = (Done (inl c), s') ->
  (Tenant config = "" ->
   forall queryValues serviceCluster urlPathParts,
     BuildURL E c queryValues serviceCluster urlPathParts
     = (zero_URL, Some "a non-empty tenant must be specified"))
  /\ (TenantScoped config = true -> Region config = "" ->
      forall queryValues serviceCluster templ pathParams rest,
        template_Parse E templ = None ->
        template_Execute E templ pathParams = inl ("/system/" ++ rest) ->
        BuildURLFromPathParams E c queryValues serviceCluster templ pathParams
        = (zero_URL, Some "region cannot be empty")).
Proof.
  intros Hnew. destruct (NewClient_fields config w c s' Hnew) as (retriever & ctx & ->).
  split.
  - intros Ht queryValues serviceCluster urlPathParts. unfold BuildURL, BuildURLWithTenant.
    cbn [defaultTenant]. rewrite Ht. reflexivity.
  - intros Hs Hr queryValues serviceCluster templ pathParams rest Hparse Hexec.
    unfold BuildURLFromPathParams. cbn [tenantScoped region defaultTenant].
    rewrite Hparse, Hexec, Hs, Hr.
    assert (Hsys : strings_HasPrefix ("/system/" ++ rest) "/system/" = true)
      by (apply strings_HasPrefix_spec; eauto).
    rewrite Hsys. reflexivity.
Qed.

End Construction2.

(** ** The further properties on the sample values *)

Lemma error_counts_add_up_witness :
  GetNumErrorsByResponseCode (increment_times sample_Env 2 sample_request "429") 429 = 2
  /\ GetNumErrorsByResponseCode (increment_times sample_Env 2 sample_request "429") 404 = 0.
Proof.
  destruct (error_counts_add_up sample_Env 2 sample_request 429)
    as (_ & _ & Hexact & Hother & _).
  split.
  - apply Hexact; [discriminate | reflexivity].
  - apply (Hother 404). discriminate.
Defined.

Lemma UpdateToken_spec_witness :
  http.Header (http_Request (UpdateToken (UpdateToken sample_request "old") "new"))
  !! "Content-Type"
  = http.Header (http_Request sample_request) !! "Content-Type"
  /\ http.Header_Get
       (http.Header (http_Request (UpdateToken (UpdateToken sample_request "old") "new")))
       "authorization" = "Bearer new".
Proof.
  destruct (UpdateToken_spec sample_request "new") as (_ & Hget & Hother & _ & _ & _ & _ & _ & Hlast).
  rewrite (Hlast "old"). split; [apply Hother; discriminate | exact Hget].
Defined.

Lemma UpdateTokenContext_NewRequest_witness :
  exists r,
    NewRequest sample_Env (UpdateTokenContext sample_client (Some renewed_context)) "GET"
               "https://api.example.com/acme/catalog" None [] sample_world
    = (Done (inl r),
       emit (EvNewRequest "GET" "https://api.example.com/acme/catalog") sample_world)
    /\ http.Header (http_Request r) !! "Authorization" = Some ["Bearer fresh"].
Proof.
  destruct (UpdateTokenContext_NewRequest sample_Env sample_client (Some renewed_context)
              "GET" "https://api.example.com/acme/catalog" None [] sample_world _
              eq_refl eq_refl) as (r & Heq & Hauth & _).
  exists r. split; [exact Heq | exact Hauth].
Defined.

Lemma SetOverrideHost_wins_witness :
  url.Host (fst (BuildURLWithTenant sample_Env (SetOverrideHost sample_client "x.test")
                                    "acme" true "us1" None "catalog" ["system"; "jobs"]))
  = "x.test"
  /\ url.Host (GetURL (SetOverrideHost sample_client "x.test") "catalog") = "x.test".
Proof.
  destruct (SetOverrideHost_wins sample_Env sample_client "x.test" ltac:(discriminate))
    as (_ & Hget & Htenant & _).
  split; [| apply Hget].
  apply (Htenant "acme" true "us1" None "catalog" ["system"; "jobs"]). discriminate.
Defined.

Lemma BuildURL_default_tenant_witness :
  url.Path (fst (BuildURL sample_Env (SetDefaultTenant sample_client "beta") None ""
                          ["catalog"; "datasets"]))
  = "beta/catalog/datasets"
  /\ snd (BuildURL sample_Env (SetDefaultTenant sample_client "") None "" ["catalog"]) <> None.
Proof.
  split.
  - destruct (BuildURL_default_tenant sample_Env sample_client None "" ["catalog"; "datasets"])
      as (_ & Hset).
    destruct (Hset "beta" ltac:(discriminate)) as (_ & _ & _ & Hpath). exact Hpath.
  - apply (BuildURL_default_tenant sample_Env (SetDefaultTenant sample_client "") None ""
                                   ["catalog"]). reflexivity.
Defined.

Lemma GetURL_host_agrees_witness :
  url.Host (fst (BuildURL sample_Env sample_client None "" ["catalog"; "datasets"]))
  = url.Host (GetURL sample_client "").
Proof.
  apply (GetURL_host_agrees sample_Env sample_client None ""); [discriminate |].
  right. intros Hsys. apply strings_Contains_spec in Hsys. vm_compute in Hsys.
  discriminate Hsys.
Defined.

Lemma builders_errors_witness :
  snd (BuildURLFromPathParams sample_Env (with_region sample_client false "") None ""
                              "/system/" "foo") = None.
Proof.
  destruct (builders_errors sample_Env (with_region sample_client false "") None "")
    as (_ & Htempl).
  destruct (Htempl "/system/" ("foo" : PathParams sample_Env)) as (_ & _ & _ & _ & Hok).
  apply (Hok "/system/foo"); [reflexivity | reflexivity | left; reflexivity].
Defined.

Lemma Do_error_unhandled_witness :
  Do sample_Env 1
     (with_handlers (with_transport sample_client transport_down) [pass_through; retry_once])
     sample_request sample_world
  = (Done ((None, Some sample_url_error),
           mkReq (http_Request sample_request) 1 ∅),
     emit (EvSend (http_Request sample_request) 1) sample_world).
Proof.
  apply (Do_error_unhandled sample_Env 0
           (with_handlers (with_transport sample_client transport_down)
                          [pass_through; retry_once])
           sample_request sample_world None sample_url_error eq_refl).
  repeat constructor.
Defined.

Lemma Do_chain_stops_witness :
  Do sample_Env 1
     (with_handlers (with_transport sample_client transport_down)
                    [pass_through; cached_answer; refuse_all])
     sample_request sample_world
  = (Done ((Some (http.mkResponse 200 ∅ []), None), mkReq (http_Request sample_request) 1 ∅),
     emit (EvSend (http_Request sample_request) 1) sample_world)
  /\ Do sample_Env 2 (with_handlers sample_client [retry_once; refuse_all]) sample_request
        sample_world
     = (Done ((Some (http.mkResponse 200 ∅ []), Some "giving up"),
              mkReq (http_Request sample_request) 2 (<["429" := 1]> ∅)),
        mkWorld (1700000001 * time_Second) "0123456789abcdef"
                [EvSend (http_Request sample_request) 1;
                 EvSend (http_Request sample_request) 2])
  /\ Do sample_Env 2
        (with_handlers (with_transport sample_client transport_down)
                       [pass_through; resubmit_once])
        sample_request sample_world
     = (Done ((None, Some sample_url_error), mkReq (http_Request sample_request) 2 ∅),
        mkWorld (1700000000 * time_Second) "0123456789abcdef"
                [EvSend (http_Request sample_request) 1;
                 EvSend (http_Request sample_request) 2]).
Proof.
  split; [| split].
  - pose proof (Do_chain_stops sample_Env 0
                  (with_handlers (with_transport sample_client transport_down)
                                 [pass_through; cached_answer; refuse_all])
                  sample_request sample_world [pass_through] cached_answer [refuse_all]
                  (None, Some sample_url_error) (mkReq (http_Request sample_request) 1 ∅)
                  (emit (EvSend (http_Request sample_request) 1) sample_world) eq_refl) as H.
    cbv zeta in H. destruct H as (_ & Hclear & _).
    + apply passes_incapable; [reflexivity | apply passes_none].
    + exact (Hclear None _ _ _ _ _ eq_refl eq_refl eq_refl).
  - pose proof (Do_chain_stops sample_Env 1
                  (with_handlers sample_client [retry_once; refuse_all])
                  sample_request sample_world [] retry_once [refuse_all]
                  (Some (http.mkResponse 429 ∅ []), None)
                  (mkReq (http_Request sample_request) 1 (<["429" := 1]> ∅))
                  (emit (EvSend (http_Request sample_request) 1) sample_world) eq_refl) as H.
    cbv zeta in H. destruct H as (Hstop & _).
    + apply passes_none.
    + exact (Hstop _ _ _ _ _ eq_refl eq_refl).
  - pose proof (Do_chain_stops sample_Env 1
                  (with_handlers (with_transport sample_client transport_down)
                                 [pass_through; resubmit_once])
                  sample_request sample_world [pass_through] resubmit_once []
                  (None, Some sample_url_error) (mkReq (http_Request sample_request) 1 ∅)
                  (emit (EvSend (http_Request sample_request) 1) sample_world) eq_refl) as H.
    cbv zeta in H. destruct H as (_ & _ & Hpass).
    + apply passes_incapable; [reflexivity | apply passes_none].
    + apply Hpass.
      eapply passes_error; [reflexivity | reflexivity | apply passes_none].
Defined.

Lemma Do_counts_only_status_errors_witness :
  Do sample_Env 1
     (with_handlers (with_transport sample_client transport_down) [cached_answer])
     sample_request sample_world
  = run_handlers
      (Do sample_Env 0
          (with_handlers (with_transport sample_client transport_down) [cached_answer]))
      [cached_answer] (mkReq (http_Request sample_request) 1 ∅) None
      (Some sample_url_error)
      (emit (EvSend (http_Request sample_request) 1) sample_world).
Proof.
  destruct (Do_counts_only_status_errors sample_Env 0
              (with_handlers (with_transport sample_client transport_down) [cached_answer])
              sample_request sample_world ltac:(discriminate)) as (Hfail & _).
  exact (Hfail None sample_url_error eq_refl).
Defined.

Lemma DoRequest_trace_witness :
  exists refresh built sends,
    trace (snd (snd (DoRequest sample_Env 1 sample_params (sample_client, late_world))))
    = (refresh ++ built ++ sends)%list
    /\ refresh = refresh_events
    /\ built = [EvNewRequest "GET" "https://api.example.com/acme/catalog"]
    /\ exists r, sends = [EvSend r 1].
Proof.
  destruct (DoRequest_trace sample_Env 0 sample_params sample_client late_world eq_refl)
    as (refresh & built & sends & Ht & Hr & Hb & Hs).
  change (trace late_world ++ refresh ++ built ++ sends)%list
    with (refresh ++ built ++ sends)%list in Ht.
  exists refresh, built, sends. split; [exact Ht |].
  assert (Hlen : List.length (refresh ++ built ++ sends) = 5%nat)
    by (rewrite <- Ht; reflexivity).
  rewrite !length_app in Hlen.
  destruct Hr as [-> | ->], Hb as [-> | ->], Hs as [-> | (_ & r & ->)];
    try discriminate Hlen.
  split; [reflexivity |]. split; [reflexivity |]. exists r. reflexivity.
Defined.

Lemma verbs_set_method_witness :
  Post sample_Env 1 (with_Method sample_params "GET") (sample_client, sample_world)
  = Post sample_Env 1 sample_params (sample_client, sample_world).
Proof.
  destruct (verbs_set_method sample_Env 1 sample_params sample_client sample_world
              "POST" (Post sample_Env)) as (Hignore & _).
  - right. left. reflexivity.
  - apply Hignore.
Defined.

Lemma DoRequest_body_encoding_witness :
  (exists r evs,
     trace (snd (snd (DoRequest sample_Env 1 (with_Body sample_params raw_body)
                                (sample_client, sample_world))))
     = ([EvNewRequest "GET" "https://api.example.com/acme/catalog"; EvSend r 1] ++ evs)%list
     /\ http.Body r = Some [Byte.x7b; Byte.x7d])
  /\ (exists r evs,
        trace (snd (snd (DoRequest sample_Env 1
                                   (with_Method (with_Body sample_params patch_body) "PATCH")
                                   (sample_client, sample_world))))
        = ([EvNewRequest "PATCH" "https://api.example.com/acme/catalog"; EvSend r 1]
           ++ evs)%list
        /\ http.Body r = Some [Byte.x5b; Byte.x5d])
  /\ DoRequest sample_Env 1 (with_Body sample_params unmarshalable_body)
               (sample_client, sample_world)
     = (Done (None, Some "json: unsupported type: chan int"), (sample_client, sample_world)).
Proof.
  split; [| split].
  - destruct (DoRequest_body_encoding sample_Env 0 sample_client
                (with_Body sample_params raw_body) sample_world _
                ltac:(discriminate) eq_refl eq_refl) as (_ & Hbytes & _).
    exact (Hbytes _ eq_refl _ eq_refl).
  - destruct (DoRequest_body_encoding sample_Env 0 sample_client
                (with_Method (with_Body sample_params patch_body) "PATCH") sample_world _
                ltac:(discriminate) eq_refl eq_refl) as (_ & _ & Hmarshal & _).
    exact (Hmarshal _ _ eq_refl eq_refl _ eq_refl).
  - destruct (DoRequest_body_encoding sample_Env 1 sample_client
                (with_Body sample_params unmarshalable_body) sample_world _
                ltac:(discriminate) eq_refl eq_refl) as (_ & _ & _ & _ & _ & Herr).
    apply Herr. right. right. reflexivity.
Defined.

Lemma DoRequest_sends_renewed_token_witness :
  exists r0 evs,
    trace (snd (snd (DoRequest sample_Env 1 sample_params (sample_client, late_world))))
    = (refresh_events
       ++ [EvNewRequest "GET" "https://api.example.com/acme/catalog"; EvSend r0 1] ++ evs)%list
    /\ http.Header r0 !! "Authorization" = Some ["Bearer fresh"].
Proof.
  destruct (build_request sample_Env (UpdateTokenContext sample_client (Some renewed_context))
              sample_params (mkWorld (now late_world) (boundary late_world) refresh_events))
    as [[[r0 | err] | msg |] w1] eqn:Hbuilt; try discriminate Hbuilt.
  destruct (DoRequest_sends_renewed_token sample_Env 0 sample_params sample_client late_world
              _ (Some renewed_context) r0 w1 eq_refl ltac:(discriminate) eq_refl Hbuilt)
    as ((evs & Ht) & Hauth & _).
  exists (http_Request r0), evs. split; [exact Ht |].
  apply Hauth; [reflexivity | discriminate].
Defined.

Lemma DoRequest_result_witness :
  DoRequest sample_Env 1 sample_params
            (with_transport sample_client transport_down, sample_world)
  = (Done (None, Some sample_url_error),
     (with_transport sample_client transport_down,
      mkWorld (1700000000 * time_Second) "0123456789abcdef"
              [EvNewRequest "GET" "https://api.example.com/acme/catalog";
               EvSend (http.mkRequest "GET" "https://api.example.com/acme/catalog"
                         (<["Authorization" := ["Bearer tok"]]>
                            (<["Splunk-Client" := ["client-go/1.0.0"]]>
                               (<["Content-Type" := ["application/json"]]> ∅)))
                         None) 1])).
Proof.
  set (c := with_transport sample_client transport_down).
  set (built := build_request sample_Env c sample_params sample_world).
  destruct (DoRequest_result sample_Env 0 sample_params c sample_world _
              (match fst built with Done (inl r) => r | _ => sample_request end) (snd built)
              eq_refl eq_refl eq_refl) as (_ & _ & Hfailure).
  rewrite (Hfailure None sample_url_error eq_refl eq_refl). reflexivity.
Defined.

Lemma NewClient_defaults_witness :
  exists c s',
    NewClient sample_Env (sample_config, sample_world) = (Done (inl c), s')
    /\ scheme c = "https" /\ tokenExpireWindow c = 60000000000.
Proof.
  destruct (NewClient sample_Env (sample_config, sample_world))
    as [[[c | err] | msg |] s'] eqn:Hnew; try discriminate Hnew.
  exists c, s'. split; [reflexivity |].
  destruct (NewClient_defaults sample_Env sample_config sample_world c s' Hnew)
    as (Hscheme & _ & _ & _ & _ & _ & Hwindow & _).
  split; [apply Hscheme | apply Hwindow]; reflexivity.
Defined.

Lemma NewClient_retriever_error_witness :
  NewClient sample_Env (failing_config, sample_world)
  = (Done (inr "service.NewClient: error retrieving token: idp unreachable"),
     (failing_config, emit EvGetTokenContext sample_world)).
Proof.
  destruct (NewClient_retriever_error sample_Env failing_config sample_world None
              "idp unreachable" (or_introl eq_refl)) as (Hfail & _).
  exact (Hfail unreachable_idp eq_refl eq_refl eq_refl).
Defined.

Lemma NewClient_reuses_config_witness :
  exists c s',
    NewClient sample_Env (sample_config, sample_world) = (Done (inl c), s')
    /\ NewClient sample_Env s'
       = (Done (inr "either config.TokenRetriever or config.Token must be set, not both"), s').
Proof.
  destruct (NewClient sample_Env (sample_config, sample_world))
    as [[[c | err] | msg |] s'] eqn:Hnew; try discriminate Hnew.
  exists c, s'. split; [reflexivity |].
  destruct (NewClient_reuses_config sample_Env sample_config sample_world (or_introl eq_refl))
    as (Hstatic & _).
  destruct (Hstatic ltac:(discriminate) eq_refl) as (_ & _ & Hagain).
  rewrite Hnew in Hagain. exact Hagain.
Defined.

Lemma NewClient_retry_first_witness :
  exists c s',
    NewClient sample_Env (retry_config, sample_world) = (Done (inl c), s')
    /\ responseHandlers c = [retry_once; pass_through].
Proof.
  destruct (NewClient sample_Env (retry_config, sample_world))
    as [[[c | err] | msg |] s'] eqn:Hnew; try discriminate Hnew.
  exists c, s'. split; [reflexivity |].
  destruct (NewClient_retry_first sample_Env retry_config sample_world c s' Hnew eq_refl)
    as (Hdefault & _).
  exact (Hdefault eq_refl).
Defined.

Lemma NewClient_unchecked_witness :
  exists c s',
    NewClient sample_Env (untenanted_config, sample_world) = (Done (inl c), s')
    /\ BuildURL sample_Env c None "" ["catalog"]
       = (zero_URL, Some "a non-empty tenant must be specified")
    /\ BuildURLFromPathParams sample_Env c None "" "/system/" "foo"
       = (zero_URL, Some "region cannot be empty").
Proof.
  destruct (NewClient sample_Env (untenanted_config, sample_world))
    as [[[c | err] | msg |] s'] eqn:Hnew; try discriminate Hnew.
  exists c, s'. split; [reflexivity |].
  destruct (NewClient_unchecked sample_Env untenanted_config sample_world c s' Hnew)
    as (Htenant & Hregion).
  split; [apply Htenant; reflexivity |].
  exact (Hregion eq_refl eq_refl None "" "/system/" ("foo" : PathParams sample_Env) "foo"
                 eq_refl eq_refl).
Defined.

(** ** Attempts across retries *)

Section Attempts.
Variable E : Env.

Lemma counts_sends_refl (attempts : Z) (w : World) :
  counts_sends (uint_bits E) attempts w attempts w.
Proof. exists 0%nat. split; [lia | left; auto]. Qed.

Lemma counts_sends_trans (a1 a2 a3 : Z) (w1 w2 w3 : World) :
  counts_sends (uint_bits E) a1 w1 a2 w2 -> counts_sends (uint_bits E) a2 w2 a3 w3 ->
  counts_sends (uint_bits E) a1 w1 a3 w3.
Proof.
  intros (n & Hn & Ha) (m & Hm & Hb). exists (n + m)%nat. split; [lia |].
  destruct Ha as [(-> & ->) | ->], Hb as [(-> & ->) | ->].
  - left. auto.
  - right. reflexivity.
  - right. f_equal. lia.
  - right. rewrite uint_wrap_add. f_equal. lia.
Qed.

Lemma handle_counts (do : Request -> M (Result * Request)) (h : Handling) (attempts : Z) :
  (forall req w res req' w',
     do req w = (Done (res, req'), w') ->
     counts_sends (uint_bits E) (NumAttempts req) w (NumAttempts req') w') ->
  keeps_request attempts h ->
  forall w res req' w',
    handle do h w = (Done (res, req'), w') ->
    counts_sends (uint_bits E) attempts w (NumAttempts req') w'.
Proof.
  intros Hdo Hkeeps. induction Hkeeps as [res0 req0 | req0 k _ IH | attempts d k _ IH];
    intros w res req' w'; cbn [handle].
  - intros [= _ <- <-]. apply counts_sends_refl.
  - rewrite bind_eq. destruct (do req0 w) as [[[res1 req1] | msg |] w1] eqn:Hcall;
      try discriminate.
    intros Hrest. eapply counts_sends_trans; [exact (Hdo _ _ _ _ _ Hcall) |].
    exact (IH (res1, req1) _ _ _ _ Hrest).
  - rewrite bind_eq. cbn [sleep]. intros Hrest.
    eapply counts_sends_trans; [| exact (IH _ _ _ _ Hrest)].
    exists 0%nat. split; [unfold count_events; cbn [trace]; lia | left; auto].
Qed.

Lemma run_handlers_counts (do : Request -> M (Result * Request))
    (handlers : list ResponseHandler) :
  (forall req w res req' w',
     do req w = (Done (res, req'), w') ->
     counts_sends (uint_bits E) (NumAttempts req) w (NumAttempts req') w') ->
  Forall keeps_requests handlers ->
  forall req response err w res req' w',
    run_handlers do handlers req response err w = (Done (res, req'), w') ->
    counts_sends (uint_bits E) (NumAttempts req) w (NumAttempts req') w'.
Proof.
  intros Hdo Hall. induction Hall as [| hr handlers (Hresp & Herr) _ IH];
    intros req response err w res req' w'; cbn [run_handlers].
  - intros [= _ <- <-]. apply counts_sends_refl.
  - destruct err as [e |]; rewrite bind_eq.
    + destruct (HandleRequestError hr) as [her |] eqn:Hher.
      * destruct (handle do (her req e) w) as [[[res1 req1] | msg |] w1] eqn:Hh;
          try discriminate.
        pose proof (handle_counts do _ _ Hdo (Herr her eq_refl req e) _ _ _ _ Hh) as H1.
        destruct (snd res1).
        -- intros Hrest. eapply counts_sends_trans; [exact H1 | exact (IH _ _ _ _ _ _ _ Hrest)].
        -- intros [= _ <- <-]. exact H1.
      * cbn [mret ST_ret snd fst]. apply IH.
    + destruct (handle do (HandleResponse hr req response) w)
        as [[[res1 req1] | msg |] w1] eqn:Hh; try discriminate.
      pose proof (handle_counts do _ _ Hdo (Hresp req response) _ _ _ _ Hh) as H1.
      destruct (snd res1).
      * intros [= _ <- <-]. exact H1.
      * intros Hrest. eapply counts_sends_trans; [exact H1 | exact (IH _ _ _ _ _ _ _ Hrest)].
Qed.

Lemma Do_counts (c : BaseClient) :
  Forall keeps_requests (responseHandlers c) ->
  forall fuel req w res req' w',
    Do E fuel c req w = (Done (res, req'), w') ->
    exists n : nat,
      count_events is_Send w' = (count_events is_Send w + S n)%nat
      /\ NumAttempts req' = uint_wrap (uint_bits E) (NumAttempts req + Z.of_nat (S n)).
Proof.
  intros Hall. induction fuel as [| fuel IH]; intros req w res req' w'; [discriminate |].
  rewrite Do_unfold. cbv zeta.
  set (w1 := emit (EvSend (http_Request req) (NumAttempts (count_attempt E req))) w).
  assert (Hw1 : count_events is_Send w1 = (count_events is_Send w + 1)%nat).
  { unfold count_events, w1, emit. cbn [trace]. rewrite List.filter_app, length_app.
    reflexivity. }
  destruct (List.length (responseHandlers c) =? 0)%nat.
  - intros [= _ <- <-]. exists 0%nat. split; [lia | reflexivity].
  - rewrite bind_eq.
    destruct (record_status E (count_attempt E req) _ w1) as [[counted | msg |] w2] eqn:Hrec;
      try discriminate.
    assert (Hcounted : NumAttempts counted = NumAttempts (count_attempt E req) /\ w2 = w1).
    { revert Hrec. unfold record_status. destruct (snd _); [intros [= <- <-]; auto |].
      destruct (fst _); [| discriminate].
      destruct (400 <=? _); intros [= <- <-]; [| auto].
      unfold IncrementErrorsByType. destruct (_ !! _); auto. }
    destruct Hcounted as (Hatt & ->). intros Hrest.
    assert (Hdo : forall req w res req' w',
              Do E fuel c req w = (Done (res, req'), w') ->
              counts_sends (uint_bits E) (NumAttempts req) w (NumAttempts req') w').
    { intros r0 w0 res0 r0' w0' H0. destruct (IH _ _ _ _ _ H0) as (n & Hn & Ha).
      exists (S n). auto. }
    destruct (run_handlers_counts _ _ Hdo Hall _ _ _ _ _ _ _ Hrest) as (n & Hn & Ha).
    exists n. split; [lia |]. rewrite Hatt in Ha. cbn [count_attempt NumAttempts] in Ha.
    destruct Ha as [(-> & ->) | ->]; [reflexivity |].
    rewrite uint_wrap_add. f_equal. lia.
Qed.

(** X21. NumAttempts counts the calls of [c.httpClient.Do] made for a
    logical call, retries included (each such call may take several round
    trips on the wire, as when the library follows a redirect: those are not
    counted). If every handler uses the client only to resubmit through Do
    and keeps to the request it is handed (resubmits and returns it, or a
    copy with its attempt counter), then whenever Do
    returns, the request's NumAttempts has gone up, in [uint] arithmetic, by
    exactly the number of calls of [c.httpClient.Do] that call of Do has
    made, nested retries included, and that number is at least one. *)
Theorem Do_attempts_count_sends (fuel : nat) (c : BaseClient) (req : Request) (w : World)
    (res : Result) (req' : Request) (w' : World) :
  Forall keeps_requests (responseHandlers c) ->
  Do E fuel c req w = (Done (res, req'), w') ->
  exists calls : nat,
    (0 < calls)%nat
    /\ count_events is_Send w' = (count_events is_Send w + calls)%nat
    /\ NumAttempts req' = uint_wrap (uint_bits E) (NumAttempts req + Z.of_nat calls)
    /\ (0 <= NumAttempts req ->
        NumAttempts req + Z.of_nat calls < 2 ^ uint_bits E ->
        NumAttempts req' = NumAttempts req + Z.of_nat calls).
Proof.
  intros Hall Hdo. destruct (Do_counts c Hall fuel req w res req' w' Hdo) as (n & Hn & Ha).
  exists (S n). split; [lia |]. split; [exact Hn |]. split; [exact Ha |].
  intros Hlo Hhi. rewrite Ha. unfold uint_wrap. apply Z.mod_small. lia.
Qed.

End Attempts.

Lemma retry_once_keeps_requests : keeps_requests retry_once.
Proof.
  split; [| discriminate].
  intros req response. cbn [retry_once HandleResponse].
  destruct response as [r |]; [| constructor].
  destruct ((http.StatusCode r =? 429) && (NumAttempts req <? 2)); [| constructor].
  constructor. constructor. intros out. constructor.
Qed.

Lemma Do_attempts_count_sends_witness :
  exists res req' w',
    Do sample_Env 2 (with_handlers sample_client [retry_once]) sample_request sample_world
    = (Done (res, req'), w')
    /\ fst res = Some (http.mkResponse 200 ∅ [])
    /\ NumAttempts req' = 2
    /\ GetNumErrorsByResponseCode req' 429 = 1
    /\ count_events is_Send w' = 2%nat.
Proof.
  destruct (Do sample_Env 2 (with_handlers sample_client [retry_once]) sample_request
               sample_world) as [[[res req'] | msg |] w'] eqn:Hdo; try discriminate Hdo.
  exists res, req', w'. split; [reflexivity |].
  assert (Hsends : count_events is_Send w' = 2%nat)
    by (injection Hdo as _ _ <-; reflexivity).
  split; [injection Hdo as <- _ _; reflexivity |].
  destruct (Do_attempts_count_sends sample_Env 2 (with_handlers sample_client [retry_once])
              sample_request sample_world res req' w'
              ltac:(constructor; [exact retry_once_keeps_requests | constructor]) Hdo)
    as (calls & _ & Hn & _ & Hexact).
  rewrite Hsends in Hn. cbn in Hn. assert (calls = 2%nat) as -> by lia.
  split; [apply Hexact; [discriminate | reflexivity] |].
  split; [injection Hdo as _ <- _; reflexivity | exact Hsends].
Defined.

(** ** Headers of a multipart request *)

Section MultipartHeaders.
Variable E : Env.

(** X22. A multipart request differs from the request NewRequest builds for
    the same body only in its Content-Type: under every other canonical key
    it carries the caller's value or the default (the bearer token, the
    client-identification header), its counters start at zero, and the
    Content-Type the caller declared is replaced by the boundary-qualified
    one. *)
Theorem makeFormRequest_headers (c : BaseClient) (p : gdepservices.RequestParams)
    (w : World) (forms : gdepservices.FormData) (request : http.Request) :
  gdepservices.Body p ≫= gdepservices.as_FormData = Some forms ->
  gdepservices.failure (gdepservices.Stream forms) = None ->
  let method := gdepservices.Method p in
  let url := URL_String E (gdepservices.URL p) in
  let body :=
    (multipart_part_header E (boundary w) (gdepservices.Key forms)
                           (gdepservices.Filename forms)
     ++ gdepservices.data (gdepservices.Stream forms) ++ multipart_close (boundary w))%list in
  http_NewRequest E method url (Some body) = inl request ->
  exists plain r,
    NewRequest E c method url (Some body) (gdepservices.Headers p) w
    = (Done (inl plain), emit (EvNewRequest method url) w)
    /\ makeFormRequest E c p w = (Done (inl r), emit (EvNewRequest method url) w)
    /\ (forall canonical, canonical <> "Content-Type" ->
          http.Header (http_Request r) !! canonical
          = http.Header (http_Request plain) !! canonical)
    /\ http.Header (http_Request r) !! "Content-Type"
       = Some [FormDataContentType (boundary w)]
    /\ (caller_value (gdepservices.Headers p) "Authorization" = None ->
        access_token c <> "" ->
        http.Header (http_Request r) !! "Authorization"
        = Some ["Bearer " ++ access_token c])
    /\ NumAttempts r = 0 /\ NumErrorsByType r = ∅.
Proof.
  intros Hforms Hfail method url body Hnew.
  destruct (NewRequest_eq E c method url (Some body) (gdepservices.Headers p) w request Hnew)
    as (plain & Hplain & Hatt & Herr & _ & Hhdr).
  exists plain. eexists. split; [exact Hplain |]. split.
  - unfold makeFormRequest. rewrite bind_eq. cbn [get_world]. rewrite Hforms.
    unfold multipart_CreateFormFile, io_Copy. rewrite Hfail, bind_eq.
    fold body method url. rewrite Hplain. reflexivity.
  - cbn [http_Request NumAttempts NumErrorsByType].
    split; [| split; [| split; [| split; [exact Hatt | exact Herr]]]].
    + intros canonical Hne. rewrite set_header_lookup.
      change (http.CanonicalMIMEHeaderKey "Content-Type") with "Content-Type".
      destruct (String.eqb_spec "Content-Type" canonical); [congruence | reflexivity].
    + rewrite set_header_lookup. reflexivity.
    + intros Hcaller Htok. rewrite set_header_lookup.
      change (http.CanonicalMIMEHeaderKey "Content-Type") with "Content-Type".
      cbn [String.eqb Ascii.eqb Bool.eqb]. rewrite Hhdr, Hcaller.
      cbn [String.eqb Ascii.eqb Bool.eqb andb]. apply is_empty_false in Htok.
      rewrite Htok. reflexivity.
Qed.

End MultipartHeaders.

Lemma makeFormRequest_headers_witness :
  exists r,
    makeFormRequest sample_Env sample_client (upload whole_stream) sample_world
    = (Done (inl r),
       emit (EvNewRequest "POST" "https://api.example.com/acme/files") sample_world)
    /\ http.Header (http_Request r) !! "Authorization" = Some ["Bearer tok"]
    /\ http.Header (http_Request r) !! "Splunk-Client" = Some ["client-go/1.0.0"].
Proof.
  destruct (makeFormRequest_headers sample_Env sample_client (upload whole_stream)
              sample_world _ _ eq_refl eq_refl eq_refl)
    as (plain & r & Hplain & Hr & Hother & _ & Hauth & _).
  exists r. split; [exact Hr |]. split.
  - apply Hauth; [reflexivity | discriminate].
  - rewrite Hother by discriminate. injection Hplain as <-. reflexivity.
Defined.
